(** * pto3-go: raw data store and observation model

    A shallow embedding of the metadata cache of the raw data store
    (RawMetadata, Campaign), of the path cache (PathCache.CacheNewPaths) and of
    the observation codec (Observation, ObservationSet), with the properties
    of the design document stated and settled against the embedding.

    Conventions.
    - A Go [string] is a Rocq [string]; the empty string is Go's zero value,
      which the code uses for "absent".
    - A Go pointer that may be nil is an [option]; [None] is nil.
    - A Go [map[string]T] is a [gmap string T]; reading a missing key gives the
      zero value, which the accessors below write out with [default].
    - A Go [int] is a 64-bit integer: a [Z] with the wrap-around of the
      arithmetic written out by [wrap_int].
    - A function that returns an [error] returns an [option error] here
      ([None] is a nil error), next to the state it leaves behind. *)

From Stdlib Require Import ZArith String Ascii List Bool Lia OrderedTypeEx.
From stdpp Require Import gmap strings list sorting.

Local Set Warnings "-register-all".

Local Open Scope string_scope.
Local Open Scope Z_scope.

(** ** Go's [int] *)

Definition int_min : Z := - 2 ^ 63.
Definition int_max : Z := 2 ^ 63 - 1.

Definition wrap_int (z : Z) : Z := (z + 2 ^ 63) mod 2 ^ 64 - 2 ^ 63.

(** ** Errors

    The constructors of the PTO error values the code builds.  The functions
    that build them live in another file of the package; only which one is
    built, and with which arguments, matters here. *)

Inductive error : Type :=
| PTOMissingMetadataError (key : string)
| PTONotFoundError (kind name : string)
| PTOExistsError (kind name : string)
| PTOInternalError (msg : string)      (* PTOErrorf(..).StatusIs(500) *)
| PTOWrapError (cause : string)
| OtherError (msg : string).           (* an error of the Go library or the OS *)

(** ** Characters and strings of the Go library *)

Module strings.

Definition HasPrefix (s pre : string) : bool := String.prefix pre s.

Definition HasSuffix (s suf : string) : bool :=
  let n := String.length s in
  let m := String.length suf in
  (m <=? n)%nat && String.eqb (substring (n - m) m s) suf.

(** [strings.Join]. *)
Fixpoint Join (l : list string) (sep : string) : string :=
  match l with
  | [] => ""
  | [x] => x
  | x :: r => x ++ sep ++ Join r sep
  end.

(** [strings.Contains] for a one-byte needle. *)
Fixpoint ContainsByte (s : string) (c : ascii) : bool :=
  match s with
  | EmptyString => false
  | String x r => Ascii.eqb x c || ContainsByte r c
  end.

End strings.

(** ** unicode/utf8 *)

Module utf8.

Definition byte (c : ascii) : Z := Z.of_N (N_of_ascii c).

Definition between (lo hi : Z) (c : ascii) : bool :=
  (lo <=? byte c) && (byte c <=? hi).

(** For a first byte, the number of bytes of the encoding it starts and the
    range its second byte must lie in: the tables [first] and
    [acceptRanges].  [None] for a byte that starts no encoding. *)
Definition first (c0 : ascii) : option (nat * Z * Z) :=
  let b := byte c0 in
  if b <? 128 then Some (1%nat, 0, 0)
  else if b <? 194 then None
  else if b <=? 223 then Some (2%nat, 128, 191)
  else if b =? 224 then Some (3%nat, 160, 191)
  else if b =? 237 then Some (3%nat, 128, 159)
  else if b <=? 239 then Some (3%nat, 128, 191)
  else if b =? 240 then Some (4%nat, 144, 191)
  else if b <=? 243 then Some (4%nat, 128, 191)
  else if b =? 244 then Some (4%nat, 128, 143)
  else None.

(** The next [k] bytes are continuation bytes. *)
Fixpoint continues (k : nat) (s : string) : bool :=
  match k, s with
  | O, _ => true
  | S k', String c r => between 128 191 c && continues k' r
  | S _, EmptyString => false
  end.

(** The width that [DecodeRuneInString] reports for a string that is not
    empty, with 0 for the width 1 of [RuneError] at a byte that starts no
    encoding. *)
Definition width (s : string) : nat :=
  match s with
  | EmptyString => 0
  | String c0 r =>
    match first c0 with
    | None => 0
    | Some (1%nat, _, _) => 1
    | Some (n, lo, hi) =>
      match r with
      | String c1 r1 => if between lo hi c1 && continues (n - 2) r1 then n else 0
      | EmptyString => 0
      end
    end
  end.

(** [ValidString], with [skip] bytes of an encoding still to pass. *)
Fixpoint valid_from (skip : nat) (s : string) : bool :=
  match s with
  | EmptyString => true
  | String _ r =>
    match skip with
    | S k => valid_from k r
    | O =>
      match width s with
      | O => false
      | S k => valid_from k r
      end
    end
  end.

Definition ValidString (s : string) : bool := valid_from 0 s.

(** U+FFFD, the replacement character, in UTF-8. *)
Definition RuneError : string :=
  String (ascii_of_N 239) (String (ascii_of_N 191) (String (ascii_of_N 189) "")).

End utf8.

(** ** strconv: integers and floats as text *)

Module strconv.

Definition is_digit (c : ascii) : bool :=
  (48 <=? nat_of_ascii c)%nat && (nat_of_ascii c <=? 57)%nat.

Definition digit_val (c : ascii) : Z := Z.of_nat (nat_of_ascii c) - 48.

Definition digit_char (d : Z) : ascii := ascii_of_nat (Z.to_nat (48 + d)).

Fixpoint zeros (n : nat) : string :=
  match n with O => "" | S n' => String "0" (zeros n') end.

(** itoa.go, the loop of [formatBits] in base 10: the digits of [u], the
    last one first, written in front of [acc].  [fuel] bounds the number of
    digits. *)
Fixpoint formatBits (fuel : nat) (u : Z) (acc : string) : string :=
  match fuel with
  | O => acc
  | S fuel' =>
    let acc := String (digit_char (u mod 10)) acc in
    if u / 10 =? 0 then acc else formatBits fuel' (u / 10) acc
  end.

(** [strconv.Itoa], also what [%d] and encoding/json print for an int; an
    int64 has at most 19 digits. *)
Definition Itoa (z : Z) : string :=
  (if z <? 0 then "-" else "") ++ formatBits 20 (Z.abs z) "".

Inductive NumError : Type := ErrSyntax | ErrRange.

Definition maxUint64 : Z := 2 ^ 64 - 1.

(** The loop of [ParseUint(s, 10, 64)]: it stops at the first byte that
    is not a digit, and at the first digit that overflows, whatever
    follows. *)
Fixpoint ParseUint_loop (n : Z) (s : string) : Z * option NumError :=
  match s with
  | EmptyString => (n, None)
  | String c s' =>
    if negb (is_digit c) then (0, Some ErrSyntax)
    else if maxUint64 / 10 + 1 <=? n then (maxUint64, Some ErrRange)
    else
      let n1 := n * 10 + digit_val c in
      if maxUint64 <? n1 then (maxUint64, Some ErrRange)
      else ParseUint_loop n1 s'
  end.

Definition ParseUint (s : string) : Z * option NumError :=
  match s with
  | EmptyString => (0, Some ErrSyntax)
  | _ => ParseUint_loop 0 s
  end.

(** [ParseInt(s, 10, 0)] on a 64-bit platform. *)
Definition ParseInt (s : string) : Z * option NumError :=
  match s with
  | EmptyString => (0, Some ErrSyntax)
  | String c r =>
    let '(neg, s1) :=
      if Ascii.eqb c "+" then (false, r)
      else if Ascii.eqb c "-" then (true, r)
      else (false, s) in
    match ParseUint s1 with
    | (_, Some ErrSyntax) => (0, Some ErrSyntax)
    | (un, _) =>
      if negb neg && (2 ^ 63 <=? un) then (2 ^ 63 - 1, Some ErrRange)
      else if neg && (2 ^ 63 <? un) then (- 2 ^ 63, Some ErrRange)
      else (if neg then - un else un, None)
    end
  end.

(** [strconv.Atoi]: ParseInt(s, 10, 0) converted to int; the fast path of
    the library for short strings computes the same pair. *)
Definition Atoi (s : string) : Z * option NumError := ParseInt s.

(** A float64, given as strconv gives it to its formatters: the shortest
    decimal that reads back as the float (ftoa.go's [decimalSlice]): the
    digits [digs] without leading or trailing zero, the position [dp] of the
    decimal point (the value is 0.d1d2..dn * 10^dp) and the sign.  Zero has no
    digit and dp = 0. *)
Record float64 : Type := mkFloat { neg : bool; digs : string; dp : Z }.

Fixpoint strip_trailing_zeros_rev (r : list ascii) : list ascii :=
  match r with
  | c :: r' => if Ascii.eqb c "0" then strip_trailing_zeros_rev r' else r
  | [] => []
  end.

Definition strip_trailing_zeros (s : string) : string :=
  string_of_list_ascii
    (rev (strip_trailing_zeros_rev (rev (list_ascii_of_string s)))).

(** The float64 an int converts to, and the float64 an integer literal reads
    as.  Exact up to 2^53 in magnitude; beyond, where the conversion rounds,
    the digits given here are those of the integer itself. *)
Definition float64_of_int (z : Z) : float64 :=
  if z =? 0 then mkFloat false "" 0
  else
    let s := Itoa (Z.abs z) in
    mkFloat (z <? 0) (strip_trailing_zeros s) (Z.of_nat (String.length s)).

Definition digit_at (d : string) (i : Z) : ascii :=
  if (0 <=? i) && (i <? Z.of_nat (String.length d)) then
    match String.get (Z.to_nat i) d with Some c => c | None => "0"%char end
  else "0"%char.

Fixpoint digits_from (d : string) (i : Z) (n : nat) : string :=
  match n with
  | O => EmptyString
  | S n' => String (digit_at d i) (digits_from d (i + 1) n')
  end.

(** ftoa.go, [fmtE] with the precision of the shortest form. *)
Definition fmtE (f : float64) : string :=
  let nd := String.length (digs f) in
  let exp := if (nd =? 0)%nat then 0 else dp f - 1 in
  let e := Itoa (Z.abs exp) in
  (if neg f then "-" else "")
    ++ String (digit_at (digs f) 0) ""
    ++ (if (1 <? nd)%nat then "." ++ digits_from (digs f) 1 (nd - 1) else "")
    ++ "e" ++ (if exp <? 0 then "-" else "+")
    ++ (if (String.length e <? 2)%nat then "0" ++ e else e).

(** ftoa.go, [fmtF] with [prec] digits after the point. *)
Definition fmtF (f : float64) (prec : nat) : string :=
  (if neg f then "-" else "")
    ++ (if 0 <? dp f then digits_from (digs f) 0 (Z.to_nat (dp f)) else "0")
    ++ (if (0 <? prec)%nat then "." ++ digits_from (digs f) (dp f) prec else "").

(** [FormatFloat(f, 'g', -1, 64)]: the exponent form when the decimal
    exponent is below -4 or at least 6 (the precision taken for the
    shortest form), the plain form otherwise. *)
Definition FormatFloat_g (f : float64) : string :=
  let nd := Z.of_nat (String.length (digs f)) in
  let exp := dp f - 1 in
  if (exp <? -4) || (6 <=? exp) then fmtE f
  else fmtF f (Z.to_nat (Z.max (nd - dp f) 0)).

End strconv.

(** ** time: instants and their RFC 3339 text *)

Module time.

(** An instant: the seconds since the Unix epoch, the nanoseconds within
    the second, and the zone it is shown in, as seconds east of UTC. *)
Record Time : Type := mkTime { unix : Z; nsec : Z; offset : Z }.

Definition UTC (t : Time) : Time := mkTime (unix t) (nsec t) 0.

(** [time.Unix(sec, 0)]. *)
Definition Unix (sec : Z) : Time := mkTime sec 0 0.

(** [t.Sub(u)]: the duration t-u in nanoseconds, saturated to an int64. *)
Definition Sub (t u : Time) : Z :=
  let d := (unix t - unix u) * 1000000000 + (nsec t - nsec u) in
  Z.max int_min (Z.min int_max d).

(** *** The proleptic Gregorian calendar *)

(** Year, month and day of the day [z] days after 1970-01-01. *)
Definition civil_from_days (z : Z) : Z * Z * Z :=
  let z := z + 719468 in
  let era := z / 146097 in
  let doe := z mod 146097 in
  let yoe := (doe - doe / 1460 + doe / 36524 - doe / 146096) / 365 in
  let y := yoe + era * 400 in
  let doy := doe - (365 * yoe + yoe / 4 - yoe / 100) in
  let mp := (5 * doy + 2) / 153 in
  let d := doy - (153 * mp + 2) / 5 + 1 in
  let m := if mp <? 10 then mp + 3 else mp - 9 in
  (if m <=? 2 then y + 1 else y, m, d).

(** Days from 1970-01-01 to the given date. *)
Definition days_from_civil (y m d : Z) : Z :=
  let y := if m <=? 2 then y - 1 else y in
  let era := y / 400 in
  let yoe := y mod 400 in
  let doy := (153 * (if 2 <? m then m - 3 else m + 9) + 2) / 5 + d - 1 in
  let doe := yoe * 365 + yoe / 4 - yoe / 100 + doy in
  era * 146097 + doe - 719468.

Definition isLeap (y : Z) : bool :=
  (y mod 4 =? 0) && (negb (y mod 100 =? 0) || (y mod 400 =? 0)).

Definition daysIn (m y : Z) : Z :=
  if m =? 2 then (if isLeap y then 29 else 28)
  else if (m =? 4) || (m =? 6) || (m =? 9) || (m =? 11) then 30
  else 31.

(** *** Format *)

(** format.go, [appendInt]: [x] in decimal, zero-padded to [width]. *)
Definition appendInt (x : Z) (width : nat) : string :=
  let d := strconv.Itoa (Z.abs x) in
  (if x <? 0 then "-" else "") ++ strconv.zeros (width - String.length d) ++ d.

(** [t.Format(time.RFC3339)], layout "2006-01-02T15:04:05Z07:00". *)
Definition Format_RFC3339 (t : Time) : string :=
  let abs := unix t + offset t in
  let '(y, m, d) := civil_from_days (abs / 86400) in
  let s := abs mod 86400 in
  let zone :=
    if offset t =? 0 then "Z"
    else
      let z := Z.abs (offset t) / 60 in
      (if offset t <? 0 then "-" else "+")
        ++ appendInt (z / 60) 2 ++ ":" ++ appendInt (z mod 60) 2 in
  appendInt y 4 ++ "-" ++ appendInt m 2 ++ "-" ++ appendInt d 2 ++ "T"
    ++ appendInt (s / 3600) 2 ++ ":" ++ appendInt (s mod 3600 / 60) 2
    ++ ":" ++ appendInt (s mod 60) 2 ++ zone.

(** *** Parse *)

(** Exactly [n] digits at the head of [s]: their value and the rest. *)
Fixpoint digits (n : nat) (acc : Z) (s : string) : option (Z * string) :=
  match n with
  | O => Some (acc, s)
  | S n' =>
    match s with
    | String c r =>
      if strconv.is_digit c then digits n' (acc * 10 + strconv.digit_val c) r
      else None
    | EmptyString => None
    end
  end.

(** format.go, [getnum(s, false)]: one digit, or two when the second byte
    is a digit too. *)
Definition getnum_free (s : string) : option (Z * string) :=
  match digits 2 0 s with
  | Some r => Some r
  | None => digits 1 0 s
  end.

(** A literal byte of the layout. *)
Definition lit (c : ascii) (s : string) : option string :=
  match s with
  | String x r => if Ascii.eqb x c then Some r else None
  | EmptyString => None
  end.

(** The digits at the head of [s], as a list, and the rest. *)
Fixpoint span_digits (s : string) : string * string :=
  match s with
  | String c r =>
    if strconv.is_digit c then
      let '(d, rest) := span_digits r in (String c d, rest)
    else ("", s)
  | EmptyString => ("", "")
  end.

(** format.go, [parseNanoseconds] on the digits after the point: at most
    nine count, scaled to nanoseconds. *)
Definition parseNanoseconds (d : string) : Z :=
  let d9 := substring 0 9 d in
  match digits (String.length d9) 0 d9 with
  | Some (v, _) => v * 10 ^ Z.of_nat (9 - String.length d9)
  | None => 0
  end.

(** An optional fraction of a second after the seconds field. *)
Definition fraction (s : string) : Z * string :=
  match s with
  | String "." r =>
    match span_digits r with
    | (EmptyString, _) => (0, s)
    | (d, rest) => (parseNanoseconds d, rest)
    end
  | _ => (0, s)
  end.

(** The zone of the layout element "Z07:00": the offset east of UTC. *)
Definition zone (s : string) : option (Z * string) :=
  match s with
  | String "Z" r => Some (0, r)
  | String sg r =>
    '(hh, r1) ← digits 2 0 r;
    r2 ← lit ":" r1;
    '(mm, r3) ← digits 2 0 r2;
    if Ascii.eqb sg "+" then Some ((hh * 60 + mm) * 60, r3)
    else if Ascii.eqb sg "-" then Some (- ((hh * 60 + mm) * 60), r3)
    else None
  | EmptyString => None
  end.

(** [time.Parse(time.RFC3339, s)]; [None] is a parse error.  The fields
    are read in the order of the layout, each checked for its range, and
    nothing may follow the zone. *)
Definition Parse_RFC3339 (s : string) : option Time :=
  '(y, s) ← digits 4 0 s;
  s ← lit "-" s;
  '(m, s) ← digits 2 0 s;
  s ← lit "-" s;
  '(d, s) ← digits 2 0 s;
  s ← lit "T" s;
  '(hh, s) ← getnum_free s;
  s ← lit ":" s;
  '(mi, s) ← digits 2 0 s;
  s ← lit ":" s;
  '(ss, s) ← digits 2 0 s;
  let '(ns, s) := fraction s in
  '(off, s) ← zone s;
  if (1 <=? m) && (m <=? 12) && (1 <=? d) && (d <=? daysIn m y)
     && (hh <? 24) && (mi <? 60) && (ss <? 60) && String.eqb s ""
  then
    Some (mkTime (days_from_civil y m d * 86400 + hh * 3600 + mi * 60 + ss - off)
                 ns off)
  else None.

End time.

(** ** path/filepath on a Unix system *)

Module filepath.

Definition Separator : ascii := "/"%char.

(** The elements of a path between its separators, [strings.Split(p, "/")]. *)
Fixpoint elements (p : string) : list string :=
  match p with
  | EmptyString => [""]
  | String c r =>
    if Ascii.eqb c Separator then "" :: elements r
    else match elements r with
         | x :: t => String c x :: t
         | [] => [String c ""]
         end
  end.

(** One element read by the loop of [Clean].  The state is the output
    written so far, as its elements in reverse, and [dotdot], the number of
    leading ".." elements that a later ".." must not remove. *)
Definition clean_step (rooted : bool) (st : nat * list string) (e : string)
  : nat * list string :=
  let '(dotdot, out) := st in
  if String.eqb e "" || String.eqb e "." then st
  else if String.eqb e ".." then
    if (dotdot <? List.length out)%nat then (dotdot, tl out)
    else if rooted then st
    else (S dotdot, ".." :: out)
  else (dotdot, e :: out).

Definition is_rooted (p : string) : bool :=
  match p with
  | String c _ => Ascii.eqb c Separator
  | EmptyString => false
  end.

(** The elements of the cleaned path, left to right. *)
Definition clean_elements (p : string) : list string :=
  rev (snd (fold_left (clean_step (is_rooted p)) (elements p) (O, []))).

Definition Clean (p : string) : string :=
  match p with
  | EmptyString => "."
  | _ =>
    let out := clean_elements p in
    if is_rooted p then "/" ++ strings.Join out "/"
    else match out with
         | [] => "."
         | _ => strings.Join out "/"
         end
  end.

(** [filepath.Join]: the elements from the first non-empty one on, joined
    by the separator and cleaned; the empty string when all are empty. *)
Fixpoint Join (elem : list string) : string :=
  match elem with
  | [] => ""
  | e :: r =>
    if String.eqb e "" then Join r else Clean (strings.Join elem "/")
  end.

Fixpoint drop_empty (l : list string) : list string :=
  match l with
  | e :: r => if String.eqb e "" then drop_empty r else l
  | [] => []
  end.

(** [filepath.Base]: the last element, trailing separators apart. *)
Definition Base (p : string) : string :=
  match p with
  | EmptyString => "."
  | _ =>
    match drop_empty (rev (elements p)) with
    | e :: _ => e
    | [] => "/"
    end
  end.

(** *** Match *)

(** The pattern cut into the chunks the loop of [Match] takes with
    [scanChunk], one per turn: a run of stars, which sets the flag, then the
    bytes up to the next star outside brackets.  [acc] is the chunk read so
    far, in reverse; [started] says that the current turn has read a
    byte. *)
Fixpoint scanChunks (star started inrange : bool) (acc : list ascii)
         (pattern : string) : list (bool * string) :=
  let chunk := string_of_list_ascii (rev acc) in
  match pattern with
  | EmptyString => if started then [(star, chunk)] else []
  | String c r =>
    if Ascii.eqb c "*" && negb inrange then
      match acc with
      | [] => scanChunks true true false [] r
      | _ => (star, chunk) :: scanChunks true true false [] r
      end
    else if Ascii.eqb c "\" then
      match r with
      | String d r' => scanChunks star true inrange (d :: c :: acc) r'
      | EmptyString => scanChunks star true inrange (c :: acc) r
      end
    else if Ascii.eqb c "[" then scanChunks star true true (c :: acc) r
    else if Ascii.eqb c "]" then scanChunks star true false (c :: acc) r
    else scanChunks star true inrange (c :: acc) r
  end.

(** match.go, [getEsc]: one byte of a class, escaped or not; a class does
    not end with it. *)
Definition getEsc (chunk : string) : option (ascii * string) :=
  match chunk with
  | EmptyString => None
  | String c r =>
    if Ascii.eqb c "-" || Ascii.eqb c "]" then None
    else
      let chunk1 := if Ascii.eqb c "\" then r else chunk in
      match chunk1 with
      | String d (String _ _ as rest) => Some (d, rest)
      | _ => None
      end
  end.

Definition in_range (lo hi x : ascii) : bool :=
  (nat_of_ascii lo <=? nat_of_ascii x)%nat
  && (nat_of_ascii x <=? nat_of_ascii hi)%nat.

(** The ranges of a class up to its closing bracket: whether [x] is in
    one of them, and what follows the class.  [None] is a bad pattern.  Names
    are taken byte by byte. *)
Fixpoint class_ranges (fuel : nat) (x : ascii) (chunk : string)
         (nrange : bool) (matched : bool) : option (bool * string) :=
  match fuel with
  | O => None
  | S fuel' =>
    let ranges :=
      '(lo, chunk1) ← getEsc chunk;
      match chunk1 with
      | String "-" r =>
        '(hi, chunk2) ← getEsc r;
        class_ranges fuel' x chunk2 true (matched || in_range lo hi x)
      | _ => class_ranges fuel' x chunk1 true (matched || in_range lo lo x)
      end in
    match chunk with
    | String "]" r => if nrange then Some (matched, r) else ranges
    | _ => ranges
    end
  end.

(** match.go, [matchChunk]: the rest of [s] after the chunk has matched
    its head; [None] when it has not, or when the chunk is malformed. *)
Fixpoint matchChunk_fuel (fuel : nat) (chunk s : string) : option string :=
  match fuel with
  | O => None
  | S fuel' =>
    match chunk with
    | EmptyString => Some s
    | String c chunk' =>
      match s with
      | EmptyString => None
      | String x s' =>
        if Ascii.eqb c "[" then
          let '(negated, chunk1) :=
            match chunk' with
            | String "^" r => (true, r)
            | _ => (false, chunk')
            end in
          '(matched, chunk2) ←
            class_ranges (String.length chunk1) x chunk1 false false;
          if Bool.eqb matched negated then None
          else matchChunk_fuel fuel' chunk2 s'
        else if Ascii.eqb c "?" then
          if Ascii.eqb x Separator then None
          else matchChunk_fuel fuel' chunk' s'
        else if Ascii.eqb c "\" then
          match chunk' with
          | String d chunk'' =>
            if Ascii.eqb d x then matchChunk_fuel fuel' chunk'' s' else None
          | EmptyString => None
          end
        else if Ascii.eqb c x then matchChunk_fuel fuel' chunk' s'
        else None
      end
    end
  end.

Definition matchChunk (chunk s : string) : option string :=
  matchChunk_fuel (S (String.length chunk)) chunk s.

(** The inner loop of [Match] for a chunk after a star: the chunk is tried
    after skipping i+1 bytes, none of them a separator, for i = 0, 1, ...;
    the last chunk must use up the name. *)
Fixpoint star_loop (chunk : string) (last : bool) (name : string)
  : option string :=
  match name with
  | EmptyString => None
  | String x name' =>
    if Ascii.eqb x Separator then None
    else
      match matchChunk chunk name' with
      | Some t =>
        if last && negb (String.eqb t "") then star_loop chunk last name'
        else Some t
      | None => star_loop chunk last name'
      end
  end.

Fixpoint matchChunks (chunks : list (bool * string)) (name : string) : bool :=
  match chunks with
  | [] => String.eqb name ""
  | (star, chunk) :: rest =>
    let last := match rest with [] => true | _ => false end in
    if star && String.eqb chunk "" then
      negb (strings.ContainsByte name Separator)
    else
      let here :=
        match matchChunk chunk name with
        | Some t => if String.eqb t "" || negb last then Some t else None
        | None => None
        end in
      match here with
      | Some t => matchChunks rest t
      | None =>
        if star then
          match star_loop chunk last name with
          | Some t => matchChunks rest t
          | None => false
          end
        else false
      end
  end.

(** [filepath.Match], its boolean result; a malformed pattern gives false
    (next to an error, which the callers here drop). *)
Definition Match (pattern name : string) : bool :=
  matchChunks (scanChunks false false false [] pattern) name.

End filepath.

(** ** The order of Go strings *)

(** The order of [<] on Go strings, byte by byte: the order [sort.Slice] is
    given in [FileNames], and the order in which encoding/json writes the
    keys of a map. *)
Definition string_le : relation string := fun a b => String.leb a b = true.

#[global] Instance string_le_dec : RelDecision string_le :=
  fun a b => decide (String.leb a b = true).

(** Members of a map, ordered by their keys. *)
Definition key_le {A : Type} : relation (string * A) :=
  fun a b => string_le (fst a) (fst b).

#[global] Instance key_le_dec {A : Type} : RelDecision (@key_le A) :=
  fun a b => decide (String.leb (fst a) (fst b) = true).

(** ** Dynamic values, fmt and encoding/json *)

(** The values of type [interface{}] that the package builds or receives:
    what encoding/json decodes into an [interface{}] (nil, bool, float64,
    string, []interface{}, map[string]interface{}), and the ints and string
    slices the package itself puts into the values it encodes.  A [[]string] may
    be nil.  The members of a map are kept sorted by key, the order in which
    fmt prints them. *)
Inductive iface : Type :=
| INil
| IBool (b : bool)
| IInt (z : Z)
| IFloat64 (f : strconv.float64)
| IString (s : string)
| IStrings (l : option (list string))
| ISlice (l : list iface)
| IMap (m : list (string * iface)).

Module fmt.

(** [fmt.Sprintf("%v", v)]. *)
Fixpoint Sprint (v : iface) : string :=
  match v with
  | INil => "<nil>"
  | IBool b => if b then "true" else "false"
  | IInt z => strconv.Itoa z
  | IFloat64 f => strconv.FormatFloat_g f
  | IString s => s
  | IStrings l => "[" ++ strings.Join (default [] l) " " ++ "]"
  | ISlice l => "[" ++ strings.Join (map Sprint l) " " ++ "]"
  | IMap m =>
    "map[" ++ strings.Join (map (fun kv => fst kv ++ ":" ++ Sprint (snd kv)) m) " "
           ++ "]"
  end.

End fmt.

Module json.

(** A JSON document.  A number stands for the float64 it reads as, a string
    and the key of a member for the Go string the decoder reads it as. *)
Inductive value : Type :=
| Null
| Bool (b : bool)
| Number (f : strconv.float64)
| String_ (s : string)
| Array (l : list value)
| Object (members : list (string * value)).

(** The bytes handed to [json.Unmarshal]: a document, or no JSON at all. *)
Inductive text : Type :=
| Invalid
| Doc (v : value).

(** A Go string as the encoder writes it, read back: the string coerced to
    valid UTF-8, with U+FFFD in the place of every byte that starts no
    encoding.  ([skip] bytes of an encoding are still to be copied.) *)
Fixpoint coerce_from (skip : nat) (s : string) : string :=
  match s with
  | EmptyString => EmptyString
  | String c r =>
    match skip with
    | S k => String c (coerce_from k r)
    | O =>
      match utf8.width s with
      | O => utf8.RuneError ++ coerce_from 0 r
      | S k => String c (coerce_from k r)
      end
    end
  end.

Definition coerce (s : string) : string := coerce_from 0 s.

(** [json.Marshal] of a dynamic value.  An int is written in decimal, a nil
    slice as null, a string and the key of a map coerced to valid UTF-8. *)
Fixpoint encode (v : iface) : value :=
  match v with
  | INil => Null
  | IBool b => Bool b
  | IInt z => Number (strconv.float64_of_int z)
  | IFloat64 f => Number f
  | IString s => String_ (coerce s)
  | IStrings None => Null
  | IStrings (Some l) => Array (map (fun s => String_ (coerce s)) l)
  | ISlice l => Array (map encode l)
  | IMap m => Object (map (fun kv => (coerce (fst kv), encode (snd kv))) m)
  end.

(** Members sorted by key, a later duplicate replacing an earlier one: what
    is left of the members of an object in a Go map. *)
Fixpoint insert_member {A} (k : string) (v : A) (m : list (string * A))
  : list (string * A) :=
  match m with
  | [] => [(k, v)]
  | (k', v') :: r =>
    match String.compare k k' with
    | Lt => (k, v) :: m
    | Eq => (k, v) :: r
    | Gt => (k', v') :: insert_member k v r
    end
  end.

Definition members_map {A} (m : list (string * A)) : list (string * A) :=
  fold_left (fun acc kv => insert_member (fst kv) (snd kv) acc) m [].

(** [json.Unmarshal] into an [interface{}]. *)
Fixpoint decode (v : value) : iface :=
  match v with
  | Null => INil
  | Bool b => IBool b
  | Number f => IFloat64 f
  | String_ s => IString s
  | Array l => ISlice (map decode l)
  | Object m => IMap (members_map (map (fun kv => (fst kv, decode (snd kv))) m))
  end.

(** [json.Unmarshal(b, &jslice)] for [var jslice []interface{}]: null
    leaves the slice nil, an array fills it, anything else is an error. *)
Definition Unmarshal_slice (b : text) : option (list iface) :=
  match b with
  | Doc Null => Some []
  | Doc (Array l) => Some (map decode l)
  | _ => None
  end.

(** [json.Unmarshal(b, &jmap)] for [var jmap map[string]interface{}]: null
    leaves the map nil, which reads as empty; of members with one key the
    last one stays. *)
Definition Unmarshal_map (b : text) : option (gmap string iface) :=
  match b with
  | Doc Null => Some ∅
  | Doc (Object m) =>
    Some (fold_left (fun acc kv => <[fst kv := decode (snd kv)]> acc) m ∅)
  | _ => None
  end.

(** [json.Marshal(&jslice)] and [json.Marshal(jmap)].  The encoder writes
    the members of a map sorted by their keys, and each key coerced to valid
    UTF-8 like a string. *)
Definition Marshal_slice (jslice : list iface) : text :=
  Doc (Array (map encode jslice)).

Definition Marshal_map (jmap : gmap string iface) : text :=
  Doc (Object (map (fun kv => (coerce (fst kv), encode (snd kv)))
                   (merge_sort key_le (map_to_list jmap)))).

End json.

(** ** What a function leaves behind *)

(** A value or an error. *)
Inductive result (A : Type) : Type :=
| Ok (a : A)
| Err (e : error).
Arguments Ok {A} a.
Arguments Err {A} e.

(** The end of a call on a state [S]: it returns, with the state it leaves
    and its error (nil: [None]), or it panics. *)
Inductive outcome (S : Type) : Type :=
| Returns (s : S) (err : option error)
| Panics.
Arguments Returns {S} s err.
Arguments Panics {S}.

(** ** The conversions of dynamic values *)

Definition AsString (v : iface) : string :=
  match v with
  | IString cv => cv
  | _ => fmt.Sprint v
  end.

Definition AsStringArray (v : iface) : option (list string) * bool :=
  match v with
  | IString cv => (Some [cv], true)
  | IStrings cv => (cv, true)
  | ISlice cv => (Some (map AsString cv), true)
  | _ => (None, false)
  end.

(** The error [time.Parse] returns. *)
Definition ParseError : error := OtherError "parsing time".

Definition time_Parse (s : string) : result time.Time :=
  match time.Parse_RFC3339 s with
  | Some t => Ok t
  | None => Err ParseError
  end.

(** No dynamic value met here holds a [time.Time] or an [int64], the other
    two cases of the type switch. *)
Definition AsTime (v : iface) : result time.Time :=
  match v with
  | IString cv => time_Parse cv
  | IInt cv => Ok (time.Unix cv)
  | _ => time_Parse (AsString v)
  end.

(** ** RawMetadata *)

Definition CampaignMetadataFilename : string := "__pto_campaign_metadata.json".
Definition FileMetadataSuffix : string := ".pto_file_metadata.json".

Inductive RawMetadata : Type := mkRawMetadata {
  Parent : option RawMetadata;
  filetype : string;
  owner : string;
  timeStart : option time.Time;
  timeEnd : option time.Time;
  Metadata : gmap string string;
  datalink : string;
  datasize : Z;
  creatime : option time.Time;
  modtime : option time.Time
}.

(** The zero value of the struct. *)
Definition RawMetadata_zero : RawMetadata :=
  mkRawMetadata None "" "" None None ∅ "" 0 None None.

Definition Filetype (md : RawMetadata) (inherit : bool) : string :=
  match decide (filetype md = ""), inherit, Parent md with
  | left _, true, Some parent => filetype parent
  | _, _, _ => filetype md
  end.

Definition Owner (md : RawMetadata) (inherit : bool) : string :=
  match decide (owner md = ""), inherit, Parent md with
  | left _, true, Some parent => owner parent
  | _, _, _ => owner md
  end.

Definition TimeStart (md : RawMetadata) (inherit : bool) : option time.Time :=
  match timeStart md, inherit, Parent md with
  | None, true, Some parent => timeStart parent
  | _, _, _ => timeStart md
  end.

Definition TimeEnd (md : RawMetadata) (inherit : bool) : option time.Time :=
  match timeEnd md, inherit, Parent md with
  | None, true, Some parent => timeEnd parent
  | _, _, _ => timeEnd md
  end.

(** [m[k]] on a Go map of strings: the empty string when the key is missing. *)
Definition map_get (m : gmap string string) (k : string) : string :=
  default "" (m !! k).

Definition Get (md : RawMetadata) (k : string) (inherit : bool) : string :=
  let out := map_get (Metadata md) k in
  match decide (out = ""), inherit, Parent md with
  | left _, true, Some parent => map_get (Metadata parent) k
  | _, _, _ => out
  end.

Definition validate (md : RawMetadata) (isCampaign : bool) : option error :=
  if decide (Owner md true = "") then Some (PTOMissingMetadataError "_owner")
  else if isCampaign then None
  else if decide (Filetype md true = "") then
    Some (PTOMissingMetadataError "_file_type")
  else match TimeStart md true with
       | None => Some (PTOMissingMetadataError "_time_start")
       | Some _ =>
         match TimeEnd md true with
         | None => Some (PTOMissingMetadataError "_time_end")
         | Some _ => None
         end
       end.

Definition set_filetype (md : RawMetadata) (v : string) : RawMetadata :=
  mkRawMetadata (Parent md) v (owner md) (timeStart md) (timeEnd md)
                (Metadata md) (datalink md) (datasize md) (creatime md) (modtime md).

Definition set_owner (md : RawMetadata) (v : string) : RawMetadata :=
  mkRawMetadata (Parent md) (filetype md) v (timeStart md) (timeEnd md)
                (Metadata md) (datalink md) (datasize md) (creatime md) (modtime md).

Definition set_timeStart (md : RawMetadata) (v : option time.Time) : RawMetadata :=
  mkRawMetadata (Parent md) (filetype md) (owner md) v (timeEnd md)
                (Metadata md) (datalink md) (datasize md) (creatime md) (modtime md).

Definition set_timeEnd (md : RawMetadata) (v : option time.Time) : RawMetadata :=
  mkRawMetadata (Parent md) (filetype md) (owner md) (timeStart md) v
                (Metadata md) (datalink md) (datasize md) (creatime md) (modtime md).

Definition set_Metadata (md : RawMetadata) (v : gmap string string) : RawMetadata :=
  mkRawMetadata (Parent md) (filetype md) (owner md) (timeStart md) (timeEnd md)
                v (datalink md) (datasize md) (creatime md) (modtime md).

Definition set_Parent (md : RawMetadata) (v : option RawMetadata) : RawMetadata :=
  mkRawMetadata v (filetype md) (owner md) (timeStart md) (timeEnd md)
                (Metadata md) (datalink md) (datasize md) (creatime md) (modtime md).

(** The derived fields, which only [updateFileVirtualMetadata] writes. *)
Definition set_virtual (md : RawMetadata) (link : string) (size : Z)
           (created modified : option time.Time) : RawMetadata :=
  mkRawMetadata (Parent md) (filetype md) (owner md) (timeStart md) (timeEnd md)
                (Metadata md) link size created modified.

(** One turn of the loop of [UnmarshalJSON] over the decoded object. *)
Definition UnmarshalJSON_member (md : RawMetadata) (k : string) (v : iface)
  : result RawMetadata :=
  if String.eqb k "_file_type" then Ok (set_filetype md (AsString v))
  else if String.eqb k "_owner" then Ok (set_owner md (AsString v))
  else if String.eqb k "_time_start" then
    match AsTime v with
    | Ok t => Ok (set_timeStart md (Some t))
    | Err e => Err (PTOWrapError "time")
    end
  else if String.eqb k "_time_end" then
    match AsTime v with
    | Ok t => Ok (set_timeEnd md (Some t))
    | Err e => Err (PTOWrapError "time")
    end
  else if strings.HasPrefix k "__" then Ok md
  else Ok (set_Metadata md (<[k := AsString v]> (Metadata md))).

Fixpoint UnmarshalJSON_members (md : RawMetadata) (jmap : list (string * iface))
  : result RawMetadata :=
  match jmap with
  | [] => Ok md
  | (k, v) :: rest =>
    match UnmarshalJSON_member md k v with
    | Ok md' => UnmarshalJSON_members md' rest
    | Err e => Err e
    end
  end.

(** [md.UnmarshalJSON(b)].  The members are visited in the order in which
    the map enumerates them; each key occurs once, so the record filled in does
    not depend on that order. *)
Definition UnmarshalJSON (md : RawMetadata) (b : json.text) : result RawMetadata :=
  let md := set_Metadata md ∅ in
  match json.Unmarshal_map b with
  | None => Err (PTOWrapError "json")
  | Some jmap => UnmarshalJSON_members md (map_to_list jmap)
  end.

(** ** The file system, as the package asks it *)

Record FileInfo : Type := mkFileInfo { Size : Z; ModTime : time.Time }.

Inductive stat_result : Type :=
| StatOk (fi : FileInfo)
| StatNotExist                      (* an error with os.IsNotExist *)
| StatError.                        (* any other error *)

(** What the operating system answers: the bytes of a file opened for
    reading ([None]: it cannot be opened or read), [os.Stat], and the names
    [ioutil.ReadDir] lists, sorted ([None]: the listing fails). *)
Record FS : Type := mkFS {
  ReadFile : string -> option json.text;
  Stat : string -> stat_result;
  ReadDir : string -> option (list string)
}.

(** [RawMetadataFromReader], on the bytes read. *)
Definition RawMetadataFromReader (b : json.text) (parent : option RawMetadata)
  : result RawMetadata :=
  match UnmarshalJSON RawMetadata_zero b with
  | Err e => Err (PTOWrapError "json")
  | Ok md => Ok (set_Parent md parent)
  end.

Definition RawMetadataFromFile (fs : FS) (pathname : string)
           (parent : option RawMetadata) : result RawMetadata :=
  match ReadFile fs pathname with
  | None => Err (PTOWrapError "open")
  | Some b => RawMetadataFromReader b parent
  end.

(** ** Campaign *)

(** The configuration, of which the campaign code reads the root of the raw
    data store and calls [LinkTo].  What [LinkTo] computes is declared in
    another file of the package, so it is a field here: the URL it builds for
    a relative path, and its error. *)
Record PTOConfiguration : Type := mkConfig {
  RawRoot : string;
  LinkTo : string -> string * option error
}.

(** [fileMetadata] is a Go map, nil ([None]) after [unloadMetadata], of
    pointers, nil ([None]) where a load has failed. *)
Record Campaign : Type := mkCampaign {
  config : PTOConfiguration;
  path : string;
  stale : bool;
  campaignMetadata : option RawMetadata;
  fileMetadata : option (gmap string (option RawMetadata))
}.

Definition set_stale (cam : Campaign) (v : bool) : Campaign :=
  mkCampaign (config cam) (path cam) v (campaignMetadata cam) (fileMetadata cam).

Definition set_campaignMetadata (cam : Campaign) (v : option RawMetadata)
  : Campaign :=
  mkCampaign (config cam) (path cam) (stale cam) v (fileMetadata cam).

Definition set_fileMetadata (cam : Campaign)
           (v : option (gmap string (option RawMetadata))) : Campaign :=
  mkCampaign (config cam) (path cam) (stale cam) (campaignMetadata cam) v.

(** [newCampaign(config, name, nil)], the call of [ScanCampaigns]: a stale
    campaign with an empty file cache.  (With metadata given, the function
    goes on to create the directory and to force a reload.) *)
Definition newCampaign (config : PTOConfiguration) (name : string) : Campaign :=
  mkCampaign config (filepath.Join [RawRoot config; name]) true None (Some ∅).

(** [cam.fileMetadata[filename]] with the comma-ok form: a nil map reads as
    empty. *)
Definition fileMetadata_lookup (cam : Campaign) (filename : string)
  : option (option RawMetadata) :=
  match fileMetadata cam with
  | Some m => m !! filename
  | None => None
  end.

(** The file metadata struct behind the pointer in the cache is overwritten
    in place: the cache shows the new fields. *)
Definition store_file (cam : Campaign) (filename : string) (md : RawMetadata)
  : Campaign :=
  set_fileMetadata cam
    (match fileMetadata cam with
     | Some m => Some (<[filename := Some md]> m)
     | None => None
     end).

Definition updateFileVirtualMetadata (fs : FS) (cam : Campaign)
           (filename : string) : outcome Campaign :=
  match fileMetadata_lookup cam filename with
  | None => Returns cam (Some (PTONotFoundError "file" filename))
  | Some mdp =>
    (* size and creation time, from the data file *)
    let data :=
      match Stat fs (filepath.Join [path cam; filename]) with
      | StatOk datafi => Ok (Size datafi, Some (ModTime datafi))
      | StatNotExist => Ok (0, None)
      | StatError => Err (OtherError "stat")
      end in
    match data, mdp with
    | Err e, _ => Returns cam (Some e)
    | Ok _, None => Panics                   (* md.datasize = .. through nil *)
    | Ok (size, created), Some md =>
      (* modification time, from the metadata file *)
      match Stat fs (filepath.Join [path cam; filename ++ FileMetadataSuffix]) with
      | StatOk metafi =>
        let modified := ModTime metafi in
        let '(created, modified) :=
          match created with
          | None => (modified, modified)
          | Some c =>
            if 0 <? time.Sub c modified then (c, c) else (c, modified)
          end in
        let '(link, err) :=
          LinkTo (config cam)
                 ("raw/" ++ filepath.Base (path cam) ++ "/" ++ filename ++ "/data") in
        Returns
          (store_file cam filename
                      (set_virtual md link size (Some created) (Some modified)))
          err
      | _ =>
        Returns
          (store_file cam filename
                      (set_virtual md (datalink md) size created (modtime md)))
          (Some (OtherError "stat"))
      end
    end
  end.

(** [cam.fileMetadata[linkname] = md]: an assignment to an entry of a nil
    map panics. *)
Definition assign_file (cam : Campaign) (linkname : string)
           (md : option RawMetadata) : option Campaign :=
  match fileMetadata cam with
  | Some m => Some (set_fileMetadata cam (Some (<[linkname := md]> m)))
  | None => None
  end.

(** The name of the data file a metadata file belongs to:
    [metafilename[0 : len(metafilename)-len(FileMetadataSuffix)]]. *)
Definition linkname_of (metafilename : string) : string :=
  substring 0 (String.length metafilename - String.length FileMetadataSuffix)
            metafilename.

(** The loop of [reloadMetadata] over the directory entries. *)
Fixpoint reload_entries (fs : FS) (cam : Campaign) (direntries : list string)
  : outcome Campaign :=
  match direntries with
  | [] => Returns (set_stale cam false) None
  | metafilename :: rest =>
    if strings.HasSuffix metafilename FileMetadataSuffix then
      let linkname := linkname_of metafilename in
      let loaded :=
        RawMetadataFromFile fs (filepath.Join [path cam; metafilename])
                            (campaignMetadata cam) in
      match assign_file cam linkname
                        (match loaded with Ok md => Some md | Err _ => None end) with
      | None => Panics
      | Some cam1 =>
        match loaded with
        | Err e => Returns cam1 (Some e)
        | Ok _ =>
          match updateFileVirtualMetadata fs cam1 linkname with
          | Returns cam2 None => reload_entries fs cam2 rest
          | Returns cam2 (Some e) => Returns cam2 (Some e)
          | Panics => Panics
          end
        end
      end
    else reload_entries fs cam rest
  end.

Definition reloadMetadata (fs : FS) (cam : Campaign) (force : bool)
  : outcome Campaign :=
  if negb force && negb (stale cam) then Returns cam None
  else
    match RawMetadataFromFile
            fs (filepath.Join [path cam; CampaignMetadataFilename]) None with
    | Err e => Returns (set_campaignMetadata cam None) (Some e)
    | Ok md =>
      let cam := set_campaignMetadata cam (Some md) in
      (* the error of ReadDir is overwritten unread; a failed listing is empty *)
      reload_entries fs cam (default [] (ReadDir fs (path cam)))
    end.

Definition unloadMetadata (cam : Campaign) : Campaign :=
  mkCampaign (config cam) (path cam) true None None.

(** *** Reading and writing file data *)

(** The calls that open or create a file, in the order they are made. *)
Inductive fileop : Type :=
| OpOpen (name : string)
| OpCreate (name : string).

Definition path_ok (cam : Campaign) (rawpath : string) : bool :=
  filepath.Match (filepath.Join [path cam; "*"]) rawpath.

Definition path_not_ok (rawpath : string) : error :=
  PTOInternalError ("path " ++ rawpath ++ " is not ok").

(** The local path both functions build and check:
    [filepath.Clean(filepath.Join(cam.path, filename))]. *)
Definition rawpath_of (cam : Campaign) (filename : string) : string :=
  filepath.Clean (filepath.Join [path cam; filename]).

(** [ReadFileData]: the files opened, and the error.  ([os.Open] may fail
    too: its answer is the caller's to read.) *)
Definition ReadFileData (cam : Campaign) (filename : string)
  : list fileop * option error :=
  let rawpath := rawpath_of cam filename in
  if negb (path_ok cam rawpath) then ([], Some (path_not_ok rawpath))
  else ([OpOpen rawpath], None).

Definition WriteFileData (fs : FS) (cam : Campaign) (filename : string)
           (force : bool) : list fileop * option error :=
  let rawpath := rawpath_of cam filename in
  if negb (path_ok cam rawpath) then ([], Some (path_not_ok rawpath))
  else
    let exists_ :=
      match Stat fs rawpath with
      | StatNotExist => false
      | _ => true
      end in
    if negb force && exists_ then ([], Some (PTOExistsError "file" filename))
    else ([OpCreate rawpath], None).

(** ** PathCache *)

(** The database, as far as [CacheNewPaths] touches it: the last value of the
    sequence [paths_id_seq] and the rows of the table [paths], whose column
    [string] may hold NULL ([None]). *)
Record DB : Type := mkDB {
  paths_id_seq : Z;
  paths : list (Z * option string)
}.

(** [SELECT nextval('paths_id_seq')] moves the sequence one step on and
    gives the value reached; [SELECT setval('paths_id_seq', v)] makes [v] its
    last value. *)
Definition nextval (db : DB) : DB * Z :=
  (mkDB (paths_id_seq db + 1) (paths db), paths_id_seq db + 1).

Definition setval (db : DB) (v : Z) : DB := mkDB v (paths db).

(** A string as it goes through the pipe into the table: encoding/csv
    writes the empty string without quotes, and [COPY ... WITH CSV] reads an
    empty field without quotes as NULL. *)
Definition copy_string (s : string) : option string :=
  if decide (s = "") then None else Some s.

(** [COPY paths (id, string) FROM STDIN WITH CSV], of the records
    streamed. *)
Definition CopyFrom (db : DB) (rows : list (Z * string)) : DB :=
  mkDB (paths_id_seq db)
       (paths db ++ map (fun r => (fst r, copy_string (snd r))) rows)%list.

(** What the database and the operating system answer one call of
    [CacheNewPaths] with: the errors, [None] where the call goes through,
    and, for a copy that fails, the number of strings that the producer has
    gone through when the function returns. *)
Record answers : Type := mkAnswers {
  QueryOne_err : option error;
  Exec_err : option error;
  Pipe_err : option error;
  CopyFrom_err : option error;
  produced : nat
}.

(** [cache[ps]] on the Go map: 0 when the string is not cached. *)
Definition cache_get (cache : gmap string Z) (ps : string) : Z :=
  default 0 (cache !! ps).

(** The loop of the producer goroutine over the strings, in the order the
    range gives them: the cache as it leaves it, the rows written to the
    pipe, and the counter. *)
Fixpoint produce (cache : gmap string Z) (pidseq : Z) (strs : list string)
  : gmap string Z * list (Z * string) * Z :=
  match strs with
  | [] => (cache, [], pidseq)
  | pathstring :: rest =>
    let '(cache', rows, last) :=
      produce (<[pathstring := pidseq]> cache) (wrap_int (pidseq + 1)) rest in
    (cache', (pidseq, pathstring) :: rows, last)
  end.

Section PathCache.

(** The order in which a [range] over the set gives its elements. *)
Variable range : gset string -> list string.

(** [cache.CacheNewPaths(db, pathSet)]: the database, the cache and the
    caller's set as the call leaves them, and its error.  After a copy that
    succeeds the function waits for the producer, which has run to its end.
    After a copy that fails it returns at once: the producer has then written
    the cache for the strings it has gone through, the first [produced io]
    of its loop. *)
Definition CacheNewPaths (io : answers) (db : DB) (cache : gmap string Z)
           (pathSet : gset string)
  : DB * gmap string Z * gset string * option error :=
  (* first, reduce to paths not already in the cache *)
  let pathSet := filter (fun ps => ¬ (0 < cache_get cache ps)) pathSet in
  (* allocate a range of IDs in the database *)
  match QueryOne_err io with
  | Some e => (db, cache, pathSet, Some e)
  | None =>
    let '(db, pidseq) := nextval db in
    match Exec_err io with
    | Some e => (db, cache, pathSet, Some e)
    | None =>
      let db := setval db (wrap_int (pidseq + Z.of_nat (size pathSet))) in
      match Pipe_err io with
      | Some e => (db, cache, pathSet, Some e)
      | None =>
        (* add entries to the cache while streaming into the database *)
        match CopyFrom_err io with
        | Some e =>
          let '(cache, _, _) :=
            produce cache pidseq (take (produced io) (range pathSet)) in
          (db, cache, pathSet, Some e)
        | None =>
          let '(cache, rows, _) := produce cache pidseq (range pathSet) in
          (* wait for the producer and return its error *)
          (CopyFrom db rows, cache, pathSet, None)
        end
      end
    end
  end.

End PathCache.

(** ** Conditions, paths, observation sets and observations *)

Module Condition.
Record t : Type := mk { ID : Z; Name : string }.
End Condition.

Module Path.
Record t : Type := mk { ID : Z; String_ : string }.
End Path.

Module ObservationSet.

(** [Sources] is a slice, nil ([None]) in the zero value. *)
Record t : Type := mk {
  ID : Z;
  Sources : option (list string);
  Analyzer : string;
  Metadata : gmap string string;
  datalink : string;
  link : string;
  count : Z
}.

Definition zero : t := mk 0 None "" ∅ "" "" 0.

(** The map [jmap] that [MarshalJSON] fills in. *)
Definition MarshalJSON_jmap (set : t) : gmap string iface :=
  let jmap : gmap string iface := ∅ in
  let jmap := <["_sources" := IStrings (Sources set)]> jmap in
  let jmap := <["_analyzer" := IString (Analyzer set)]> jmap in
  let jmap :=
    if decide (link set = "") then jmap
    else <["__link" := IString (link set)]> jmap in
  let jmap :=
    if decide (datalink set = "") then jmap
    else <["__data" := IString (datalink set)]> jmap in
  let jmap :=
    if decide (count set = 0) then jmap
    else <["__obs_count" := IInt (count set)]> jmap in
  map_fold (fun k v jmap => <[k := IString v]> jmap) jmap (Metadata set).

Definition MarshalJSON (set : t) : json.text :=
  json.Marshal_map (MarshalJSON_jmap set).

(** One turn of the loop of [UnmarshalJSON]; the error is that of a
    [_sources] that is no string array, which ends the call. *)
Definition UnmarshalJSON_member (set : t) (k : string) (v : iface)
  : t * option error :=
  if String.eqb k "_sources" then
    let '(sources, ok) := AsStringArray v in
    (mk (ID set) sources (Analyzer set) (Metadata set) (datalink set)
        (link set) (count set),
     if ok then None else Some (OtherError "_sources not a string array"))
  else if String.eqb k "_analyzer" then
    (mk (ID set) (Sources set) (AsString v) (Metadata set) (datalink set)
        (link set) (count set), None)
  else if strings.HasPrefix k "__" then (set, None)
  else
    (mk (ID set) (Sources set) (Analyzer set)
        (<[k := AsString v]> (Metadata set)) (datalink set) (link set)
        (count set), None).

Fixpoint UnmarshalJSON_members (set : t) (jmap : list (string * iface))
  : t * option error :=
  match jmap with
  | [] => (set, None)
  | (k, v) :: rest =>
    match UnmarshalJSON_member set k v with
    | (set', None) => UnmarshalJSON_members set' rest
    | (set', Some e) => (set', Some e)
    end
  end.

Definition UnmarshalJSON (set : t) (b : json.text) : t * option error :=
  let set := mk (ID set) (Sources set) (Analyzer set) ∅ (datalink set)
                (link set) (count set) in
  match json.Unmarshal_map b with
  | None => (set, Some (OtherError "json"))
  | Some jmap =>
    let set := mk 0 (Sources set) (Analyzer set) (Metadata set)
                  (datalink set) (link set) (count set) in
    match UnmarshalJSON_members set (map_to_list jmap) with
    | (set, Some e) => (set, Some e)
    | (set, None) =>
      match Sources set with
      | None => (set, Some (OtherError "ObservationSet missing _sources"))
      | Some _ =>
        if decide (Analyzer set = "") then
          (set, Some (OtherError "ObservationSet missing _analyzer"))
        else (set, None)
      end
    end
  end.

End ObservationSet.

Module Observation.

Record t : Type := mk {
  ID : Z;
  SetID : Z;
  Set_ : option ObservationSet.t;
  Start : time.Time;
  End_ : time.Time;
  PathID : Z;
  Path_ : option Path.t;
  ConditionID : Z;
  Condition_ : option Condition.t;
  Value : Z
}.

(** [obs.MarshalJSON()]; [None] is the panic of reading the path string or
    the condition name through a nil pointer. *)
Definition MarshalJSON (obs : t) : option json.text :=
  match Path_ obs, Condition_ obs with
  | Some p, Some c =>
    let jslice :=
      [ IInt (SetID obs);
        IString (time.Format_RFC3339 (time.UTC (Start obs)));
        IString (time.Format_RFC3339 (time.UTC (End_ obs)));
        IString (Path.String_ p);
        IString (Condition.Name c) ] in
    let jslice :=
      if decide (Value obs = 0) then jslice
      else (jslice ++ [IInt (Value obs)])%list in
    Some (json.Marshal_slice jslice)
  | _, _ => None
  end.

(** [time.Time{}], which [time.Parse] returns next to an error. *)
Definition zero_time : time.Time := time.mkTime (-62135596800) 0 0.

Definition nth_iface (jslice : list iface) (i : nat) : iface :=
  nth i jslice INil.

(** [obs.UnmarshalJSON(b)]: the observation as the call leaves it, and its
    error. *)
Definition UnmarshalJSON (obs : t) (b : json.text) : t * option error :=
  match json.Unmarshal_slice b with
  | None => (obs, Some (OtherError "json"))
  | Some jslice =>
    if (List.length jslice <? 5)%nat then
      (obs, Some (OtherError "Observation requires at least five elements"))
    else
      (* the error of this Atoi is overwritten unread *)
      let setid := fst (strconv.Atoi (AsString (nth_iface jslice 0))) in
      let obs := mk 0 setid (Set_ obs) (Start obs) (End_ obs) (PathID obs)
                    (Path_ obs) (ConditionID obs) (Condition_ obs) (Value obs) in
      match time_Parse (AsString (nth_iface jslice 1)) with
      | Err e =>
        (mk (ID obs) (SetID obs) (Set_ obs) zero_time (End_ obs) (PathID obs)
            (Path_ obs) (ConditionID obs) (Condition_ obs) (Value obs), Some e)
      | Ok start =>
        match time_Parse (AsString (nth_iface jslice 2)) with
        | Err e =>
          (mk (ID obs) (SetID obs) (Set_ obs) start zero_time (PathID obs)
              (Path_ obs) (ConditionID obs) (Condition_ obs) (Value obs), Some e)
        | Ok end_ =>
          let obs :=
            mk (ID obs) (SetID obs) (Set_ obs) start end_ (PathID obs)
               (Some (Path.mk 0 (AsString (nth_iface jslice 3))))
               (ConditionID obs)
               (Some (Condition.mk 0 (AsString (nth_iface jslice 4))))
               (Value obs) in
          if (6 <=? List.length jslice)%nat then
            let '(value, err) := strconv.Atoi (AsString (nth_iface jslice 5)) in
            (mk (ID obs) (SetID obs) (Set_ obs) (Start obs) (End_ obs)
                (PathID obs) (Path_ obs) (ConditionID obs) (Condition_ obs)
                value,
             match err with
             | Some _ => Some (OtherError "strconv.Atoi")
             | None => None
             end)
          else (obs, None)
        end
      end
  end.

Definition zero : t :=
  mk 0 0 None zero_time zero_time 0 None 0 None 0.

End Observation.

(** ** Names and directories, for the statements on the path check *)

(** The bytes that [filepath.Match] reads as more than themselves. *)
Definition is_meta (c : ascii) : bool :=
  Ascii.eqb c "*" || Ascii.eqb c "?" || Ascii.eqb c "[" || Ascii.eqb c "\".

Fixpoint glob_free (s : string) : bool :=
  match s with
  | EmptyString => true
  | String c r => negb (is_meta c) && glob_free r
  end.

(** A plain file name: one path element, not empty, not "." and not "..". *)
Definition plain_name (e : string) : bool :=
  negb (String.eqb e "") && negb (String.eqb e ".") && negb (String.eqb e "..")
  && negb (strings.ContainsByte e filepath.Separator).

(** A campaign directory: a path in clean form, as [filepath.Join] builds
    it, that ends in a name, with no byte that [filepath.Match] reads as a
    pattern. *)
Definition campaign_dir (p : string) : bool :=
  glob_free p && String.eqb (filepath.Clean p) p
  && negb (String.eqb p "/") && negb (String.eqb p ".")
  && negb (String.eqb (filepath.Base p) "..").

(** An extension key of an observation set: not one of the two mandatory
    keys, and not in the namespace of the derived ones. *)
Definition extension_key (k : string) : bool :=
  negb (String.eqb k "_sources") && negb (String.eqb k "_analyzer")
  && negb (strings.HasPrefix k "__").

(** Encode, then decode into a fresh observation: [None] when the encoder
    panics. *)
Definition Observation_roundtrip (obs : Observation.t)
  : option (Observation.t * option error) :=
  b ← Observation.MarshalJSON obs;
  Some (Observation.UnmarshalJSON Observation.zero b).

Definition ObservationSet_roundtrip (set : ObservationSet.t)
  : ObservationSet.t * option error :=
  ObservationSet.UnmarshalJSON ObservationSet.zero (ObservationSet.MarshalJSON set).

(** ** Instants on the wire *)

(** An instant that [Format] writes in the layout of RFC 3339 as it is: in
    the years 0 to 9999 of its zone, the zone a whole number of minutes less
    than a day from UTC. *)
Definition wire_time (t : time.Time) : bool :=
  (time.offset t mod 60 =? 0) && (Z.abs (time.offset t) <? 86400)
  && (-62167219200 <=? time.unix t + time.offset t)
  && (time.unix t + time.offset t <? 253402300800).

(** A string of ASCII bytes only. *)
Fixpoint is_ascii (s : string) : bool :=
  match s with
  | EmptyString => true
  | String c r => (utf8.byte c <? 128) && is_ascii r
  end.

(** The instant without its fraction of a second. *)
Definition whole_second (t : time.Time) : time.Time :=
  time.mkTime (time.unix t) 0 (time.offset t).

(** A key of the arbitrary metadata of a raw data object: none of the four
    required keys, and not in the namespace of the derived ones. *)
Definition metadata_key (k : string) : bool :=
  negb (String.eqb k "_file_type") && negb (String.eqb k "_owner")
  && negb (String.eqb k "_time_start") && negb (String.eqb k "_time_end")
  && negb (strings.HasPrefix k "__").

(** ** Observation files *)

(** [MarshalObservations(obsdat)]: the lines written, one document for each
    observation, by [WriteObservations] to a [bytes.Buffer], whose [Write]
    does not fail.  [None] is the panic of an observation without path or
    condition. *)
Fixpoint MarshalObservations (obsdat : list Observation.t)
  : option (list json.text) :=
  match obsdat with
  | [] => Some []
  | obs :: rest =>
    b ← Observation.MarshalJSON obs;
    lines ← MarshalObservations rest;
    Some (b :: lines)
  end.

(** The loop of [ReadObservations] over the lines that the scanner yields
    until it stops, at the end of the input or at an error of its own (which
    the function does not look at).  The one variable [obs] is decoded into,
    line after line, and its value appended to [out]. *)
Fixpoint ReadObservations_lines (obs : Observation.t) (lines : list json.text)
         (out : list Observation.t) : result (list Observation.t) :=
  match lines with
  | [] => Ok out
  | b :: rest =>
    match Observation.UnmarshalJSON obs b with
    | (_, Some e) => Err e
    | (obs', None) => ReadObservations_lines obs' rest (out ++ [obs'])
    end
  end.

(** [ReadObservations(in)], on the lines that the scanner yields. *)
Definition ReadObservations (lines : list json.text)
  : result (list Observation.t) :=
  ReadObservations_lines Observation.zero lines [].

(** [bufio.MaxScanTokenSize], the size to which the buffer of a
    [bufio.Scanner] grows. *)
Definition MaxScanTokenSize : nat := 64 * 1024.

(** The lines that a [bufio.Scanner] yields from an input, given line by
    line with the number of bytes of each line: it stops at the end of the
    input, and, with an error of its own, at the first line that does not fit
    the buffer together with the byte that ends it. *)
Fixpoint Scanner_lines (input : list (nat * json.text)) : list json.text :=
  match input with
  | [] => []
  | (n, b) :: rest =>
    if (n <? MaxScanTokenSize)%nat then b :: Scanner_lines rest else []
  end.

(** [UnmarshalObservations(in)]: [ReadObservations] on a buffer of the
    bytes. *)
Definition UnmarshalObservations (input : list (nat * json.text))
  : result (list Observation.t) :=
  ReadObservations (Scanner_lines input).

(** An observation that a line can carry: with a path and a condition,
    their strings valid UTF-8, a set id and a value other than 0 below a
    million in magnitude, and its instants in the years 0 to 9999. *)
Definition read_back (obs : Observation.t) : bool :=
  match Observation.Path_ obs, Observation.Condition_ obs with
  | Some p, Some c =>
    utf8.ValidString (Path.String_ p) && utf8.ValidString (Condition.Name c)
    && (Z.abs (Observation.SetID obs) <? 1000000)
    && (0 <? Z.abs (Observation.Value obs))
    && (Z.abs (Observation.Value obs) <? 1000000)
    && wire_time (time.UTC (Observation.Start obs))
    && wire_time (time.UTC (Observation.End_ obs))
  | _, _ => false
  end.

(** The observation as it is read back from the line written for it: the
    fields on the wire, the instants in UTC without their fraction of a
    second, and 0 for the ids of the rows. *)
Definition as_read (obs : Observation.t) : Observation.t :=
  Observation.mk
    0 (Observation.SetID obs) None
    (whole_second (time.UTC (Observation.Start obs)))
    (whole_second (time.UTC (Observation.End_ obs)))
    0 (Path.mk 0 ∘ Path.String_ <$> Observation.Path_ obs)
    0 (Condition.mk 0 ∘ Condition.Name <$> Observation.Condition_ obs)
    (Observation.Value obs).

(** ** RawMetadata as JSON, and the raw data store *)

(** The keys of a metadata map that are not in the namespace of the derived
    keys. *)
Definition own_keys (m : gmap string string) : gset string :=
  filter (fun k => strings.HasPrefix k "__" = false) (dom m).

(** The set [keymap] that [Keys] collects. *)
Definition keymap (md : RawMetadata) (inherit : bool) : gset string :=
  own_keys (Metadata md)
  ∪ match inherit, Parent md with
    | true, Some parent => own_keys (Metadata parent)
    | _, _ => ∅
    end.

(** The campaigns of a store; [campaigns] is nil ([None]) before the first
    scan. *)
Record RawDataStore : Type := mkRawDataStore {
  rds_config : PTOConfiguration;
  rds_path : string;
  campaigns : option (gmap string Campaign)
}.

(** What becomes of the data given for a file: [os.Create] fails, [io.Copy]
    from the reader fails, [out.Sync] fails, or the data is in the file. *)
Inductive store_result : Type :=
| CreateFailed (e : error)
| CopyFailed (e : error)
| SyncFailed
| Stored.

Section Store.

(** The order in which a [range] over a Go map gives its keys. *)
Variable range : gset string -> list string.

(** The operating system, where the package changes the files:
    [ioutil.WriteFile(pathname, b, 0644)] and [os.Mkdir(path, 0755)], each
    with the file system it leaves and its error; and whether an entry of a
    directory listing is a directory. *)
Variable WriteFile : FS -> string -> json.text -> FS * option error.
Variable Mkdir : FS -> string -> FS * option error.
Variable IsDir : FS -> string -> string -> bool.

(** [os.Create(rawpath)], [io.Copy] of the reader into the file and
    [out.Sync()], as far as they get: the file system they leave. *)
Variable StoreData : FS -> string -> FS * store_result.

Definition Keys (md : RawMetadata) (inherit : bool) : list string :=
  range (keymap md inherit).

(** The map [jmap] that [DumpJSONObject] fills in. *)
Definition DumpJSONObject_jmap (md : RawMetadata) (inherit : bool)
  : gmap string iface :=
  let jmap : gmap string iface := ∅ in
  (* required keys *)
  let ft := Filetype md inherit in
  let jmap := if decide (ft = "") then jmap
              else <["_file_type" := IString ft]> jmap in
  let ow := Owner md inherit in
  let jmap := if decide (ow = "") then jmap
              else <["_owner" := IString ow]> jmap in
  let jmap :=
    match TimeStart md inherit with
    | Some ts => <["_time_start" := IString (time.Format_RFC3339 ts)]> jmap
    | None => jmap
    end in
  let jmap :=
    match TimeEnd md inherit with
    | Some te => <["_time_end" := IString (time.Format_RFC3339 te)]> jmap
    | None => jmap
    end in
  (* derived keys *)
  let jmap := if decide (datalink md = "") then jmap
              else <["__data" := IString (datalink md)]> jmap in
  let jmap := if decide (datasize md = 0) then jmap
              else <["__data_size" := IInt (datasize md)]> jmap in
  let jmap :=
    match creatime md with
    | Some t => <["__created" := IString (time.Format_RFC3339 t)]> jmap
    | None => jmap
    end in
  let jmap :=
    match modtime md with
    | Some t => <["__modified" := IString (time.Format_RFC3339 t)]> jmap
    | None => jmap
    end in
  (* arbitrary keys *)
  fold_left (fun jmap k => <[k := IString (Get md k inherit)]> jmap)
            (Keys md inherit) jmap.

Definition DumpJSONObject (md : RawMetadata) (inherit : bool) : json.text :=
  json.Marshal_map (DumpJSONObject_jmap md inherit).

Definition MarshalJSON (md : RawMetadata) : json.text :=
  DumpJSONObject md true.

Definition writeToFile (fs : FS) (md : RawMetadata) (pathname : string)
  : FS * option error :=
  WriteFile fs pathname (DumpJSONObject md false).

(** *** Campaign: reading the cache *)

(** [cam.GetCampaignMetadata()]: the campaign as the call leaves it with the
    metadata returned, and the error. *)
Definition GetCampaignMetadata (fs : FS) (cam : Campaign)
  : outcome (Campaign * option RawMetadata) :=
  match reloadMetadata fs cam false with
  | Panics => Panics
  | Returns cam (Some e) => Returns (cam, None) (Some e)
  | Returns cam None => Returns (cam, campaignMetadata cam) None
  end.

(** The keys of the file cache; a nil map has none. *)
Definition cached_names (cam : Campaign) : gset string :=
  match fileMetadata cam with
  | Some m => dom m
  | None => ∅
  end.

(** [cam.FileNames()]; the slice returned is nil ([None]) next to an
    error. *)
Definition FileNames (fs : FS) (cam : Campaign)
  : outcome (Campaign * option (list string)) :=
  match reloadMetadata fs cam false with
  | Panics => Panics
  | Returns cam (Some e) => Returns (cam, None) (Some e)
  | Returns cam None =>
    Returns (cam, Some (merge_sort string_le (range (cached_names cam)))) None
  end.

(** [cam.GetFileMetadata(filename)]; the pointer returned is the entry of
    the cache, which is nil where a load has failed. *)
Definition GetFileMetadata (fs : FS) (cam : Campaign) (filename : string)
  : outcome (Campaign * option RawMetadata) :=
  match reloadMetadata fs cam false with
  | Panics => Panics
  | Returns cam (Some e) => Returns (cam, None) (Some e)
  | Returns cam None =>
    match fileMetadata_lookup cam filename with
    | None => Returns (cam, None) (Some (PTONotFoundError "file" filename))
    | Some filemd => Returns (cam, filemd) None
    end
  end.

(** *** Campaign: writing metadata *)

(** [cam.PutCampaignMetadata(md)]: the file system and the campaign as the
    call leaves them.  A nil [md] panics where [validate] reads the owner. *)
Definition PutCampaignMetadata (fs : FS) (cam : Campaign)
           (md : option RawMetadata) : FS * outcome Campaign :=
  match md with
  | None => (fs, Panics)
  | Some md =>
    match validate md true with
    | Some e => (fs, Returns cam (Some e))
    | None =>
      let '(fs, err) :=
        writeToFile fs md (filepath.Join [path cam; CampaignMetadataFilename]) in
      match err with
      | Some e => (fs, Returns cam (Some e))
      | None => (fs, Returns (set_campaignMetadata cam (Some md)) None)
      end
    end
  end.

(** [cam.PutFileMetadata(filename, md)], for a [md] that is not nil. *)
Definition PutFileMetadata (fs : FS) (cam : Campaign) (filename : string)
           (md : RawMetadata) : FS * outcome Campaign :=
  match reloadMetadata fs cam false with
  | Panics => (fs, Panics)
  | Returns cam (Some e) => (fs, Returns cam (Some e))
  | Returns cam None =>
    (* inherit from campaign *)
    let md := set_Parent md (campaignMetadata cam) in
    if decide (Filetype md true = "") then
      (fs, Returns cam (Some (PTOMissingMetadataError "_file_type")))
    else
      let '(fs, err) :=
        writeToFile fs md
                    (filepath.Join [path cam; filename ++ FileMetadataSuffix]) in
      match err with
      | Some e => (fs, Returns cam (Some e))
      | None =>
        match assign_file cam filename (Some md) with
        | None => (fs, Panics)
        | Some cam => (fs, updateFileVirtualMetadata fs cam filename)
        end
      end
  end.

(** [cam.WriteFileDataFromStream(filename, force, in)]: the path is checked
    and the file created as [WriteFileData] does it, the data copied, and the
    virtual metadata of the file updated from the cache as it is. *)
Definition WriteFileDataFromStream (fs : FS) (cam : Campaign)
           (filename : string) (force : bool) : FS * outcome Campaign :=
  match WriteFileData fs cam filename force with
  | (_, Some e) => (fs, Returns cam (Some e))
  | (_, None) =>
    match StoreData fs (rawpath_of cam filename) with
    | (fs, CreateFailed e) => (fs, Returns cam (Some e))
    | (fs, CopyFailed e) => (fs, Returns cam (Some e))
    | (fs, SyncFailed) => (fs, Returns cam (Some (PTOWrapError "sync")))
    | (fs, Stored) => (fs, updateFileVirtualMetadata fs cam filename)
    end
  end.

(** *** Creating a campaign *)

(** [newCampaign(config, name, md)]: the campaign returned is nil ([None])
    next to an error. *)
Definition newCampaign_md (fs : FS) (config : PTOConfiguration) (name : string)
           (md : option RawMetadata) : FS * outcome (option Campaign) :=
  let cam := newCampaign config name in
  match md with
  | None => (fs, Returns (Some cam) None)
  | Some md =>
    match validate md true with
    | Some e => (fs, Returns None (Some e))
    | None =>
      match Stat fs (path cam) with
      | StatNotExist =>
        let '(fs, err) := Mkdir fs (path cam) in
        match err with
        | Some _ => (fs, Returns None (Some (PTOWrapError "mkdir")))
        | None =>
          let '(fs, err) :=
            writeToFile fs md
                        (filepath.Join [path cam; CampaignMetadataFilename]) in
          match err with
          | Some e => (fs, Returns None (Some e))
          | None =>
            match reloadMetadata fs cam true with
            | Panics => (fs, Panics)
            | Returns _ (Some e) => (fs, Returns None (Some e))
            | Returns cam None => (fs, Returns (Some cam) None)
            end
          end
        end
      | _ => (fs, Returns None (Some (PTOExistsError "campaign" name)))
      end
    end
  end.

(** *** RawDataStore *)

(** The loop of [ScanCampaigns] over the directory entries: the campaign
    cache it has filled, and its error. *)
Fixpoint scan_entries (fs : FS) (config : PTOConfiguration) (root : string)
         (direntries : list string) (cams : gmap string Campaign)
  : gmap string Campaign * option error :=
  match direntries with
  | [] => (cams, None)
  | name :: rest =>
    if IsDir fs root name then
      match Stat fs (filepath.Join [root; name; CampaignMetadataFilename]) with
      | StatOk _ =>
        scan_entries fs config root rest
                     (<[name := newCampaign config name]> cams)
      | StatNotExist => scan_entries fs config root rest cams
      | StatError => (cams, Some (PTOWrapError "stat"))
      end
    else scan_entries fs config root rest cams
  end.

Definition ScanCampaigns (fs : FS) (rds : RawDataStore)
  : RawDataStore * option error :=
  match ReadDir fs (rds_path rds) with
  | None =>
    (mkRawDataStore (rds_config rds) (rds_path rds) (Some ∅),
     Some (PTOWrapError "readdir"))
  | Some direntries =>
    let '(cams, err) :=
      scan_entries fs (rds_config rds) (rds_path rds) direntries ∅ in
    (mkRawDataStore (rds_config rds) (rds_path rds) (Some cams), err)
  end.

(** [NewRawDataStore(config)]: nil ([None]) next to an error. *)
Definition NewRawDataStore (fs : FS) (config : PTOConfiguration)
  : option RawDataStore * option error :=
  match ScanCampaigns fs (mkRawDataStore config (RawRoot config) None) with
  | (_, Some e) => (None, Some e)
  | (rds, None) => (Some rds, None)
  end.

(** [rds.CampaignForName(camname)]. *)
Definition CampaignForName (rds : RawDataStore) (camname : string)
  : option Campaign * option error :=
  match campaigns rds ≫= (fun m => m !! camname) with
  | Some cam => (Some cam, None)
  | None => (None, Some (PTONotFoundError "campaign" camname))
  end.

(** [rds.CampaignNames()], in the order of the range over the cache. *)
Definition CampaignNames (rds : RawDataStore) : list string :=
  range (match campaigns rds with Some m => dom m | None => ∅ end).

(** [rds.CreateCampaign(camname, md)]: the file system and the store as the
    call leaves them, with the campaign returned. *)
Definition CreateCampaign (fs : FS) (rds : RawDataStore) (camname : string)
           (md : option RawMetadata)
  : FS * outcome (RawDataStore * option Campaign) :=
  match newCampaign_md fs (rds_config rds) camname md with
  | (fs, Panics) => (fs, Panics)
  | (fs, Returns None err) => (fs, Returns (rds, None) err)
  | (fs, Returns (Some cam) (Some e)) => (fs, Returns (rds, None) (Some e))
  | (fs, Returns (Some cam) None) =>
    match PutCampaignMetadata fs cam md with
    | (fs, Panics) => (fs, Panics)
    | (fs, Returns _ (Some e)) => (fs, Returns (rds, None) (Some e))
    | (fs, Returns cam None) =>
      match campaigns rds with
      | None => (fs, Panics)
      | Some m =>
        (fs, Returns (mkRawDataStore (rds_config rds) (rds_path rds)
                                     (Some (<[camname := cam]> m)),
                      Some cam) None)
      end
    end
  end.

End Store.

(** ** Sample data

    A campaign [test] of owner alice with one file [a.dat], and the answers
    of a file system to it; the statements below are evaluated on them. *)

Module Sample.

Definition cfg : PTOConfiguration :=
  mkConfig "/srv/raw" (fun rel => ("https://pto.example.org/" ++ rel, None)).

Definition t_start : time.Time := time.mkTime 1577836800 0 0.
Definition t_end : time.Time := time.mkTime 1577840400 0 0.

Definition campaign_md : RawMetadata :=
  mkRawMetadata None "" "alice" None None {["contact" := "alice@example.org"]}
                "" 0 None None.

Definition file_md : RawMetadata :=
  mkRawMetadata (Some campaign_md) "x" "" (Some t_start) (Some t_end) ∅
                "" 0 None None.

(** A campaign with a file type and times for its files, and the record of
    a file that has nothing of its own. *)
Definition timed_campaign_md : RawMetadata :=
  mkRawMetadata None "y" "carol" (Some t_start) (Some t_end) ∅ "" 0 None None.

Definition bare_file_md : RawMetadata :=
  mkRawMetadata (Some timed_campaign_md) "" "" None None ∅ "" 0 None None.

Definition cam : Campaign :=
  mkCampaign cfg "/srv/raw/test" false (Some campaign_md)
             (Some {["a.dat" := Some file_md]}).

Definition meta_time : time.Time := time.mkTime 1600000000 0 0.
Definition data_time : time.Time := time.mkTime 1600000100 0 0.

(** The documents on disk. *)
Definition campaign_doc : json.text :=
  json.Doc (json.Object [("_owner", json.String_ "alice")]).

Definition file_doc : json.text :=
  json.Doc (json.Object
              [("_file_type", json.String_ "x");
               ("_time_start", json.String_ "2020-01-01T00:00:00Z");
               ("_time_end", json.String_ "2020-01-01T01:00:00Z")]).

(** A directory with the campaign file, the metadata file of [a.dat] and,
    when [with_data], the ten bytes of [a.dat] itself; [b_doc], when given,
    is the content of a second metadata file, of [b.dat]. *)
Definition fs (with_data : bool) (b_doc : option json.text) : FS :=
  mkFS
    (fun name =>
       if String.eqb name "/srv/raw/test/__pto_campaign_metadata.json"
       then Some campaign_doc
       else if String.eqb name "/srv/raw/test/a.dat.pto_file_metadata.json"
       then Some file_doc
       else if String.eqb name "/srv/raw/test/b.dat.pto_file_metadata.json"
       then b_doc
       else None)
    (fun name =>
       if String.eqb name "/srv/raw/test/a.dat" then
         if with_data then StatOk (mkFileInfo 10 data_time) else StatNotExist
       else if String.eqb name "/srv/raw/test/a.dat.pto_file_metadata.json"
       then StatOk (mkFileInfo 120 meta_time)
       else if String.eqb name "/srv/raw/test/b.dat.pto_file_metadata.json"
       then match b_doc with
            | Some _ => StatOk (mkFileInfo 2 meta_time)
            | None => StatNotExist
            end
       else StatNotExist)
    (fun name =>
       if String.eqb name "/srv/raw/test" then
         Some (["__pto_campaign_metadata.json"; "a.dat.pto_file_metadata.json"]
                 ++ match b_doc with
                    | Some _ => ["b.dat.pto_file_metadata.json"]
                    | None => []
                    end)%list
       else None).

(** A campaign whose directory name has a bracket in it. *)
Definition cam_bracket : Campaign :=
  mkCampaign cfg "/srv/raw/te[st" true None (Some ∅).

(** A database whose sequence stands at 10, answers without error, and
    two path strings. *)
Definition db : DB := mkDB 10 [].
Definition no_errors : answers := mkAnswers None None None None 0.

(** The copy into the table fails when the producer has gone through one
    string. *)
Definition copy_fails : answers :=
  mkAnswers None None None (Some (OtherError "copy")) 1.
Definition two_paths : gset string := {[ "1.2.3.4 * 5.6.7.8"; "* 5.6.7.8" ]}.

(** The observation of the package's round-trip test, and the same with a
    value. *)
Definition obs_line : list json.value :=
  [ json.Number (strconv.float64_of_int 0);
    json.String_ "2009-02-20T13:00:34Z";
    json.String_ "2009-02-20T13:15:17Z";
    json.String_ "1.2.3.4 * 5.6.7.8";
    json.String_ "pto.test.succeeded" ].

Definition obs (setid value : Z) : Observation.t :=
  Observation.mk 7 setid None
                 (time.mkTime 1235134834 0 0) (time.mkTime 1235135717 0 0)
                 3 (Some (Path.mk 3 "1.2.3.4 * 5.6.7.8"))
                 5 (Some (Condition.mk 5 "pto.test.succeeded"))
                 value.

(** The observation set of the package's round-trip test. *)
Definition obsset : ObservationSet.t :=
  ObservationSet.mk
    12
    (Some [ "https://ptotest.mami-project.eu/raw/test/test001.ndjson";
            "https://ptotest.mami-project.eu/raw/test/test002.ndjson" ])
    "https://ptotest.mami-project.eu/analysis/passthrough"
    (<["description" := "a simple test observation set"]>
       (<["contact" := "test@corvid.ch"]> ∅))
    "" "" 0.

(** The observation that [UnmarshalJSON] fills in from the line of the
    test, with a value. *)
Definition read_obs (value : Z) : Observation.t :=
  Observation.mk 0 0 None
                 (time.mkTime 1235134834 0 0) (time.mkTime 1235135717 0 0)
                 0 (Some (Path.mk 0 "1.2.3.4 * 5.6.7.8"))
                 0 (Some (Condition.mk 0 "pto.test.succeeded"))
                 value.

(** The observation set of the test as the server shows it, with its links
    and the number of its observations. *)
Definition linked_obsset : ObservationSet.t :=
  ObservationSet.mk
    12
    (Some [ "https://ptotest.mami-project.eu/raw/test/test001.ndjson" ])
    "https://ptotest.mami-project.eu/analysis/passthrough"
    (<["description" := "a simple test observation set"]> ∅)
    "https://ptotest.mami-project.eu/obs/000000000000000c/data"
    "https://ptotest.mami-project.eu/obs/000000000000000c"
    3.

(** A metadata file with a derived key in it. *)
Definition sized_doc : json.text :=
  json.Doc (json.Object
              [("_file_type", json.String_ "x");
               ("__data_size", json.Number (strconv.float64_of_int 4096))]).

(** The directory of the campaign with its campaign file alone. *)
Definition emptied_fs : FS :=
  mkFS
    (fun name =>
       if String.eqb name "/srv/raw/test/__pto_campaign_metadata.json"
       then Some campaign_doc else None)
    (fun _ => StatNotExist)
    (fun name =>
       if String.eqb name "/srv/raw/test"
       then Some ["__pto_campaign_metadata.json"] else None).

(** A file system that takes every write: the file written is there to be
    read and has the time of the write. *)
Definition write_time : time.Time := time.mkTime 1600000200 0 0.

Definition write (fs : FS) (pathname : string) (b : json.text)
  : FS * option error :=
  (mkFS (fun name => if String.eqb name pathname then Some b
                     else ReadFile fs name)
        (fun name => if String.eqb name pathname
                     then StatOk (mkFileInfo 64 write_time)
                     else Stat fs name)
        (ReadDir fs),
   None).

(** Campaign metadata of another owner, and metadata for a file [c.dat]
    with no file type of its own. *)
Definition bob_md : RawMetadata :=
  mkRawMetadata None "y" "bob" None None ∅ "" 0 None None.

Definition c_md : RawMetadata :=
  mkRawMetadata None "z" "" None None {["note" := "third"]} "" 0 None None.

(** The root of the raw data store: the directory of the sample campaign
    and a file that is no campaign. *)
Definition root_fs : FS :=
  mkFS
    (ReadFile (fs true None))
    (fun name =>
       if String.eqb name "/srv/raw/test/__pto_campaign_metadata.json"
       then StatOk (mkFileInfo 18 meta_time)
       else if String.eqb name "/srv/raw/test"
       then StatOk (mkFileInfo 4096 meta_time)
       else Stat (fs true None) name)
    (fun name =>
       if String.eqb name "/srv/raw" then Some ["notes.txt"; "test"]
       else ReadDir (fs true None) name).

Definition isdir (fs : FS) (root name : string) : bool := String.eqb name "test".

(** An operating system that makes every directory asked for. *)
Definition mkdir (fs : FS) (pathname : string) : FS * option error := (fs, None).

Definition empty_store : RawDataStore := mkRawDataStore cfg "/srv/raw" (Some ∅).

(** The database with one row in the table of paths. *)
Definition db_with_row : DB := mkDB 10 [(4, Some "1.2.3.4 * 5.6.7.8")].

(** An operating system that stores every data file given, of a hundred
    bytes. *)
Definition store (fs : FS) (pathname : string) : FS * store_result :=
  (mkFS (ReadFile fs)
        (fun name => if String.eqb name pathname
                     then StatOk (mkFileInfo 100 write_time)
                     else Stat fs name)
        (ReadDir fs),
   Stored).

End Sample.

(** The record of a file in the cache a call leaves, when the call returns
    without error and the record is there. *)
Definition file_after (o : outcome Campaign) (filename : string)
  : option RawMetadata :=
  match o with
  | Returns cam None =>
    match fileMetadata_lookup cam filename with
    | Some (Some md) => Some md
    | _ => None
    end
  | _ => None
  end.

Definition state_after {S : Type} (o : outcome S) (otherwise : S) : S :=
  match o with
  | Returns s _ => s
  | Panics => otherwise
  end.

(** * Properties *)

(** The library functions are not unfolded by simplification. *)
#[local] Arguments filepath.Join : simpl never.
#[local] Arguments filepath.Clean : simpl never.
#[local] Arguments filepath.Match : simpl never.
#[local] Arguments filepath.Base : simpl never.
#[local] Arguments strings.HasSuffix : simpl never.
#[local] Arguments linkname_of : simpl never.
#[local] Arguments rawpath_of : simpl never.

(** ** Integers and instants *)

Lemma wrap_int_small (z : Z) : int_min <= z <= int_max -> wrap_int z = z.
Proof.
  unfold wrap_int, int_min, int_max. intros Hz.
  rewrite Z.mod_small; lia.
Qed.

(** [t.Sub(u) > 0] says that [t] is the later instant: the saturation keeps
    the sign. *)
Lemma Sub_pos (t u : time.Time) :
  0 < time.Sub t u <->
  0 < (time.unix t - time.unix u) * 1000000000 + (time.nsec t - time.nsec u).
Proof.
  unfold time.Sub, int_min, int_max. cbv zeta. lia.
Qed.

(** ** Strings *)

Lemma append_cons (x : ascii) (a b : string) :
  String x a ++ b = String x (a ++ b).
Proof. reflexivity. Qed.

Lemma append_nil_l (a : string) : "" ++ a = a.
Proof. reflexivity. Qed.

Lemma append_assoc (a b c : string) : (a ++ b) ++ c = a ++ (b ++ c).
Proof.
  induction a as [|x a IH]; [reflexivity|].
  rewrite !append_cons, IH. reflexivity.
Qed.

Lemma append_nil_r (a : string) : a ++ "" = a.
Proof.
  induction a as [|x a IH]; [reflexivity|].
  rewrite append_cons, IH. reflexivity.
Qed.

Lemma string_of_list_ascii_app (l1 l2 : list ascii) :
  string_of_list_ascii (l1 ++ l2)
  = string_of_list_ascii l1 ++ string_of_list_ascii l2.
Proof.
  induction l1 as [|x l1 IH]; [reflexivity|].
  cbn [app string_of_list_ascii]. rewrite append_cons, IH. reflexivity.
Qed.

(** A string that is valid UTF-8 is written by the encoder as it is. *)
Lemma coerce_from_valid (s : string) :
  forall skip, utf8.valid_from skip s = true -> json.coerce_from skip s = s.
Proof.
  induction s as [|c r IH]; intros skip H; [reflexivity|].
  cbn [utf8.valid_from json.coerce_from] in *.
  destruct skip as [|k].
  - destruct (utf8.width (String c r)) as [|k]; [discriminate H|].
    rewrite (IH k H). reflexivity.
  - rewrite (IH k H). reflexivity.
Qed.

Lemma coerce_valid (s : string) :
  utf8.ValidString s = true -> json.coerce s = s.
Proof. apply coerce_from_valid. Qed.

(** And no other string is: where a byte starts no encoding the encoder
    writes three bytes for it. *)
Lemma length_coerce_from (s : string) :
  forall skip, (String.length s <= String.length (json.coerce_from skip s))%nat.
Proof.
  induction s as [|c r IH]; intros skip; [simpl; lia|].
  cbn [json.coerce_from]. destruct skip as [|k].
  - destruct (utf8.width (String c r)) as [|k].
    + specialize (IH 0%nat). unfold utf8.RuneError. simpl.
      rewrite append_nil_l. lia.
    + specialize (IH k). simpl. lia.
  - specialize (IH k). simpl. lia.
Qed.

Lemma coerce_from_fixed (s : string) :
  forall skip, json.coerce_from skip s = s -> utf8.valid_from skip s = true.
Proof.
  induction s as [|c r IH]; intros skip H; [reflexivity|].
  cbn [utf8.valid_from json.coerce_from] in *.
  destruct skip as [|k].
  - destruct (utf8.width (String c r)) as [|k].
    + exfalso. apply (f_equal String.length) in H.
      pose proof (length_coerce_from r 0) as Hlen. unfold utf8.RuneError in H.
      simpl in H. rewrite append_nil_l in H. lia.
    + injection H as H. exact (IH k H).
  - injection H as H. exact (IH k H).
Qed.

Lemma coerce_fixed_iff_valid (s : string) :
  json.coerce s = s <-> utf8.ValidString s = true.
Proof. split; [apply coerce_from_fixed | apply coerce_valid]. Qed.

Lemma map_coerce_valid (l : list string) :
  Forall (fun s => utf8.ValidString s = true) l ->
  map (fun s => json.String_ (json.coerce s)) l = map json.String_ l.
Proof.
  induction 1 as [|s l Hs _ IH]; [reflexivity|].
  cbn [map]. rewrite IH, (coerce_valid s Hs). reflexivity.
Qed.

Lemma ContainsByte_app (a b : string) (c : ascii) :
  strings.ContainsByte (a ++ b) c
  = strings.ContainsByte a c || strings.ContainsByte b c.
Proof.
  induction a as [|x a IH]; [reflexivity|].
  rewrite append_cons. cbn [strings.ContainsByte]. rewrite IH. apply orb_assoc.
Qed.

Lemma glob_free_app (a b : string) :
  glob_free (a ++ b) = glob_free a && glob_free b.
Proof.
  induction a as [|x a IH]; [reflexivity|].
  rewrite append_cons. cbn [glob_free]. rewrite IH. apply andb_assoc.
Qed.

(** ** Metadata records: inheritance and validation *)

Section Inheritance.

Variables (md parent : RawMetadata).
Hypothesis Hparent : Parent md = Some parent.

Lemma Owner_inherits : owner md = "" -> Owner md true = owner parent.
Proof.
  intros H. unfold Owner. rewrite Hparent.
  destruct (decide (owner md = "")); [reflexivity | contradiction].
Qed.

Lemma Owner_local (inherit : bool) : owner md <> "" -> Owner md inherit = owner md.
Proof.
  intros H. unfold Owner.
  destruct (decide (owner md = "")); [contradiction | reflexivity].
Qed.

Lemma Get_inherits (k : string) :
  map_get (Metadata md) k = "" -> Get md k true = map_get (Metadata parent) k.
Proof.
  intros H. unfold Get. rewrite Hparent.
  destruct (decide (map_get (Metadata md) k = "")); [reflexivity | contradiction].
Qed.

End Inheritance.

Lemma Owner_no_inherit (md : RawMetadata) : Owner md false = owner md.
Proof. unfold Owner. destruct (decide (owner md = "")); reflexivity. Qed.

Lemma Get_no_inherit (md : RawMetadata) (k : string) :
  Get md k false = map_get (Metadata md) k.
Proof.
  unfold Get. destruct (decide (map_get (Metadata md) k = "")); reflexivity.
Qed.

(** C8.  A record without an owner of its own, under a parent: asked with
    inheritance it reports the owner field of the parent, asked without it
    reports none.  The parent is read by its own field only, so where the
    parent has no owner the answer is empty whatever the parent's own parent
    holds.  [Get] does the same on the extension keys. *)
Theorem C8_inheritance_one_level (md parent : RawMetadata) (k : string) :
  Parent md = Some parent ->
  owner md = "" ->
  Owner md true = owner parent
  /\ Owner md false = ""
  /\ (forall grandparent,
         Parent parent = Some grandparent -> owner parent = "" ->
         Owner md true = "")
  /\ (map_get (Metadata md) k = "" ->
      Get md k true = map_get (Metadata parent) k
      /\ Get md k false = ""
      /\ (forall grandparent,
             Parent parent = Some grandparent ->
             map_get (Metadata parent) k = "" ->
             Get md k true = "")).
Proof.
  intros Hp Ho.
  pose proof (Owner_inherits md parent Hp Ho) as Hinh.
  repeat split.
  - exact Hinh.
  - rewrite Owner_no_inherit. exact Ho.
  - intros gp _ Hnone. rewrite Hinh. exact Hnone.
  - apply Get_inherits; assumption.
  - rewrite Get_no_inherit. assumption.
  - intros gp _ Hnone. rewrite (Get_inherits md parent Hp k); assumption.
Qed.

(** C8, on the sample file record, which has no owner of its own under the
    campaign of alice. *)
Lemma C8_inheritance_sample :
  Owner Sample.file_md true = "alice" /\ Owner Sample.file_md false = ""
  /\ Get Sample.file_md "contact" true = "alice@example.org"
  /\ Get Sample.file_md "contact" false = "".
Proof.
  destruct (C8_inheritance_one_level Sample.file_md Sample.campaign_md
                                     "contact" eq_refl eq_refl)
    as (H1 & H2 & _ & H3).
  destruct (H3 eq_refl) as (H4 & H5 & _).
  repeat split; assumption.
Defined.

(** A field is found with inheritance when the record has it, or has a
    parent that has it. *)
Lemma Owner_found (md : RawMetadata) :
  Owner md true <> ""
  <-> owner md <> "" \/ exists parent, Parent md = Some parent /\ owner parent <> "".
Proof.
  unfold Owner. destruct (decide (owner md = "")) as [E|E];
    destruct (Parent md) as [p|]; split.
  - intros H. right. eauto.
  - intros [H|(q & Hq & H)]; [contradiction | congruence].
  - intros H. left. exact H.
  - intros [H|(q & Hq & H)]; [contradiction | discriminate].
  - intros H. left. exact H.
  - intros _. exact E.
  - intros H. left. exact H.
  - intros _. exact E.
Qed.

Lemma Filetype_found (md : RawMetadata) :
  Filetype md true <> ""
  <-> filetype md <> ""
      \/ exists parent, Parent md = Some parent /\ filetype parent <> "".
Proof.
  unfold Filetype. destruct (decide (filetype md = "")) as [E|E];
    destruct (Parent md) as [p|]; split.
  - intros H. right. eauto.
  - intros [H|(q & Hq & H)]; [contradiction | congruence].
  - intros H. left. exact H.
  - intros [H|(q & Hq & H)]; [contradiction | discriminate].
  - intros H. left. exact H.
  - intros _. exact E.
  - intros H. left. exact H.
  - intros _. exact E.
Qed.

Lemma TimeStart_found (md : RawMetadata) :
  TimeStart md true <> None
  <-> timeStart md <> None
      \/ exists parent, Parent md = Some parent /\ timeStart parent <> None.
Proof.
  unfold TimeStart. destruct (timeStart md) as [t|];
    destruct (Parent md) as [p|]; split.
  - intros H. left. exact H.
  - intros _. discriminate.
  - intros H. left. exact H.
  - intros _. discriminate.
  - intros H. right. eauto.
  - intros [H|(q & Hq & H)]; [contradiction | congruence].
  - intros H. left. exact H.
  - intros [H|(q & Hq & H)]; [contradiction | discriminate].
Qed.

Lemma TimeEnd_found (md : RawMetadata) :
  TimeEnd md true <> None
  <-> timeEnd md <> None
      \/ exists parent, Parent md = Some parent /\ timeEnd parent <> None.
Proof.
  unfold TimeEnd. destruct (timeEnd md) as [t|];
    destruct (Parent md) as [p|]; split.
  - intros H. left. exact H.
  - intros _. discriminate.
  - intros H. left. exact H.
  - intros _. discriminate.
  - intros H. right. eauto.
  - intros [H|(q & Hq & H)]; [contradiction | congruence].
  - intros H. left. exact H.
  - intros [H|(q & Hq & H)]; [contradiction | discriminate].
Qed.

(** C7.  Campaign-level validation fails, with the missing-metadata error of
    the owner key, exactly when no owner is found with inheritance, and has
    no other requirement.  File-level validation succeeds exactly when owner,
    file type, start and end time are all found with inheritance; a record
    with owner and file type but no start time, neither its own nor its
    parent's, fails with the missing-metadata error of the start time key.
    Each of the four is found with inheritance exactly when the record has
    the field itself or has a parent that has it.  (The code names the keys
    as they are written in the JSON form: "_owner", "_file_type",
    "_time_start", "_time_end".) *)
Theorem C7_validate (md : RawMetadata) :
  (validate md true = Some (PTOMissingMetadataError "_owner")
   <-> Owner md true = "")
  /\ (validate md true = None <-> Owner md true <> "")
  /\ (validate md false = None
      <-> Owner md true <> "" /\ Filetype md true <> ""
          /\ TimeStart md true <> None /\ TimeEnd md true <> None)
  /\ (Owner md true = "" ->
      validate md false = Some (PTOMissingMetadataError "_owner"))
  /\ (Owner md true <> "" -> Filetype md true = "" ->
      validate md false = Some (PTOMissingMetadataError "_file_type"))
  /\ (Owner md true <> "" -> Filetype md true <> "" ->
      timeStart md = None ->
      (forall parent, Parent md = Some parent -> timeStart parent = None) ->
      validate md false = Some (PTOMissingMetadataError "_time_start"))
  /\ (Owner md true <> "" -> Filetype md true <> "" ->
      TimeStart md true <> None -> TimeEnd md true = None ->
      validate md false = Some (PTOMissingMetadataError "_time_end"))
  /\ (Owner md true <> ""
      <-> owner md <> ""
          \/ exists parent, Parent md = Some parent /\ owner parent <> "")
  /\ (Filetype md true <> ""
      <-> filetype md <> ""
          \/ exists parent, Parent md = Some parent /\ filetype parent <> "")
  /\ (TimeStart md true <> None
      <-> timeStart md <> None
          \/ exists parent, Parent md = Some parent /\ timeStart parent <> None)
  /\ (TimeEnd md true <> None
      <-> timeEnd md <> None
          \/ exists parent, Parent md = Some parent /\ timeEnd parent <> None)
  /\ (validate md false = None
      <-> (owner md <> ""
           \/ exists parent, Parent md = Some parent /\ owner parent <> "")
          /\ (filetype md <> ""
              \/ exists parent, Parent md = Some parent /\ filetype parent <> "")
          /\ (timeStart md <> None
              \/ exists parent,
                  Parent md = Some parent /\ timeStart parent <> None)
          /\ (timeEnd md <> None
              \/ exists parent, Parent md = Some parent /\ timeEnd parent <> None)).
Proof.
  assert (Hts : timeStart md = None ->
                (forall parent, Parent md = Some parent -> timeStart parent = None) ->
                TimeStart md true = None).
  { intros H1 H2. unfold TimeStart. rewrite H1.
    destruct (Parent md) as [p|]; [apply H2; reflexivity | reflexivity]. }
  rewrite <- (Owner_found md), <- (Filetype_found md), <- (TimeStart_found md),
    <- (TimeEnd_found md).
  unfold validate.
  destruct (decide (Owner md true = "")) as [Ho|Ho];
    destruct (decide (Filetype md true = "")) as [Hf|Hf];
    destruct (TimeStart md true) as [ts|] eqn:Ets;
    destruct (TimeEnd md true) as [te|] eqn:Ete;
    repeat split; intros; try congruence; try tauto;
    try (exfalso; intuition congruence);
    try (rewrite Hts in Ets by assumption; discriminate).
Qed.

(** C7 on a file record with nothing of its own, under a campaign that has
    an owner, a file type and both times: the record is valid as a file,
    every field being found in the campaign; under a campaign without an
    end time it is refused for that key. *)
Lemma C7_validate_sample :
  validate Sample.bare_file_md false = None
  /\ validate (set_Parent Sample.bare_file_md
                          (Some (set_timeEnd Sample.timed_campaign_md None))) false
     = Some (PTOMissingMetadataError "_time_end").
Proof.
  split.
  - destruct (C7_validate Sample.bare_file_md)
      as (_ & _ & _ & _ & _ & _ & _ & _ & _ & _ & _ & Hfields).
    apply Hfields.
    repeat split; right; exists Sample.timed_campaign_md;
      (split; [reflexivity | discriminate]).
  - destruct (C7_validate
                (set_Parent Sample.bare_file_md
                            (Some (set_timeEnd Sample.timed_campaign_md None))))
      as (_ & _ & _ & _ & _ & _ & Hend & Ho & Hf & Hs & _).
    apply Hend.
    + apply Ho. right. eexists. split; [reflexivity | discriminate].
    + apply Hf. right. eexists. split; [reflexivity | discriminate].
    + apply Hs. right. eexists. split; [reflexivity | discriminate].
    + reflexivity.
Defined.

(** ** Campaign: virtual metadata *)

Lemma lookup_store_file (cam : Campaign) (filename : string) (md : RawMetadata)
      (old : option RawMetadata) :
  fileMetadata_lookup cam filename = Some old ->
  fileMetadata_lookup (store_file cam filename md) filename = Some (Some md).
Proof.
  unfold fileMetadata_lookup, store_file. simpl.
  destruct (fileMetadata cam) as [m|]; [|discriminate].
  intros _. apply lookup_insert_eq.
Qed.

Lemma lookup_store_file_ne (cam : Campaign) (filename other : string)
      (md : RawMetadata) :
  filename <> other ->
  fileMetadata_lookup (store_file cam filename md) other
  = fileMetadata_lookup cam other.
Proof.
  unfold fileMetadata_lookup, store_file. simpl.
  destruct (fileMetadata cam) as [m|]; [|reflexivity].
  intros Hne. apply lookup_insert_ne. exact Hne.
Qed.

Lemma Sub_self (t : time.Time) : time.Sub t t = 0.
Proof. unfold time.Sub, int_min, int_max. cbv zeta. lia. Qed.

(** C5, as the code has it.  When [updateFileVirtualMetadata] returns without
    error, the metadata file exists and the record of the file holds: with a
    data file, its size as [datasize] and its modification time as
    [creatime]; without a data file, [datasize] 0 and, as [creatime], the
    modification time of the metadata file; as [modtime], the modification
    time of the metadata file, or [creatime] where that is later.  So [modtime]
    is never earlier than [creatime]. *)
Theorem C5_virtual_metadata (fs : FS) (cam cam' : Campaign) (filename : string) :
  updateFileVirtualMetadata fs cam filename = Returns cam' None ->
  exists md' metafi,
    fileMetadata_lookup cam' filename = Some (Some md')
    /\ Stat fs (filepath.Join [path cam; filename ++ FileMetadataSuffix])
       = StatOk metafi
    /\ match Stat fs (filepath.Join [path cam; filename]) with
       | StatOk datafi =>
         datasize md' = Size datafi
         /\ creatime md' = Some (ModTime datafi)
         /\ modtime md' =
            Some (if 0 <? time.Sub (ModTime datafi) (ModTime metafi)
                  then ModTime datafi else ModTime metafi)
       | StatNotExist =>
         datasize md' = 0
         /\ creatime md' = Some (ModTime metafi)
         /\ modtime md' = Some (ModTime metafi)
       | StatError => False
       end
    /\ (forall c m, creatime md' = Some c -> modtime md' = Some m ->
                    time.Sub c m <= 0).
Proof.
  unfold updateFileVirtualMetadata.
  destruct (fileMetadata_lookup cam filename) as [mdp|] eqn:Hlk; [|discriminate].
  destruct (Stat fs (filepath.Join [path cam; filename])) as [datafi| |] eqn:Hdata;
    destruct mdp as [md|]; try discriminate;
    destruct (Stat fs (filepath.Join [path cam; filename ++ FileMetadataSuffix]))
      as [metafi| |] eqn:Hmeta; try discriminate.
  - destruct (0 <? time.Sub (ModTime datafi) (ModTime metafi)) eqn:Hclamp;
      destruct (LinkTo (config cam) _) as [link err] eqn:Hlink;
      intros H; injection H as <- ->;
      eexists _, metafi;
      (split; [eapply lookup_store_file; eassumption|]);
      (split; [reflexivity|]); simpl;
      (split; [rewrite ?Hclamp; repeat split; reflexivity|]);
      intros c m Hc Hm; injection Hc as <-; injection Hm as <-.
    + rewrite Sub_self. lia.
    + apply Z.ltb_ge in Hclamp. exact Hclamp.
  - destruct (LinkTo (config cam) _) as [link err] eqn:Hlink.
    intros H; injection H as <- ->.
    eexists _, metafi.
    split; [eapply lookup_store_file; eassumption|].
    split; [reflexivity|]. simpl.
    split; [repeat split; reflexivity|].
    intros c m Hc Hm; injection Hc as <-; injection Hm as <-.
    rewrite Sub_self. lia.
Qed.

(** The call does return without error when the file is in the cache, the
    metadata file can be stat'ed, the data file can be stat'ed or does not
    exist, and the link can be built. *)
Lemma updateFileVirtualMetadata_returns (fs : FS) (cam : Campaign)
      (filename : string) (md : RawMetadata) (metafi : FileInfo) (link : string) :
  fileMetadata_lookup cam filename = Some (Some md) ->
  Stat fs (filepath.Join [path cam; filename]) <> StatError ->
  Stat fs (filepath.Join [path cam; filename ++ FileMetadataSuffix]) = StatOk metafi ->
  LinkTo (config cam)
         ("raw/" ++ filepath.Base (path cam) ++ "/" ++ filename ++ "/data")
  = (link, None) ->
  exists cam', updateFileVirtualMetadata fs cam filename = Returns cam' None.
Proof.
  intros Hlk Hdata Hmeta Hlink. unfold updateFileVirtualMetadata.
  rewrite Hlk, Hmeta, Hlink.
  destruct (Stat fs (filepath.Join [path cam; filename])) as [datafi| |];
    [| |contradiction].
  - destruct (0 <? time.Sub (ModTime datafi) (ModTime metafi)); eexists; reflexivity.
  - eexists; reflexivity.
Qed.

(** C5, the statement of the design document refuted: with no data file,
    the record does get a creation time, that of the metadata file. *)
Lemma C5_absent_data_has_creation_time :
  Stat (Sample.fs false None) (filepath.Join [path Sample.cam; "a.dat"])
  = StatNotExist
  /\ creatime <$> file_after
       (updateFileVirtualMetadata (Sample.fs false None) Sample.cam "a.dat") "a.dat"
     = Some (Some Sample.meta_time).
Proof. split; vm_compute; reflexivity. Qed.

(** C5 on the sample campaign with its data file of ten bytes, written
    after the metadata file: the modification time is moved up. *)
Lemma C5_virtual_metadata_sample :
  exists md',
    fileMetadata_lookup
      (state_after (updateFileVirtualMetadata (Sample.fs true None) Sample.cam "a.dat")
                   Sample.cam) "a.dat" = Some (Some md')
    /\ datasize md' = 10
    /\ creatime md' = Some Sample.data_time
    /\ modtime md' = Some Sample.data_time.
Proof.
  destruct (C5_virtual_metadata
              (Sample.fs true None) Sample.cam
              (state_after (updateFileVirtualMetadata (Sample.fs true None)
                                                      Sample.cam "a.dat") Sample.cam)
              "a.dat")
    as (md' & metafi & Hlk & Hmeta & Hdata & _).
  { vm_compute. reflexivity. }
  exists md'. split; [exact Hlk|].
  assert (Hfi : metafi = mkFileInfo 120 Sample.meta_time).
  { vm_compute in Hmeta. injection Hmeta as <-. reflexivity. }
  subst metafi. vm_compute in Hdata. exact Hdata.
Defined.

(** ** Campaign: reloading the metadata *)

Lemma updateFileVirtualMetadata_preserves (fs : FS) (cam cam' : Campaign)
      (filename : string) (err : option error) :
  updateFileVirtualMetadata fs cam filename = Returns cam' err ->
  stale cam' = stale cam
  /\ campaignMetadata cam' = campaignMetadata cam
  /\ path cam' = path cam
  /\ (fileMetadata cam = None -> fileMetadata cam' = None)
  /\ (forall k fmd,
         fileMetadata_lookup cam k = Some (Some fmd) ->
         exists fmd', fileMetadata_lookup cam' k = Some (Some fmd')
                      /\ Parent fmd' = Parent fmd).
Proof.
  unfold updateFileVirtualMetadata.
  assert (Hstore : forall md v,
             fileMetadata_lookup cam filename = Some (Some md) ->
             Parent v = Parent md ->
             forall k fmd,
               fileMetadata_lookup cam k = Some (Some fmd) ->
               exists fmd',
                 fileMetadata_lookup (store_file cam filename v) k = Some (Some fmd')
                 /\ Parent fmd' = Parent fmd).
  { intros md v Hlk Hv k fmd Hk.
    destruct (decide (filename = k)) as [<-|Hne].
    - exists v. split; [eapply lookup_store_file; eassumption|].
      rewrite Hlk in Hk. injection Hk as <-. exact Hv.
    - exists fmd. rewrite lookup_store_file_ne by exact Hne. auto. }
  assert (Hnil : forall v, fileMetadata cam = None ->
                           fileMetadata (store_file cam filename v) = None).
  { intros v H. unfold store_file. simpl. rewrite H. reflexivity. }
  destruct (fileMetadata_lookup cam filename) as [mdp|] eqn:Hlk.
  2:{ intros H; injection H as <- <-. repeat split; eauto. }
  destruct (Stat fs (filepath.Join [path cam; filename])) as [datafi| |];
    destruct mdp as [md|]; try discriminate;
    try (intros H; injection H as <- <-; repeat split; eauto; fail);
    destruct (Stat fs (filepath.Join [path cam; filename ++ FileMetadataSuffix]))
      as [metafi| |];
    try destruct (0 <? time.Sub (ModTime datafi) (ModTime metafi));
    try destruct (LinkTo (config cam) _) as [link e];
    intros H; injection H as <- <-;
    (split; [reflexivity|]); (split; [reflexivity|]); (split; [reflexivity|]);
    (split; [apply Hnil | eapply Hstore; reflexivity]).
Qed.

Lemma fileMetadata_lookup_assign (cam cam1 : Campaign) (linkname : string)
      (v : option RawMetadata) :
  assign_file cam linkname v = Some cam1 ->
  stale cam1 = stale cam
  /\ campaignMetadata cam1 = campaignMetadata cam
  /\ path cam1 = path cam
  /\ fileMetadata_lookup cam1 linkname = Some v
  /\ (forall k, k <> linkname ->
                fileMetadata_lookup cam1 k = fileMetadata_lookup cam k).
Proof.
  unfold assign_file, fileMetadata_lookup.
  destruct (fileMetadata cam) as [m|]; [|discriminate].
  intros H; injection H as <-. simpl. repeat split.
  - apply lookup_insert_eq.
  - intros k Hk. apply lookup_insert_ne. congruence.
Qed.

Lemma RawMetadataFromFile_Parent (fs : FS) (pathname : string)
      (parent : option RawMetadata) (md : RawMetadata) :
  RawMetadataFromFile fs pathname parent = Ok md -> Parent md = parent.
Proof.
  unfold RawMetadataFromFile, RawMetadataFromReader.
  destruct (ReadFile fs pathname); [|discriminate].
  destruct (UnmarshalJSON _ _); [|discriminate].
  intros H; injection H as <-. reflexivity.
Qed.

(** With a nil file cache, the loop panics at the first metadata file of the
    listing, and otherwise leaves the cache nil. *)
Lemma reload_entries_nil (fs : FS) (entries : list string) (cam : Campaign) :
  fileMetadata cam = None ->
  (Exists (fun name => strings.HasSuffix name FileMetadataSuffix = true) entries ->
   reload_entries fs cam entries = Panics)
  /\ (forall cam' err, reload_entries fs cam entries = Returns cam' err ->
                       fileMetadata cam' = None).
Proof.
  intros Hnil. induction entries as [|name rest IH]; simpl.
  - split.
    + intros H. inversion H.
    + intros cam' err H. injection H as <- _. exact Hnil.
  - destruct (strings.HasSuffix name FileMetadataSuffix) eqn:Hsuf.
    + unfold assign_file. rewrite Hnil. split; [reflexivity | discriminate].
    + destruct IH as [IH1 IH2]. split; [|exact IH2].
      intros H. apply IH1. inversion H; subst; [congruence | assumption].
Qed.

Lemma reloadMetadata_keeps_nil (fs : FS) (cam0 cam' : Campaign) (force0 : bool)
      (err : option error) :
  fileMetadata cam0 = None ->
  reloadMetadata fs cam0 force0 = Returns cam' err ->
  fileMetadata cam' = None.
Proof.
  intros Hnil. unfold reloadMetadata.
  destruct (negb force0 && negb (stale cam0)).
  - intros H; injection H as <- _. exact Hnil.
  - destruct (RawMetadataFromFile
                fs (filepath.Join [path cam0; CampaignMetadataFilename]) None)
      as [md0|e].
    + apply (reload_entries_nil fs _ (set_campaignMetadata cam0 (Some md0))).
      exact Hnil.
    + intros H; injection H as <- _. exact Hnil.
Qed.

(** C10.  [unloadMetadata] leaves the file cache nil and the campaign stale;
    no reload allocates the cache again; so the reload of an unloaded campaign
    whose metadata file reads well and whose directory lists at least one file
    metadata file panics, at the assignment into the nil map. *)
Theorem C10_reload_after_unload_panics (fs : FS) (cam : Campaign) (force : bool)
        (md : RawMetadata) (entries : list string) :
  RawMetadataFromFile
    fs (filepath.Join [path cam; CampaignMetadataFilename]) None = Ok md ->
  ReadDir fs (path cam) = Some entries ->
  Exists (fun name => strings.HasSuffix name FileMetadataSuffix = true) entries ->
  fileMetadata (unloadMetadata cam) = None
  /\ stale (unloadMetadata cam) = true
  /\ (forall cam0 force0 cam' err,
         fileMetadata cam0 = None ->
         reloadMetadata fs cam0 force0 = Returns cam' err ->
         fileMetadata cam' = None)
  /\ reloadMetadata fs (unloadMetadata cam) force = Panics.
Proof.
  intros Hmd Hdir Hex. split; [reflexivity|]. split; [reflexivity|]. split.
  - intros cam0 force0 cam' err. apply reloadMetadata_keeps_nil.
  - unfold reloadMetadata.
    change (stale (unloadMetadata cam)) with true.
    change (path (unloadMetadata cam)) with (path cam).
    rewrite andb_false_r, Hmd.
    change (path (set_campaignMetadata (unloadMetadata cam) (Some md)))
      with (path cam).
    rewrite Hdir.
    apply reload_entries_nil; [reflexivity | exact Hex].
Qed.

(** C10 on the sample campaign, unloaded, with its one metadata file. *)
Lemma C10_reload_after_unload_sample :
  reloadMetadata (Sample.fs true None) (unloadMetadata Sample.cam) false = Panics.
Proof.
  eapply (C10_reload_after_unload_panics (Sample.fs true None) Sample.cam false).
  - vm_compute. reflexivity.
  - vm_compute. reflexivity.
  - apply Exists_cons_tl. apply Exists_cons_hd. vm_compute. reflexivity.
Defined.

(** What the loop over the directory entries leaves.  It never touches the
    campaign metadata; when it ends with an error the stale flag is as before;
    when it ends without, the flag is cleared, the records that were in the
    cache are still there or replaced, and every metadata file of the listing
    has its record, with the campaign metadata as parent. *)
Lemma reload_entries_spec (fs : FS) (entries : list string) :
  forall cam cam' err,
    reload_entries fs cam entries = Returns cam' err ->
    campaignMetadata cam' = campaignMetadata cam
    /\ path cam' = path cam
    /\ match err with
       | Some _ => stale cam' = stale cam
       | None =>
         stale cam' = false
         /\ (forall k fmd,
                fileMetadata_lookup cam k = Some (Some fmd) ->
                exists fmd',
                  fileMetadata_lookup cam' k = Some (Some fmd')
                  /\ (Parent fmd' = Parent fmd
                      \/ Parent fmd' = campaignMetadata cam))
         /\ (forall name,
                In name entries ->
                strings.HasSuffix name FileMetadataSuffix = true ->
                exists fmd,
                  fileMetadata_lookup cam' (linkname_of name) = Some (Some fmd)
                  /\ Parent fmd = campaignMetadata cam)
       end.
Proof.
  induction entries as [|name rest IH]; intros cam cam' err; simpl.
  - intros H; injection H as <- <-. repeat split; [|intros ? []].
    intros k fmd Hk. exists fmd. split; [exact Hk | left; reflexivity].
  - destruct (strings.HasSuffix name FileMetadataSuffix) eqn:Hsuf.
    2:{ intros H. destruct (IH _ _ _ H) as (Hc & Hp & Herr).
        split; [exact Hc|]. split; [exact Hp|].
        destruct err as [e|]; [exact Herr|].
        destruct Herr as (Hs & Hkeep & Hnew). repeat split; try assumption.
        intros n [<-|Hin] Hn; [congruence | auto]. }
    destruct (RawMetadataFromFile fs (filepath.Join [path cam; name])
                                  (campaignMetadata cam)) as [md|e] eqn:Hload.
    + destruct (assign_file cam (linkname_of name) (Some md)) as [cam1|] eqn:Ha;
        [|discriminate].
      destruct (fileMetadata_lookup_assign _ _ _ _ Ha)
        as (Hs1 & Hc1 & Hp1 & Hl1 & Hne1).
      pose proof (RawMetadataFromFile_Parent _ _ _ _ Hload) as Hpar.
      destruct (updateFileVirtualMetadata fs cam1 (linkname_of name))
        as [cam2 [e2|]|] eqn:Hu; [| |discriminate].
      * intros H; injection H as <- <-.
        destruct (updateFileVirtualMetadata_preserves _ _ _ _ _ Hu)
          as (Hs2 & Hc2 & Hp2 & _).
        repeat split; congruence.
      * intros H.
        destruct (updateFileVirtualMetadata_preserves _ _ _ _ _ Hu)
          as (Hs2 & Hc2 & Hp2 & _ & Hk2).
        destruct (IH _ _ _ H) as (Hc & Hp & Herr).
        split; [congruence|]. split; [congruence|].
        destruct err as [e|]; [congruence|].
        destruct Herr as (Hs & Hkeep & Hnew).
        assert (Hhead : exists fmd,
                   fileMetadata_lookup cam' (linkname_of name) = Some (Some fmd)
                   /\ Parent fmd = campaignMetadata cam).
        { destruct (Hk2 _ _ Hl1) as (f2 & Hf2 & Hpf2).
          destruct (Hkeep _ _ Hf2) as (f3 & Hf3 & [Hpf3|Hpf3]);
            exists f3; (split; [exact Hf3 | congruence]). }
        split; [exact Hs|]. split.
        -- intros k fmd Hk.
           destruct (decide (k = linkname_of name)) as [->|Hne].
           ++ destruct Hhead as (f & Hf & Hpf). exists f. split; [exact Hf|].
              right. exact Hpf.
           ++ rewrite <- (Hne1 k Hne) in Hk.
              destruct (Hk2 _ _ Hk) as (f2 & Hf2 & Hpf2).
              destruct (Hkeep _ _ Hf2) as (f3 & Hf3 & [Hpf3|Hpf3]);
                exists f3; (split; [exact Hf3|]); [left | right]; congruence.
        -- intros n [<-|Hin] Hn; [exact Hhead|].
           destruct (Hnew n Hin Hn) as (f & Hf & Hpf).
           exists f. split; [exact Hf | congruence].
    + destruct (assign_file cam (linkname_of name) None) as [cam1|] eqn:Ha;
        [|discriminate].
      destruct (fileMetadata_lookup_assign _ _ _ _ Ha) as (Hs1 & Hc1 & Hp1 & _).
      intros H; injection H as <- <-. repeat split; assumption.
Qed.

(** The loop over the directory entries when it ends with an error.  It has
    stopped at a metadata file of the listing, which it could not load, or
    whose virtual metadata it could not update after loading it.  Every
    metadata file before that one has been loaded and has its record in the
    cache, with the campaign metadata as parent; the records that were in the
    cache are still there or replaced.  (The entry of the file at which the
    loop has stopped is left aside.) *)
Lemma reload_entries_failed (fs : FS) (entries : list string) :
  forall cam cam' e,
    reload_entries fs cam entries = Returns cam' (Some e) ->
    exists done name rest,
      entries = (done ++ name :: rest)%list
      /\ strings.HasSuffix name FileMetadataSuffix = true
      /\ match RawMetadataFromFile fs (filepath.Join [path cam; name])
                                   (campaignMetadata cam) with
         | Err e' => e = e'
         | Ok _ =>
           exists fmd,
             fileMetadata_lookup cam' (linkname_of name) = Some (Some fmd)
             /\ Parent fmd = campaignMetadata cam
         end
      /\ (forall n,
             In n done -> strings.HasSuffix n FileMetadataSuffix = true ->
             (exists fmd0,
                 RawMetadataFromFile fs (filepath.Join [path cam; n])
                                     (campaignMetadata cam) = Ok fmd0)
             /\ (linkname_of n <> linkname_of name ->
                 exists fmd,
                   fileMetadata_lookup cam' (linkname_of n) = Some (Some fmd)
                   /\ Parent fmd = campaignMetadata cam))
      /\ (forall k fmd,
             fileMetadata_lookup cam k = Some (Some fmd) ->
             k <> linkname_of name ->
             exists fmd',
               fileMetadata_lookup cam' k = Some (Some fmd')
               /\ (Parent fmd' = Parent fmd
                   \/ Parent fmd' = campaignMetadata cam)).
Proof.
  induction entries as [|name rest IH]; intros cam cam' e; simpl;
    [discriminate|].
  destruct (strings.HasSuffix name FileMetadataSuffix) eqn:Hsuf.
  2:{ intros H.
      destruct (IH _ _ _ H) as (done & name' & rest' & -> & Hn & Hat & Hdone & Hkeep).
      exists (name :: done), name', rest'. split; [reflexivity|].
      split; [exact Hn|]. split; [exact Hat|]. split; [|exact Hkeep].
      intros n [<-|Hin] Hs; [congruence | auto]. }
  destruct (RawMetadataFromFile fs (filepath.Join [path cam; name])
                                (campaignMetadata cam)) as [md|e0] eqn:Hload.
  - destruct (assign_file cam (linkname_of name) (Some md)) as [cam1|] eqn:Ha;
      [|discriminate].
    destruct (fileMetadata_lookup_assign _ _ _ _ Ha)
      as (Hs1 & Hc1 & Hp1 & Hl1 & Hne1).
    pose proof (RawMetadataFromFile_Parent _ _ _ _ Hload) as Hpar.
    destruct (updateFileVirtualMetadata fs cam1 (linkname_of name))
      as [cam2 [e2|]|] eqn:Hu; [| |discriminate].
    + (* the virtual metadata of this file cannot be updated *)
      intros H; injection H as <- <-.
      destruct (updateFileVirtualMetadata_preserves _ _ _ _ _ Hu)
        as (_ & _ & _ & _ & Hk2).
      exists [], name, rest. split; [reflexivity|]. split; [exact Hsuf|].
      rewrite Hload. split; [|split].
      * destruct (Hk2 _ _ Hl1) as (f2 & Hf2 & Hpf2).
        exists f2. split; [exact Hf2 | congruence].
      * intros n [].
      * intros k fmd Hk Hne. rewrite <- (Hne1 k Hne) in Hk.
        destruct (Hk2 _ _ Hk) as (f2 & Hf2 & Hpf2).
        exists f2. split; [exact Hf2 | left; exact Hpf2].
    + (* this file is loaded: the loop goes on *)
      intros H.
      destruct (updateFileVirtualMetadata_preserves _ _ _ _ _ Hu)
        as (_ & Hc2 & Hp2 & _ & Hk2).
      destruct (IH _ _ _ H)
        as (done & name' & rest' & -> & Hn & Hat & Hdone & Hkeep).
      assert (Hcm : campaignMetadata cam2 = campaignMetadata cam) by congruence.
      assert (Hpath : path cam2 = path cam) by congruence.
      rewrite Hcm, Hpath in Hat.
      assert (Hhead : linkname_of name <> linkname_of name' ->
                      exists fmd,
                        fileMetadata_lookup cam' (linkname_of name) = Some (Some fmd)
                        /\ Parent fmd = campaignMetadata cam).
      { intros Hne. destruct (Hk2 _ _ Hl1) as (f2 & Hf2 & Hpf2).
        destruct (Hkeep _ _ Hf2 Hne) as (f3 & Hf3 & [Hpf3|Hpf3]);
          exists f3; (split; [exact Hf3 | congruence]). }
      exists (name :: done), name', rest'. split; [reflexivity|].
      split; [exact Hn|]. split; [exact Hat|]. split.
      * intros n [<-|Hin] Hs.
        -- split; [eauto | exact Hhead].
        -- destruct (Hdone n Hin Hs) as [Hl Hr]. rewrite Hcm, Hpath in Hl.
           split; [exact Hl|]. intros Hne.
           destruct (Hr Hne) as (f & Hf & Hpf). exists f.
           split; [exact Hf | congruence].
      * intros k fmd Hk Hne.
        destruct (decide (k = linkname_of name)) as [->|Hnk].
        -- destruct (Hhead Hne) as (f & Hf & Hpf). exists f.
           split; [exact Hf | right; exact Hpf].
        -- rewrite <- (Hne1 k Hnk) in Hk.
           destruct (Hk2 _ _ Hk) as (f2 & Hf2 & Hpf2).
           destruct (Hkeep _ _ Hf2 Hne) as (f3 & Hf3 & [Hpf3|Hpf3]);
             exists f3; (split; [exact Hf3|]); [left | right]; congruence.
  - (* this file cannot be loaded *)
    destruct (assign_file cam (linkname_of name) None) as [cam1|] eqn:Ha;
      [|discriminate].
    destruct (fileMetadata_lookup_assign _ _ _ _ Ha) as (_ & _ & _ & _ & Hne1).
    intros H; injection H as <- <-.
    exists [], name, rest. split; [reflexivity|]. split; [exact Hsuf|].
    rewrite Hload. split; [reflexivity|]. split; [intros n []|].
    intros k fmd Hk Hne. exists fmd. rewrite (Hne1 k Hne).
    split; [exact Hk | left; reflexivity].
Qed.

(** C2, the statement of the design document refuted.  A fresh campaign is
    reloaded from a directory whose second metadata file is no JSON: the call
    fails, and the caches are not as before: the campaign metadata is loaded,
    the record of the first file is in the cache, and the second file has a
    nil entry. *)
Lemma C2_failed_reload_keeps_partial_state :
  match reloadMetadata (Sample.fs true (Some json.Invalid))
                       (newCampaign Sample.cfg "test") false with
  | Returns cam' (Some _) =>
    campaignMetadata (newCampaign Sample.cfg "test") = None
    /\ campaignMetadata cam' <> None
    /\ fileMetadata_lookup (newCampaign Sample.cfg "test") "a.dat" = None
    /\ fileMetadata_lookup cam' "a.dat" <> None
    /\ fileMetadata_lookup cam' "b.dat" = Some None
    /\ stale cam' = true
  | _ => False
  end.
Proof. vm_compute. repeat split; discriminate. Qed.

(** C2, as the code has it.  A reload that fails leaves the stale flag as it
    was; the caches are written in place and not restored.  After a campaign
    file that cannot be loaded the campaign metadata is nil and the file cache
    is as it was.  After a failure at the metadata file of a data file (which
    cannot be loaded, or whose virtual metadata cannot be updated) the
    campaign metadata is the one just loaded, every metadata file listed
    before that one has been loaded and has its record in the file cache,
    with the campaign metadata as parent, and the records that were in the
    cache are still there or replaced.  Only a reload that succeeds clears
    the flag, and then, unless it was skipped for a campaign that is not
    stale, the campaign metadata is the one loaded and every metadata file of
    the listing has its record in the file cache, with the campaign metadata
    as parent. *)
Theorem C2_reload_outcome (fs : FS) (cam cam' : Campaign) (force : bool)
        (err : option error) :
  reloadMetadata fs cam force = Returns cam' err ->
  path cam' = path cam
  /\ match err with
     | Some e =>
       stale cam' = stale cam
       /\ (forall e0,
              RawMetadataFromFile
                fs (filepath.Join [path cam; CampaignMetadataFilename]) None
              = Err e0 ->
              campaignMetadata cam' = None
              /\ fileMetadata cam' = fileMetadata cam)
       /\ (forall md,
              RawMetadataFromFile
                fs (filepath.Join [path cam; CampaignMetadataFilename]) None
              = Ok md ->
              campaignMetadata cam' = Some md
              /\ exists done name rest,
                  default [] (ReadDir fs (path cam)) = (done ++ name :: rest)%list
                  /\ strings.HasSuffix name FileMetadataSuffix = true
                  /\ match RawMetadataFromFile
                             fs (filepath.Join [path cam; name]) (Some md) with
                     | Err e' => e = e'
                     | Ok _ =>
                       exists fmd,
                         fileMetadata_lookup cam' (linkname_of name)
                         = Some (Some fmd)
                         /\ Parent fmd = Some md
                     end
                  /\ (forall n,
                         In n done ->
                         strings.HasSuffix n FileMetadataSuffix = true ->
                         (exists fmd0,
                             RawMetadataFromFile
                               fs (filepath.Join [path cam; n]) (Some md)
                             = Ok fmd0)
                         /\ (linkname_of n <> linkname_of name ->
                             exists fmd,
                               fileMetadata_lookup cam' (linkname_of n)
                               = Some (Some fmd)
                               /\ Parent fmd = Some md))
                  /\ (forall k fmd,
                         fileMetadata_lookup cam k = Some (Some fmd) ->
                         k <> linkname_of name ->
                         exists fmd',
                           fileMetadata_lookup cam' k = Some (Some fmd')))
     | None =>
       (force = false /\ stale cam = false /\ cam' = cam)
       \/ (stale cam' = false
           /\ exists md,
               RawMetadataFromFile
                 fs (filepath.Join [path cam; CampaignMetadataFilename]) None
               = Ok md
               /\ campaignMetadata cam' = Some md
               /\ forall name,
                   In name (default [] (ReadDir fs (path cam))) ->
                   strings.HasSuffix name FileMetadataSuffix = true ->
                   exists fmd,
                     fileMetadata_lookup cam' (linkname_of name) = Some (Some fmd)
                     /\ Parent fmd = Some md)
     end.
Proof.
  unfold reloadMetadata.
  destruct (negb force && negb (stale cam)) eqn:Hskip.
  - intros H; injection H as <- <-. split; [reflexivity|]. left.
    apply andb_true_iff in Hskip as [Hf Hs].
    apply negb_true_iff in Hf, Hs. auto.
  - destruct (RawMetadataFromFile
                fs (filepath.Join [path cam; CampaignMetadataFilename]) None)
      as [md|e0] eqn:Hload.
    + intros H. destruct (reload_entries_spec _ _ _ _ _ H) as (Hc & Hp & Herr).
      split; [exact Hp|]. destruct err as [e|].
      * split; [exact Herr|]. split; [discriminate|].
        intros md' Hmd'. injection Hmd' as <-. split; [exact Hc|].
        destruct (reload_entries_failed _ _ _ _ _ H)
          as (done & name & rest & Hsplit & Hn & Hat & Hdone & Hkeep).
        exists done, name, rest.
        split; [exact Hsplit|]. split; [exact Hn|]. split; [exact Hat|].
        split; [exact Hdone|].
        intros k fmd Hk Hne. destruct (Hkeep k fmd Hk Hne) as (f & Hf & _).
        exists f. exact Hf.
      * destruct Herr as (Hs & _ & Hnew). right. split; [exact Hs|].
        exists md. split; [reflexivity|]. split; [exact Hc|]. exact Hnew.
    + intros H; injection H as <- <-. split; [reflexivity|].
      split; [reflexivity|]. split; [|discriminate].
      intros e _. split; reflexivity.
Qed.

(** C2 on the sample directory, read into a fresh campaign: the reload
    succeeds, clears the flag and loads the record of [a.dat].  With a second
    metadata file that is no JSON the reload fails, and the campaign metadata
    just loaded stays. *)
Lemma C2_reload_sample :
  stale (state_after (reloadMetadata (Sample.fs true None)
                                     (newCampaign Sample.cfg "test") false)
                     (newCampaign Sample.cfg "test")) = false
  /\ (exists fmd,
         fileMetadata_lookup
           (state_after (reloadMetadata (Sample.fs true None)
                                        (newCampaign Sample.cfg "test") false)
                        (newCampaign Sample.cfg "test")) "a.dat" = Some (Some fmd)
         /\ Owner fmd true = "alice")
  /\ campaignMetadata
       (state_after (reloadMetadata (Sample.fs true (Some json.Invalid))
                                    (newCampaign Sample.cfg "test") false)
                    (newCampaign Sample.cfg "test"))
     = Some (mkRawMetadata None "" "alice" None None ∅ "" 0 None None).
Proof.
  destruct (C2_reload_outcome
              (Sample.fs true None) (newCampaign Sample.cfg "test")
              (state_after (reloadMetadata (Sample.fs true None)
                                           (newCampaign Sample.cfg "test") false)
                           (newCampaign Sample.cfg "test"))
              false None)
    as [_ [(_ & Hs & _) | (Hs & md & Hmd & _ & Hfiles)]].
  - vm_compute. reflexivity.
  - vm_compute in Hs. discriminate Hs.
  - split; [exact Hs|]. split.
    + destruct (Hfiles "a.dat.pto_file_metadata.json") as (fmd & Hf & Hp).
      * vm_compute. right. left. reflexivity.
      * vm_compute. reflexivity.
      * exists fmd. split; [exact Hf|].
        assert (Hm : md = set_Parent (set_owner (set_Metadata RawMetadata_zero ∅)
                                                "alice") None).
        { vm_compute in Hmd. injection Hmd as <-. vm_compute. reflexivity. }
        unfold Owner. rewrite Hp, Hm. simpl.
        destruct (decide (owner fmd = "")) as [_|Hne]; [reflexivity|].
        (* the record read from the sample file has no owner of its own *)
        exfalso. apply Hne.
        vm_compute in Hf. injection Hf as <-. reflexivity.
    + destruct (C2_reload_outcome
                  (Sample.fs true (Some json.Invalid))
                  (newCampaign Sample.cfg "test")
                  (state_after (reloadMetadata (Sample.fs true (Some json.Invalid))
                                               (newCampaign Sample.cfg "test") false)
                               (newCampaign Sample.cfg "test"))
                  false (Some (PTOWrapError "json")))
        as [_ (_ & _ & Hkept)].
      * vm_compute. reflexivity.
      * destruct (Hkept (mkRawMetadata None "" "alice" None None ∅ "" 0 None None))
          as [Hcm _]; [vm_compute; reflexivity | exact Hcm].
Defined.

(** ** PathCache: bulk registration *)

(** The producer gives the strings, in order, the consecutive ids from
    [pidseq] on, and leaves every other entry of the cache alone. *)
Lemma produce_spec (strs : list string) :
  forall (cache cache' : gmap string Z) (pidseq last : Z) (rows : list (Z * string)),
    NoDup strs ->
    int_min <= pidseq ->
    pidseq + Z.of_nat (length strs) <= int_max ->
    produce cache pidseq strs = (cache', rows, last) ->
    (forall (i : nat) (s : string),
        strs !! i = Some s -> cache' !! s = Some (pidseq + Z.of_nat i))
    /\ (forall s : string, s ∉ strs -> cache' !! s = cache !! s)
    /\ (forall (i : nat) (s : string),
           strs !! i = Some s -> rows !! i = Some (pidseq + Z.of_nat i, s))
    /\ last = pidseq + Z.of_nat (length strs).
Proof.
  induction strs as [|s0 rest IH]; intros cache cache' pidseq last rows Hnd Hlo Hhi.
  - simpl. intros H; injection H as <- <- <-. repeat split; try lia.
    + intros i s H. rewrite lookup_nil in H. discriminate.
    + intros i s H. rewrite lookup_nil in H. discriminate.
  - cbn [produce]. rewrite length_cons in Hhi.
    destruct (produce (<[s0:=pidseq]> cache) (wrap_int (pidseq + 1)) rest)
      as [[c r] l] eqn:Hp.
    intros H; injection H as <- <- <-.
    apply NoDup_cons in Hnd as [Hnotin Hnd].
    rewrite wrap_int_small in Hp by (unfold int_min, int_max in *; lia).
    assert (Hlo' : int_min <= pidseq + 1) by lia.
    assert (Hhi' : pidseq + 1 + Z.of_nat (length rest) <= int_max) by lia.
    destruct (IH _ _ _ _ _ Hnd Hlo' Hhi' Hp) as (Hin & Hout & Hrows & Hlast).
    rewrite length_cons.
    repeat split.
    + intros [|i] s Hs; simpl in Hs.
      * injection Hs as <-. rewrite (Hout s0 Hnotin), lookup_insert_eq.
        f_equal. lia.
      * rewrite (Hin i s Hs). f_equal. lia.
    + intros s Hs. apply not_elem_of_cons in Hs as [Hne Hs].
      rewrite (Hout s Hs). apply lookup_insert_ne. congruence.
    + intros [|i] s Hs; simpl in Hs; simpl.
      * injection Hs as <-. do 2 f_equal. lia.
      * rewrite (Hrows i s Hs). do 2 f_equal. lia.
    + lia.
Qed.

Section PathCacheProperties.

Variable range : gset string -> list string.

(** A range over a set gives each of its elements once, in some order. *)
Hypothesis range_elements : forall S : gset string, range S ≡ₚ elements S.

Lemma range_NoDup (S : gset string) : NoDup (range S).
Proof. rewrite range_elements. apply NoDup_elements. Qed.

Lemma elem_of_range (S : gset string) (s : string) : s ∈ range S <-> s ∈ S.
Proof. rewrite range_elements. apply elem_of_elements. Qed.

Lemma length_range (S : gset string) : length (range S) = size S.
Proof. rewrite range_elements. reflexivity. Qed.

(** What a call that gets its block of ids leaves behind.  The string at the
    place [i] of the loop of the producer has the id at the place [i] of the
    block when the call returns no error, and also after a copy that has
    failed when the producer had come that far; the strings that the
    producer had not come to are as the cache had them. *)
Lemma CacheNewPaths_spec (io : answers) (db db' : DB)
      (cache cache' : gmap string Z) (pathSet pathSet' : gset string)
      (err : option error) :
  QueryOne_err io = None -> Exec_err io = None -> Pipe_err io = None ->
  int_min <= paths_id_seq db + 1 ->
  paths_id_seq db + 1 + Z.of_nat (size pathSet) <= int_max ->
  CacheNewPaths range io db cache pathSet = (db', cache', pathSet', err) ->
  pathSet' = filter (fun ps => ¬ (0 < cache_get cache ps)) pathSet
  /\ paths_id_seq db' = paths_id_seq db + 1 + Z.of_nat (size pathSet')
  /\ err = CopyFrom_err io
  /\ (forall (i : nat) (s : string),
         range pathSet' !! i = Some s ->
         (err = None \/ (i < produced io)%nat ->
          cache' !! s = Some (paths_id_seq db + 1 + Z.of_nat i))
         /\ (err <> None -> (produced io <= i)%nat -> cache' !! s = cache !! s)
         /\ (err = None ->
             (paths_id_seq db + 1 + Z.of_nat i,
              if decide (s = "") then None else Some s) ∈ paths db'))
  /\ (forall s : string, s ∉ pathSet' -> cache' !! s = cache !! s).
Proof.
  intros Hq He Hp Hlo Hhi. unfold CacheNewPaths.
  rewrite Hq, He, Hp. cbn [nextval setval paths_id_seq paths].
  set (S' := filter (fun ps => ¬ (0 < cache_get cache ps)) pathSet).
  assert (Hsize : (size S' <= size pathSet)%nat).
  { apply subseteq_size. intros x Hx. apply elem_of_filter in Hx. tauto. }
  assert (Hwrap : wrap_int (paths_id_seq db + 1 + Z.of_nat (size S'))
                  = paths_id_seq db + 1 + Z.of_nat (size S')).
  { apply wrap_int_small. unfold int_min, int_max in *. lia. }
  destruct (CopyFrom_err io) as [e|] eqn:Hc.
  - (* the copy fails: the producer has come to the string [produced io] *)
    set (done := take (produced io) (range S')).
    assert (Hnd : NoDup done)
      by (eapply sublist_NoDup; [apply (range_NoDup S') | apply sublist_take]).
    assert (Hlen : (length done <= size S')%nat).
    { unfold done. rewrite length_take, length_range. lia. }
    destruct (produce cache (paths_id_seq db + 1) done) as [[c r] l] eqn:Hprod.
    destruct (produce_spec _ _ _ _ _ _ Hnd Hlo ltac:(lia) Hprod)
      as (Hin & Hout & _ & _).
    intros H; injection H as <- <- <- <-.
    split; [reflexivity|]. split; [exact Hwrap|]. split; [reflexivity|]. split.
    + intros i s Hi. split; [|split].
      * intros [Hnone|Hlt]; [discriminate Hnone|].
        apply Hin. unfold done. rewrite lookup_take_lt by exact Hlt. exact Hi.
      * intros _ Hge. apply Hout. unfold done. intros Hs.
        apply elem_of_take in Hs as (j & Hj & Hlt).
        pose proof (NoDup_lookup _ _ _ _ (range_NoDup S') Hi Hj). lia.
      * discriminate.
    + intros s Hs. apply Hout. unfold done. intros Hin'.
      apply elem_of_take in Hin' as (j & Hj & _).
      apply Hs, elem_of_range, list_elem_of_lookup. eauto.
  - (* the copy succeeds: the producer has run to its end *)
    destruct (produce cache (paths_id_seq db + 1) (range S')) as [[c r] l] eqn:Hprod.
    destruct (produce_spec _ _ _ _ _ _ (range_NoDup S') Hlo
                           ltac:(rewrite length_range; lia) Hprod)
      as (Hin & Hout & Hrows & _).
    intros H; injection H as <- <- <- <-.
    split; [reflexivity|]. split; [exact Hwrap|]. split; [reflexivity|]. split.
    + intros i s Hi. split; [|split].
      * intros _. exact (Hin i s Hi).
      * intros Hne. contradiction.
      * intros _. cbn [CopyFrom paths]. apply elem_of_app. right.
        apply (list_elem_of_fmap_2 (fun r => (fst r, copy_string (snd r)))
                                   r (paths_id_seq db + 1 + Z.of_nat i, s)).
        apply list_elem_of_lookup. exists i. exact (Hrows i s Hi).
    + intros s Hs. apply Hout. rewrite elem_of_range. exact Hs.
Qed.

(** C1, as the code has it.  A call whose three preparing steps succeed
    leaves in the caller's set the N strings it did not find in the cache and
    moves the sequence N+1 steps on (one by nextval, which gives the first
    id of the block, above every id given before, and N by setval).  When it
    returns no error, it has given those N strings the N ids first, first+1,
    ..., first+N-1, each to one string: every one of them maps in the cache
    to its id, and the table has its row (with NULL for the empty string).
    When the copy into the table fails, the call returns without waiting for
    the producer: the strings that the producer has gone through have their
    ids of the block in the cache, the others are as the cache had them.  No
    other entry of the cache changes. *)
Theorem C1_CacheNewPaths_block (io : answers) (db db' : DB)
        (cache cache' : gmap string Z) (pathSet pathSet' : gset string)
        (err : option error) :
  QueryOne_err io = None -> Exec_err io = None -> Pipe_err io = None ->
  int_min <= paths_id_seq db + 1 ->
  paths_id_seq db + 1 + Z.of_nat (size pathSet) <= int_max ->
  CacheNewPaths range io db cache pathSet = (db', cache', pathSet', err) ->
  pathSet' = filter (fun ps => ¬ (0 < cache_get cache ps)) pathSet
  /\ paths_id_seq db' = paths_id_seq db + 1 + Z.of_nat (size pathSet')
  /\ (err = None ->
      (forall s : string,
          s ∈ pathSet' ->
          exists i : Z,
            0 <= i < Z.of_nat (size pathSet')
            /\ cache' !! s = Some (paths_id_seq db + 1 + i)
            /\ (paths_id_seq db + 1 + i, if decide (s = "") then None else Some s)
               ∈ paths db')
      /\ (forall s t : string,
             s ∈ pathSet' -> t ∈ pathSet' -> cache' !! s = cache' !! t -> s = t)
      /\ (forall i : Z,
             0 <= i < Z.of_nat (size pathSet') ->
             exists s : string,
               s ∈ pathSet' /\ cache' !! s = Some (paths_id_seq db + 1 + i)))
  /\ (err <> None ->
      paths db' = paths db
      /\ forall (i : nat) (s : string),
          range pathSet' !! i = Some s ->
          cache' !! s
          = if decide (i < produced io)%nat
            then Some (paths_id_seq db + 1 + Z.of_nat i)
            else cache !! s)
  /\ (forall s : string,
         s ∈ pathSet' ->
         cache' !! s = cache !! s
         \/ exists i : Z,
             0 <= i < Z.of_nat (size pathSet')
             /\ cache' !! s = Some (paths_id_seq db + 1 + i))
  /\ (forall s : string, s ∉ pathSet' -> cache' !! s = cache !! s).
Proof.
  intros Hq He Hp Hlo Hhi Hcall.
  destruct (CacheNewPaths_spec _ _ _ _ _ _ _ _ Hq He Hp Hlo Hhi Hcall)
    as (Hset & Hseq & Herr & Hin & Hout).
  assert (Hidx : forall s, s ∈ pathSet' ->
                           exists i : nat, range pathSet' !! i = Some s).
  { intros s Hs. apply list_elem_of_lookup. apply elem_of_range. exact Hs. }
  assert (Hbound : forall (i : nat) s, range pathSet' !! i = Some s ->
                                       0 <= Z.of_nat i < Z.of_nat (size pathSet')).
  { intros i s Hi. apply lookup_lt_Some in Hi. rewrite length_range in Hi. lia. }
  split; [exact Hset|]. split; [exact Hseq|]. split; [|split; [|split]].
  - intros Hnone. split; [|split].
    + intros s Hs. destruct (Hidx s Hs) as [i Hi].
      exists (Z.of_nat i). destruct (Hin i s Hi) as (Hc & _ & Hrow).
      split; [exact (Hbound i s Hi)|]. split; [apply Hc | apply Hrow]; auto.
    + intros s t Hs Ht Heq.
      destruct (Hidx s Hs) as [i Hi]. destruct (Hidx t Ht) as [j Hj].
      destruct (Hin i s Hi) as (Hci & _). destruct (Hin j t Hj) as (Hcj & _).
      rewrite Hci, Hcj in Heq by auto. injection Heq as Heq.
      assert (i = j) by lia. subst j. congruence.
    + intros i Hi.
      destruct (lookup_lt_is_Some_2 (range pathSet') (Z.to_nat i)) as [s Hs].
      { rewrite length_range. lia. }
      exists s. split.
      * apply elem_of_range. apply list_elem_of_lookup. eauto.
      * destruct (Hin _ _ Hs) as (Hc & _). rewrite Hc by auto. f_equal. lia.
  - intros Hne. split.
    + revert Hcall. unfold CacheNewPaths. rewrite Hq, He, Hp.
      cbn [nextval setval]. rewrite <- Herr.
      destruct err as [e|]; [|contradiction].
      destruct (produce _ _ _) as [[? ?] ?].
      intros H; injection H as <- _ _. reflexivity.
    + intros i s Hi. destruct (Hin i s Hi) as (Hc & Hkeep & _).
      destruct (decide (i < produced io)%nat) as [Hlt|Hge];
        [apply Hc; right; exact Hlt | apply Hkeep; [exact Hne | lia]].
  - intros s Hs. destruct (Hidx s Hs) as [i Hi].
    destruct (Hin i s Hi) as (Hc & Hkeep & _).
    destruct err as [e|].
    + destruct (decide (i < produced io)%nat) as [Hlt|Hge].
      * right. exists (Z.of_nat i). split; [exact (Hbound i s Hi)|]. auto.
      * left. apply Hkeep; [discriminate | lia].
    + right. exists (Z.of_nat i). split; [exact (Hbound i s Hi)|]. auto.
  - exact Hout.
Qed.

End PathCacheProperties.

(** C1, the statement of the design document refuted: for two new strings
    the call moves the sequence three steps on, from 10 to 13, not two. *)
Lemma C1_sequence_moves_one_more :
  size (CacheNewPaths elements Sample.no_errors Sample.db ∅ Sample.two_paths).1.2
  = 2%nat
  /\ paths_id_seq
       (CacheNewPaths elements Sample.no_errors Sample.db ∅ Sample.two_paths).1.1.1
     = paths_id_seq Sample.db + 3.
Proof. split; vm_compute; reflexivity. Qed.

(** C1 on the sample database: the two strings get the ids 11 and 12.  When
    the copy fails after the producer has gone through one string, the
    sequence has moved all the same. *)
Lemma C1_CacheNewPaths_sample :
  paths_id_seq
    (CacheNewPaths elements Sample.no_errors Sample.db ∅ Sample.two_paths).1.1.1
  = 10 + 1 + 2
  /\ (exists i : Z,
         0 <= i < 2
         /\ (CacheNewPaths elements Sample.no_errors Sample.db ∅
                           Sample.two_paths).1.1.2
             !! "* 5.6.7.8" = Some (10 + 1 + i))
  /\ paths_id_seq
       (CacheNewPaths elements Sample.copy_fails Sample.db ∅ Sample.two_paths).1.1.1
     = 10 + 1 + 2.
Proof.
  destruct (C1_CacheNewPaths_block
              elements (fun S => Permutation_refl (elements S))
              Sample.no_errors Sample.db
              (CacheNewPaths elements Sample.no_errors Sample.db ∅ Sample.two_paths).1.1.1
              ∅
              (CacheNewPaths elements Sample.no_errors Sample.db ∅ Sample.two_paths).1.1.2
              Sample.two_paths
              (CacheNewPaths elements Sample.no_errors Sample.db ∅ Sample.two_paths).1.2
              (CacheNewPaths elements Sample.no_errors Sample.db ∅ Sample.two_paths).2
              eq_refl eq_refl eq_refl)
    as (Hset & Hseq & Hok & _).
  - vm_compute. discriminate.
  - vm_compute. discriminate.
  - vm_compute. reflexivity.
  - assert (Hsize : size (CacheNewPaths elements Sample.no_errors Sample.db ∅
                                        Sample.two_paths).1.2 = 2%nat)
      by (vm_compute; reflexivity).
    destruct Hok as (Hids & _); [vm_compute; reflexivity|].
    rewrite Hsize in Hseq, Hids. split; [exact Hseq|]. split.
    + destruct (Hids "* 5.6.7.8") as (i & Hi & Hc & _).
      * compute_done.
      * exists i. split; [exact Hi | exact Hc].
    + destruct (C1_CacheNewPaths_block
                  elements (fun S => Permutation_refl (elements S))
                  Sample.copy_fails Sample.db
                  (CacheNewPaths elements Sample.copy_fails Sample.db ∅
                                 Sample.two_paths).1.1.1
                  ∅
                  (CacheNewPaths elements Sample.copy_fails Sample.db ∅
                                 Sample.two_paths).1.1.2
                  Sample.two_paths
                  (CacheNewPaths elements Sample.copy_fails Sample.db ∅
                                 Sample.two_paths).1.2
                  (CacheNewPaths elements Sample.copy_fails Sample.db ∅
                                 Sample.two_paths).2
                  eq_refl eq_refl eq_refl)
        as (_ & Hseq' & _).
      * vm_compute. discriminate.
      * vm_compute. discriminate.
      * vm_compute. reflexivity.
      * assert (Hsize' : size (CacheNewPaths elements Sample.copy_fails Sample.db ∅
                                             Sample.two_paths).1.2 = 2%nat)
          by (vm_compute; reflexivity).
        rewrite Hsize' in Hseq'. exact Hseq'.
Defined.

(** A copy that fails when the producer has gone through one of the two
    strings of the sample: one string has its id, the other is not in the
    cache. *)
Lemma CacheNewPaths_failed_copy :
  size (CacheNewPaths elements Sample.copy_fails Sample.db ∅
                      Sample.two_paths).1.1.2 = 1%nat
  /\ (CacheNewPaths elements Sample.copy_fails Sample.db ∅ Sample.two_paths).2
     = Some (OtherError "copy")
  /\ paths (CacheNewPaths elements Sample.copy_fails Sample.db ∅
                          Sample.two_paths).1.1.1 = [].
Proof. repeat split; vm_compute; reflexivity. Qed.

Section PathCacheIdempotence.

Variable range : gset string -> list string.
Hypothesis range_elements : forall S : gset string, range S ≡ₚ elements S.

(** A call that returns no error had all its steps succeed. *)
Lemma CacheNewPaths_no_error (io : answers) (db db' : DB)
      (cache cache' : gmap string Z) (pathSet pathSet' : gset string) :
  CacheNewPaths range io db cache pathSet = (db', cache', pathSet', None) ->
  QueryOne_err io = None /\ Exec_err io = None /\ Pipe_err io = None.
Proof.
  unfold CacheNewPaths.
  destruct (QueryOne_err io); [discriminate|].
  cbn [nextval].
  destruct (Exec_err io); [discriminate|].
  destruct (Pipe_err io); [discriminate|].
  intros _. auto.
Qed.

(** The caller's set after any call: the strings the cache did not have. *)
Lemma CacheNewPaths_set (io : answers) (db : DB) (cache : gmap string Z)
      (pathSet : gset string) :
  (CacheNewPaths range io db cache pathSet).1.2
  = filter (fun ps => ¬ (0 < cache_get cache ps)) pathSet.
Proof.
  unfold CacheNewPaths.
  destruct (QueryOne_err io); [reflexivity|]. cbn [nextval].
  destruct (Exec_err io); [reflexivity|].
  destruct (Pipe_err io); [reflexivity|].
  destruct (CopyFrom_err io); destruct (produce _ _ _) as [[c r] l]; reflexivity.
Qed.

(** A call on a set of cached strings leaves the cache as it is. *)
Lemma CacheNewPaths_cached (io : answers) (db : DB) (cache : gmap string Z)
      (pathSet : gset string) :
  (forall s, s ∈ pathSet -> 0 < cache_get cache s) ->
  (CacheNewPaths range io db cache pathSet).1.2 = ∅
  /\ (CacheNewPaths range io db cache pathSet).1.1.2 = cache.
Proof.
  intros Hall.
  assert (Hempty : filter (fun ps => ¬ (0 < cache_get cache ps)) pathSet
                   = (∅ : gset string)).
  { apply set_eq. intros s. rewrite elem_of_filter. split.
    - intros [Hn Hs]. exfalso. apply Hn. apply Hall. exact Hs.
    - intros Hs. exfalso. exact (not_elem_of_empty s Hs). }
  split; [rewrite CacheNewPaths_set; exact Hempty|].
  unfold CacheNewPaths. rewrite Hempty.
  assert (Hnil : range ∅ = []).
  { apply Permutation_nil_r. rewrite range_elements.
    rewrite elements_empty. reflexivity. }
  rewrite Hnil, take_nil.
  destruct (QueryOne_err io); [reflexivity|]. cbn [nextval].
  destruct (Exec_err io); [reflexivity|].
  destruct (Pipe_err io); [reflexivity|].
  cbn [produce].
  destruct (CopyFrom_err io); reflexivity.
Qed.

(** C4.  After a call that has returned without error, on a sequence that
    stands at 0 or more, every string of the set given is cached with a
    positive id; so a second call with the same set, whatever the database
    answers, deletes every string from its candidate set, which it leaves
    empty, and leaves the cache as the first call left it.  In every call the
    caller's set is cut down to the strings that the cache did not
    have, which are those the call registers. *)
Theorem C4_CacheNewPaths_idempotent (io1 io2 : answers) (db db1 : DB)
        (cache cache1 : gmap string Z) (pathSet pathSet1 : gset string) :
  0 <= paths_id_seq db ->
  paths_id_seq db + 1 + Z.of_nat (size pathSet) <= int_max ->
  CacheNewPaths range io1 db cache pathSet = (db1, cache1, pathSet1, None) ->
  pathSet1 = filter (fun ps => ¬ (0 < cache_get cache ps)) pathSet
  /\ (forall s, s ∈ pathSet1 -> cache1 !! s <> cache !! s)
  /\ (forall s, s ∈ pathSet -> 0 < cache_get cache1 s)
  /\ (CacheNewPaths range io2 db1 cache1 pathSet).1.2 = ∅
  /\ (CacheNewPaths range io2 db1 cache1 pathSet).1.1.2 = cache1.
Proof.
  intros Hseq Hhi Hcall.
  destruct (CacheNewPaths_no_error _ _ _ _ _ _ _ Hcall) as (Hq & He & Hp).
  assert (Hlo : int_min <= paths_id_seq db + 1) by (unfold int_min; lia).
  destruct (CacheNewPaths_spec range range_elements _ _ _ _ _ _ _ _
                               Hq He Hp Hlo Hhi Hcall)
    as (Hset & _ & _ & Hin & Hout).
  assert (Hids : forall s, s ∈ pathSet1 ->
                           exists i : Z, 0 <= i /\
                             cache1 !! s = Some (paths_id_seq db + 1 + i)).
  { intros s Hs.
    apply (elem_of_range range range_elements) in Hs.
    apply list_elem_of_lookup in Hs as [i Hi].
    exists (Z.of_nat i). split; [lia|]. apply (Hin i s Hi). left. reflexivity. }
  assert (Hpos : forall s, s ∈ pathSet -> 0 < cache_get cache1 s).
  { intros s Hs. destruct (decide (s ∈ pathSet1)) as [Hs1|Hnin].
    - destruct (Hids s Hs1) as (i & Hi & Hc).
      unfold cache_get. rewrite Hc. simpl. lia.
    - unfold cache_get. rewrite (Hout s Hnin).
      destruct (decide (0 < cache_get cache s)) as [Hc|Hc]; [exact Hc|].
      exfalso. apply Hnin. rewrite Hset. apply elem_of_filter. auto. }
  split; [exact Hset|]. split; [|split; [exact Hpos|]].
  - intros s Hs Heq. destruct (Hids s Hs) as (i & Hi & Hc).
    rewrite Hset in Hs. apply elem_of_filter in Hs as [Hn _].
    apply Hn. unfold cache_get. rewrite <- Heq, Hc. simpl. lia.
  - apply CacheNewPaths_cached. exact Hpos.
Qed.

End PathCacheIdempotence.

(** C4 on the sample database: the second call registers nothing. *)
Lemma C4_CacheNewPaths_sample :
  (CacheNewPaths
     elements Sample.no_errors
     (CacheNewPaths elements Sample.no_errors Sample.db ∅ Sample.two_paths).1.1.1
     (CacheNewPaths elements Sample.no_errors Sample.db ∅ Sample.two_paths).1.1.2
     Sample.two_paths).1.2 = ∅.
Proof.
  destruct (C4_CacheNewPaths_idempotent
              elements (fun S => Permutation_refl (elements S))
              Sample.no_errors Sample.no_errors Sample.db
              (CacheNewPaths elements Sample.no_errors Sample.db ∅ Sample.two_paths).1.1.1
              ∅
              (CacheNewPaths elements Sample.no_errors Sample.db ∅ Sample.two_paths).1.1.2
              Sample.two_paths
              (CacheNewPaths elements Sample.no_errors Sample.db ∅ Sample.two_paths).1.2)
    as (_ & _ & _ & Hempty & _).
  - vm_compute. discriminate.
  - vm_compute. discriminate.
  - vm_compute. reflexivity.
  - exact Hempty.
Defined.

(** ** Observations on the wire *)

Lemma Atoi_syntax (s : string) :
  snd (strconv.Atoi s) = Some strconv.ErrSyntax -> fst (strconv.Atoi s) = 0.
Proof.
  unfold strconv.Atoi, strconv.ParseInt.
  destruct s as [|c r]; [reflexivity|].
  destruct (if Ascii.eqb c "+" then (false, r)
            else if Ascii.eqb c "-" then (true, r) else (false, String c r))
    as [sign s1].
  destruct (strconv.ParseUint s1) as [un [[|]|]]; [reflexivity| |];
    destruct (negb sign && (2 ^ 63 <=? un)); try discriminate;
    destruct (sign && (2 ^ 63 <? un)); discriminate.
Qed.

Lemma Atoi_range (s : string) :
  snd (strconv.Atoi s) = Some strconv.ErrRange ->
  fst (strconv.Atoi s) = int_max \/ fst (strconv.Atoi s) = int_min.
Proof.
  unfold strconv.Atoi, strconv.ParseInt.
  destruct s as [|c r]; [discriminate|].
  destruct (if Ascii.eqb c "+" then (false, r)
            else if Ascii.eqb c "-" then (true, r) else (false, String c r))
    as [sign s1].
  destruct (strconv.ParseUint s1) as [un [[|]|]]; [discriminate| |];
    (destruct (negb sign && (2 ^ 63 <=? un)); [left; reflexivity|]);
    (destruct (sign && (2 ^ 63 <? un)); [right; reflexivity | discriminate]).
Qed.

(** C9, the statement refuted in one point: a first element that is no
    integer, the string "99999999999999999999x", is decoded without error, but
    the set id is not 0: [Atoi] gives up with a range error at the twentieth
    digit and returns the largest int with it. *)
Lemma C9_setid_not_zero_on_range_error :
  snd (Observation.UnmarshalJSON
         Observation.zero
         (json.Doc (json.Array (json.String_ "99999999999999999999x"
                                             :: tl Sample.obs_line)))) = None
  /\ Observation.SetID
       (fst (Observation.UnmarshalJSON
               Observation.zero
               (json.Doc (json.Array (json.String_ "99999999999999999999x"
                                                   :: tl Sample.obs_line)))))
     = 9223372036854775807
  /\ snd (strconv.Atoi "99999999999999999999x") = Some strconv.ErrRange.
Proof. repeat split; vm_compute; reflexivity. Qed.

(** C9, as the code has it.  An array of at least five elements whose second
    and third element parse as timestamps, and whose sixth, if there is one,
    parses as an int, is decoded without error whatever its first element is.
    The set id is what [Atoi] returns for the first element, its error
    dropped: the number read; 0 next to a syntax error; the largest or the
    smallest int next to a range error. *)
Theorem C9_UnmarshalJSON_any_setid (obs : Observation.t) (l : list json.value)
        (t1 t2 : time.Time) :
  (5 <= length l)%nat ->
  time_Parse (AsString (Observation.nth_iface (map json.decode l) 1)) = Ok t1 ->
  time_Parse (AsString (Observation.nth_iface (map json.decode l) 2)) = Ok t2 ->
  ((6 <= length l)%nat ->
   snd (strconv.Atoi (AsString (Observation.nth_iface (map json.decode l) 5)))
   = None) ->
  snd (Observation.UnmarshalJSON obs (json.Doc (json.Array l))) = None
  /\ Observation.SetID (fst (Observation.UnmarshalJSON obs (json.Doc (json.Array l))))
     = fst (strconv.Atoi (AsString (Observation.nth_iface (map json.decode l) 0)))
  /\ (snd (strconv.Atoi (AsString (Observation.nth_iface (map json.decode l) 0)))
      = Some strconv.ErrSyntax ->
      Observation.SetID
        (fst (Observation.UnmarshalJSON obs (json.Doc (json.Array l)))) = 0)
  /\ (snd (strconv.Atoi (AsString (Observation.nth_iface (map json.decode l) 0)))
      = Some strconv.ErrRange ->
      Observation.SetID
        (fst (Observation.UnmarshalJSON obs (json.Doc (json.Array l)))) = int_max
      \/ Observation.SetID
           (fst (Observation.UnmarshalJSON obs (json.Doc (json.Array l)))) = int_min)
  /\ Observation.Start (fst (Observation.UnmarshalJSON obs (json.Doc (json.Array l))))
     = t1
  /\ Observation.End_ (fst (Observation.UnmarshalJSON obs (json.Doc (json.Array l))))
     = t2.
Proof.
  intros Hlen H1 H2 H5.
  assert (Hres :
            snd (Observation.UnmarshalJSON obs (json.Doc (json.Array l))) = None
            /\ Observation.SetID
                 (fst (Observation.UnmarshalJSON obs (json.Doc (json.Array l))))
               = fst (strconv.Atoi
                        (AsString (Observation.nth_iface (map json.decode l) 0)))
            /\ Observation.Start
                 (fst (Observation.UnmarshalJSON obs (json.Doc (json.Array l)))) = t1
            /\ Observation.End_
                 (fst (Observation.UnmarshalJSON obs (json.Doc (json.Array l)))) = t2).
  { unfold Observation.UnmarshalJSON. cbn [json.Unmarshal_slice].
    rewrite length_map.
    destruct (length l <? 5)%nat eqn:Hlt; [apply Nat.ltb_lt in Hlt; lia|].
    rewrite H1, H2.
    destruct (6 <=? length l)%nat eqn:H6.
    - apply Nat.leb_le in H6. specialize (H5 H6).
      destruct (strconv.Atoi
                  (AsString (Observation.nth_iface (map json.decode l) 5)))
        as [v e].
      simpl in H5. subst e. simpl. auto.
    - simpl. auto. }
  destruct Hres as (Herr & Hid & Hs & He).
  split; [exact Herr|]. split; [exact Hid|]. rewrite Hid.
  split; [apply Atoi_syntax|]. split; [apply Atoi_range|]. auto.
Qed.

(** C9 on a line whose first element is the string "none". *)
Lemma C9_UnmarshalJSON_sample :
  snd (Observation.UnmarshalJSON
         Observation.zero
         (json.Doc (json.Array (json.String_ "none" :: tl Sample.obs_line)))) = None
  /\ Observation.SetID
       (fst (Observation.UnmarshalJSON
               Observation.zero
               (json.Doc (json.Array (json.String_ "none" :: tl Sample.obs_line)))))
     = 0.
Proof.
  destruct (C9_UnmarshalJSON_any_setid
              Observation.zero (json.String_ "none" :: tl Sample.obs_line)
              (time.mkTime 1235134834 0 0) (time.mkTime 1235135717 0 0))
    as (Herr & _ & Hid & _).
  - simpl. lia.
  - vm_compute. reflexivity.
  - vm_compute. reflexivity.
  - simpl. lia.
  - split; [exact Herr|]. apply Hid. vm_compute. reflexivity.
Defined.

(** *** Integers as text *)

Lemma maxUint64_eq : strconv.maxUint64 = 18446744073709551615.
Proof. reflexivity. Qed.

Lemma digit_char_spec (d : Z) :
  0 <= d < 10 ->
  strconv.is_digit (strconv.digit_char d) = true
  /\ strconv.digit_val (strconv.digit_char d) = d.
Proof.
  intros Hd.
  assert (Hcases : d = 0 \/ d = 1 \/ d = 2 \/ d = 3 \/ d = 4 \/ d = 5 \/ d = 6
                   \/ d = 7 \/ d = 8 \/ d = 9) by lia.
  repeat (destruct Hcases as [-> | Hcases]; [split; reflexivity|]).
  subst d. split; reflexivity.
Qed.

Lemma is_digit_val (c : ascii) :
  strconv.is_digit c = true -> 0 <= strconv.digit_val c <= 9.
Proof.
  unfold strconv.is_digit, strconv.digit_val. intros H.
  apply andb_true_iff in H. destruct H as [H1 H2].
  apply Nat.leb_le in H1. apply Nat.leb_le in H2. lia.
Qed.

(** Reading what [formatBits] wrote: the digits of [u] in front of [acc] are
    read back as [u]. *)
Lemma ParseUint_loop_formatBits (fuel : nat) :
  forall u acc,
    0 <= u <= strconv.maxUint64 -> u < 10 ^ Z.of_nat fuel ->
    strconv.ParseUint_loop 0 (strconv.formatBits fuel u acc)
    = strconv.ParseUint_loop u acc.
Proof.
  rewrite maxUint64_eq.
  induction fuel as [|fuel IH]; intros u acc Hu Hlt.
  - simpl in Hlt. assert (u = 0) by lia. subst u. reflexivity.
  - assert (Hmod : 0 <= u mod 10 < 10) by (apply Z.mod_pos_bound; lia).
    destruct (digit_char_spec (u mod 10) Hmod) as [Hd Hv].
    assert (Hdiv : u = 10 * (u / 10) + u mod 10) by (apply Z.div_mod; lia).
    assert (Hstep : forall n, n = u / 10 ->
              strconv.ParseUint_loop n
                (String (strconv.digit_char (u mod 10)) acc)
              = strconv.ParseUint_loop u acc).
    { intros n ->. cbn [strconv.ParseUint_loop]. rewrite Hd, Hv, maxUint64_eq.
      cbn [negb].
      replace (u / 10 * 10 + u mod 10) with u by lia.
      destruct (18446744073709551615 / 10 + 1 <=? u / 10) eqn:E1.
      { apply Z.leb_le in E1.
        change (18446744073709551615 / 10 + 1) with 1844674407370955162 in E1.
        lia. }
      destruct (18446744073709551615 <? u) eqn:E2;
        [apply Z.ltb_lt in E2; lia | reflexivity]. }
    cbn [strconv.formatBits]. cbv zeta.
    destruct (u / 10 =? 0) eqn:E.
    + apply Z.eqb_eq in E. apply Hstep. symmetry. exact E.
    + apply Z.eqb_neq in E. rewrite IH.
      * apply Hstep. reflexivity.
      * lia.
      * rewrite Nat2Z.inj_succ, Z.pow_succ_r in Hlt by lia.
        apply Z.div_lt_upper_bound; lia.
Qed.

Lemma formatBits_length_acc (fuel : nat) :
  forall u acc,
    (String.length acc <= String.length (strconv.formatBits fuel u acc))%nat.
Proof.
  induction fuel as [|fuel IH]; intros u acc; [simpl; lia|].
  cbn [strconv.formatBits]. cbv zeta.
  destruct (u / 10 =? 0); [simpl; lia|].
  etransitivity; [|apply IH]. simpl. lia.
Qed.

(** A number of at least [k+1] digits. *)
Lemma formatBits_length_ge (k : nat) :
  forall fuel u acc,
    (k < fuel)%nat -> 10 ^ Z.of_nat k <= u ->
    (k + 1 + String.length acc
     <= String.length (strconv.formatBits fuel u acc))%nat.
Proof.
  induction k as [|k IH]; intros fuel u acc Hf Hu;
    (destruct fuel as [|fuel]; [lia|]); cbn [strconv.formatBits]; cbv zeta.
  - destruct (u / 10 =? 0); [simpl; lia|].
    etransitivity; [|apply formatBits_length_acc]. simpl. lia.
  - rewrite Nat2Z.inj_succ, Z.pow_succ_r in Hu by lia.
    assert (Hk : 0 < 10 ^ Z.of_nat k) by (apply Z.pow_pos_nonneg; lia).
    assert (Hdiv : 10 ^ Z.of_nat k <= u / 10)
      by (apply Z.div_le_lower_bound; lia).
    destruct (u / 10 =? 0) eqn:E; [apply Z.eqb_eq in E; lia|].
    etransitivity; [|apply IH; [lia | exact Hdiv]]. simpl. lia.
Qed.

(** A number of at most [k] digits. *)
Lemma formatBits_length_le (k : nat) :
  forall fuel u acc,
    (1 <= k)%nat -> 0 <= u < 10 ^ Z.of_nat k ->
    (String.length (strconv.formatBits fuel u acc)
     <= k + String.length acc)%nat.
Proof.
  induction k as [|k IH]; intros fuel u acc Hk Hu; [lia|].
  destruct fuel as [|fuel]; [simpl; lia|].
  cbn [strconv.formatBits]. cbv zeta.
  destruct (u / 10 =? 0) eqn:E; [simpl; lia|].
  apply Z.eqb_neq in E.
  rewrite Nat2Z.inj_succ, Z.pow_succ_r in Hu by lia.
  destruct k as [|k].
  - simpl in Hu. assert (u / 10 = 0) by (apply Z.div_small; lia). lia.
  - etransitivity; [apply IH; [lia|]|simpl; lia].
    split; [apply Z.div_pos; lia | apply Z.div_lt_upper_bound; lia].
Qed.

Lemma formatBits_cons (fuel : nat) :
  forall u acc,
    (0 < fuel)%nat -> 0 <= u ->
    exists c r, strconv.formatBits fuel u acc = String c r
                /\ strconv.is_digit c = true.
Proof.
  induction fuel as [|fuel IH]; intros u acc Hf Hu; [lia|].
  assert (Hmod : 0 <= u mod 10 < 10) by (apply Z.mod_pos_bound; lia).
  destruct (digit_char_spec (u mod 10) Hmod) as [Hd _].
  cbn [strconv.formatBits]. cbv zeta.
  destruct (u / 10 =? 0) eqn:E; [eauto|].
  destruct fuel as [|fuel]; [simpl; eauto|].
  apply IH; [lia | apply Z.div_pos; lia].
Qed.

Lemma length_append (a b : string) :
  String.length (a ++ b) = (String.length a + String.length b)%nat.
Proof.
  induction a as [|x a IH]; [rewrite append_nil_l; reflexivity|].
  rewrite append_cons. simpl. rewrite IH. reflexivity.
Qed.

Lemma is_digit_not_sign (c : ascii) :
  strconv.is_digit c = true ->
  Ascii.eqb c "+" = false /\ Ascii.eqb c "-" = false.
Proof.
  intros H. split.
  - destruct (Ascii.eqb_spec c "+") as [->|]; [discriminate | reflexivity].
  - destruct (Ascii.eqb_spec c "-") as [->|]; [discriminate | reflexivity].
Qed.

Lemma ParseUint_formatBits (u : Z) :
  0 <= u <= 2 ^ 63 ->
  strconv.ParseUint (strconv.formatBits 20 u "") = (u, None).
Proof.
  intros Hu. change (2 ^ 63) with 9223372036854775808 in Hu.
  destruct (formatBits_cons 20 u "" ltac:(lia) ltac:(lia)) as (c & r & Hcr & _).
  unfold strconv.ParseUint. rewrite Hcr, <- Hcr.
  rewrite ParseUint_loop_formatBits; [reflexivity | rewrite maxUint64_eq; lia|].
  change (10 ^ Z.of_nat 20) with 100000000000000000000. lia.
Qed.

(** [Atoi] reads back what [Itoa] wrote for an int. *)
Lemma Atoi_Itoa (z : Z) :
  int_min <= z <= int_max -> strconv.Atoi (strconv.Itoa z) = (z, None).
Proof.
  unfold int_min, int_max. change (2 ^ 63) with 9223372036854775808.
  intros Hz. unfold strconv.Atoi, strconv.Itoa.
  destruct (z <? 0) eqn:Hneg.
  - apply Z.ltb_lt in Hneg. rewrite append_cons, append_nil_l.
    cbn [strconv.ParseInt]. change (Ascii.eqb "-" "+") with false.
    change (Ascii.eqb "-" "-") with true. cbv iota beta.
    rewrite ParseUint_formatBits
      by (change (2 ^ 63) with 9223372036854775808; lia).
    cbn [negb andb]. change (2 ^ 63) with 9223372036854775808.
    destruct (9223372036854775808 <? Z.abs z) eqn:E;
      [apply Z.ltb_lt in E; lia|].
    f_equal. lia.
  - apply Z.ltb_ge in Hneg. rewrite append_nil_l.
    destruct (formatBits_cons 20 (Z.abs z) "" ltac:(lia) ltac:(lia))
      as (c & r & Hcr & Hc).
    destruct (is_digit_not_sign c Hc) as [Hplus Hminus].
    rewrite Hcr. cbn [strconv.ParseInt]. rewrite Hplus, Hminus, <- Hcr.
    rewrite ParseUint_formatBits
      by (change (2 ^ 63) with 9223372036854775808; lia).
    cbn [negb andb]. change (2 ^ 63) with 9223372036854775808.
    destruct (9223372036854775808 <=? Z.abs z) eqn:E;
      [apply Z.leb_le in E; lia|].
    f_equal. lia.
Qed.

(** *** Integers as float64 text *)

Lemma zeros_repeat (k : nat) :
  string_of_list_ascii (repeat "0"%char k) = strconv.zeros k.
Proof. induction k as [|k IH]; simpl; [|rewrite IH]; reflexivity. Qed.

Lemma strip_trailing_zeros_rev_spec (r : list ascii) :
  exists k, r = (repeat "0"%char k ++ strconv.strip_trailing_zeros_rev r)%list.
Proof.
  induction r as [|c r IH]; [exists O; reflexivity|].
  simpl. destruct (Ascii.eqb_spec c "0") as [->|_].
  - destruct IH as [k Hk]. exists (S k). simpl. rewrite <- Hk. reflexivity.
  - exists O. reflexivity.
Qed.

(** Only zeros are taken off the end. *)
Lemma strip_trailing_zeros_spec (s : string) :
  exists k, s = strconv.strip_trailing_zeros s ++ strconv.zeros k.
Proof.
  unfold strconv.strip_trailing_zeros.
  destruct (strip_trailing_zeros_rev_spec (rev (list_ascii_of_string s)))
    as [k Hk].
  exists k. rewrite <- zeros_repeat, <- string_of_list_ascii_app.
  rewrite <- (rev_repeat k "0"%char), <- rev_app_distr, <- Hk, rev_involutive.
  symmetry. apply string_of_list_ascii_of_string.
Qed.

Lemma digits_from_beyond (n : nat) :
  forall d i,
    Z.of_nat (String.length d) <= i ->
    strconv.digits_from d i n = strconv.zeros n.
Proof.
  induction n as [|n IH]; intros d i Hi; [reflexivity|].
  simpl. rewrite IH by lia. unfold strconv.digit_at.
  destruct (i <? Z.of_nat (String.length d)) eqn:E;
    [apply Z.ltb_lt in E; lia|].
  rewrite andb_false_r. reflexivity.
Qed.

Lemma get_append_cons (p : string) (c : ascii) (q : string) :
  String.get (String.length p) (p ++ String c q) = Some c.
Proof.
  induction p as [|x p IH]; [rewrite append_nil_l; reflexivity|].
  rewrite append_cons. simpl. exact IH.
Qed.

Lemma digit_at_append (p : string) (c : ascii) (q : string) :
  strconv.digit_at (p ++ String c q) (Z.of_nat (String.length p)) = c.
Proof.
  unfold strconv.digit_at. rewrite length_append. simpl String.length.
  destruct (0 <=? Z.of_nat (String.length p)) eqn:E1;
    [|apply Z.leb_gt in E1; lia].
  destruct (Z.of_nat (String.length p)
            <? Z.of_nat (String.length p + S (String.length q))) eqn:E2;
    [|apply Z.ltb_ge in E2; lia].
  cbn [andb]. rewrite Nat2Z.id, get_append_cons. reflexivity.
Qed.

(** The digits from a position on, then zeros. *)
Lemma digits_from_append (q : string) :
  forall p k,
    strconv.digits_from (p ++ q) (Z.of_nat (String.length p))
                        (String.length q + k)
    = q ++ strconv.zeros k.
Proof.
  induction q as [|c q IH]; intros p k.
  - rewrite append_nil_l. apply digits_from_beyond.
    rewrite length_append. simpl. lia.
  - rewrite append_cons. simpl String.length. simpl strconv.digits_from.
    rewrite digit_at_append. f_equal.
    replace (p ++ String c q) with ((p ++ String c "") ++ q)
      by (rewrite append_assoc, append_cons, append_nil_l; reflexivity).
    replace (Z.of_nat (String.length p) + 1)
      with (Z.of_nat (String.length (p ++ String c "")))
      by (rewrite length_append; simpl; lia).
    apply IH.
Qed.

Lemma length_zeros (k : nat) : String.length (strconv.zeros k) = k.
Proof. induction k as [|k IH]; simpl; [|rewrite IH]; reflexivity. Qed.

(** The digits of the shortest form, padded to the length of the number,
    are the number. *)
Lemma digits_from_strip (s : string) :
  strconv.digits_from (strconv.strip_trailing_zeros s) 0 (String.length s) = s.
Proof.
  destruct (strip_trailing_zeros_spec s) as [k Hk].
  rewrite Hk at 2 3. rewrite length_append, length_zeros.
  rewrite <- (append_nil_l (strconv.strip_trailing_zeros s)) at 1.
  apply (digits_from_append (strconv.strip_trailing_zeros s) "" k).
Qed.

Lemma length_strip_le (s : string) :
  (String.length (strconv.strip_trailing_zeros s) <= String.length s)%nat.
Proof.
  destruct (strip_trailing_zeros_spec s) as [k Hk].
  rewrite Hk at 2. rewrite length_append. lia.
Qed.

Lemma Itoa_abs (z : Z) :
  strconv.Itoa (Z.abs z) = strconv.formatBits 20 (Z.abs z) "".
Proof.
  unfold strconv.Itoa.
  destruct (Z.abs z <? 0) eqn:E; [apply Z.ltb_lt in E; lia|].
  rewrite append_nil_l, Z.abs_eq by lia. reflexivity.
Qed.

(** Below a million in magnitude, [%v] prints the float64 of an int as the
    int. *)
Lemma FormatFloat_g_small (z : Z) :
  Z.abs z < 1000000 ->
  strconv.FormatFloat_g (strconv.float64_of_int z) = strconv.Itoa z.
Proof.
  intros Hz. unfold strconv.float64_of_int.
  destruct (z =? 0) eqn:E0; [apply Z.eqb_eq in E0; subst z; reflexivity|].
  apply Z.eqb_neq in E0. rewrite Itoa_abs.
  set (s := strconv.formatBits 20 (Z.abs z) "").
  assert (Hlo : (1 <= String.length s)%nat).
  { pose proof (formatBits_length_ge 0 20 (Z.abs z) "" ltac:(lia)) as H.
    change (10 ^ Z.of_nat 0) with 1 in H. change (String.length "") with O in H. unfold s. lia. }
  assert (Hhi : (String.length s <= 6)%nat).
  { pose proof (formatBits_length_le 6 20 (Z.abs z) "" ltac:(lia)) as H.
    change (10 ^ Z.of_nat 6) with 1000000 in H. change (String.length "") with O in H.
    unfold s. lia. }
  pose proof (length_strip_le s) as Hnd.
  unfold strconv.FormatFloat_g. cbn [strconv.dp strconv.digs].
  destruct (Z.of_nat (String.length s) - 1 <? -4) eqn:E1;
    [apply Z.ltb_lt in E1; lia|].
  destruct (6 <=? Z.of_nat (String.length s) - 1) eqn:E2;
    [apply Z.leb_le in E2; lia|].
  cbn [orb].
  replace (Z.to_nat (Z.max (Z.of_nat (String.length (strconv.strip_trailing_zeros s))
                            - Z.of_nat (String.length s)) 0)) with O by lia.
  unfold strconv.fmtF. cbn [strconv.dp strconv.digs strconv.neg].
  destruct (0 <? Z.of_nat (String.length s)) eqn:E3;
    [|apply Z.ltb_ge in E3; lia].
  rewrite Nat2Z.id, digits_from_strip.
  change (0 <? 0)%nat with false. cbv iota. rewrite append_nil_r.
  reflexivity.
Qed.

Lemma ParseUint_no_number (d c : ascii) (r : string) :
  strconv.is_digit c = false ->
  strconv.ParseUint (String d (String c r)) = (0, Some strconv.ErrSyntax).
Proof.
  intros Hc. cbn [strconv.ParseUint strconv.ParseUint_loop].
  destruct (strconv.is_digit d) eqn:Hd; [|reflexivity].
  apply is_digit_val in Hd. cbn [negb]. rewrite maxUint64_eq.
  change (18446744073709551615 / 10 + 1 <=? 0) with false. cbv iota.
  destruct (18446744073709551615 <? 0 * 10 + strconv.digit_val d) eqn:E;
    [apply Z.ltb_lt in E; lia|].
  rewrite Hc. reflexivity.
Qed.

(** A digit, or any byte, followed by a byte that is neither a digit nor a
    sign is no integer for [Atoi]. *)
Lemma Atoi_no_number (sign : bool) (d c : ascii) (r : string) :
  strconv.is_digit c = false ->
  strconv.Atoi ((if sign then "-" else "") ++ String d (String c r))
  = (0, Some strconv.ErrSyntax).
Proof.
  intros Hc. unfold strconv.Atoi. destruct sign; cbv iota.
  - rewrite append_cons, append_nil_l. cbn [strconv.ParseInt].
    change (Ascii.eqb "-" "+") with false. change (Ascii.eqb "-" "-") with true.
    cbv iota beta. rewrite (ParseUint_no_number d c r Hc). reflexivity.
  - rewrite append_nil_l. cbn [strconv.ParseInt].
    assert (Hone : strconv.ParseUint (String c r) = (0, Some strconv.ErrSyntax)).
    { cbn [strconv.ParseUint strconv.ParseUint_loop]. rewrite Hc. reflexivity. }
    destruct (Ascii.eqb d "+"); [cbv iota beta; rewrite Hone; reflexivity|].
    destruct (Ascii.eqb d "-"); cbv iota beta;
      [rewrite Hone | rewrite (ParseUint_no_number d c r Hc)]; reflexivity.
Qed.

(** The exponent form: a digit, then a point or the letter e. *)
Lemma fmtE_shape (f : strconv.float64) :
  exists d c r,
    strconv.fmtE f = (if strconv.neg f then "-" else "") ++ String d (String c r)
    /\ strconv.is_digit c = false.
Proof.
  unfold strconv.fmtE.
  destruct (1 <? String.length (strconv.digs f))%nat; cbv iota;
    rewrite !append_cons, !append_nil_l;
    eexists _, _, _; (split; [reflexivity|]); reflexivity.
Qed.

(** From a million on, [%v] prints the float64 of an int in the exponent
    form, which [Atoi] does not read. *)
Lemma Atoi_FormatFloat_g_large (z : Z) :
  1000000 <= Z.abs z ->
  strconv.Atoi (strconv.FormatFloat_g (strconv.float64_of_int z))
  = (0, Some strconv.ErrSyntax).
Proof.
  intros Hz. unfold strconv.float64_of_int.
  destruct (z =? 0) eqn:E0; [apply Z.eqb_eq in E0; lia|].
  rewrite Itoa_abs.
  set (s := strconv.formatBits 20 (Z.abs z) "").
  assert (Hlo : (7 <= String.length s)%nat).
  { pose proof (formatBits_length_ge 6 20 (Z.abs z) "" ltac:(lia)) as H.
    change (10 ^ Z.of_nat 6) with 1000000 in H. change (String.length "") with O in H.
    unfold s. lia. }
  unfold strconv.FormatFloat_g. cbn [strconv.dp strconv.digs].
  destruct (6 <=? Z.of_nat (String.length s) - 1) eqn:E2;
    [|apply Z.leb_gt in E2; lia].
  rewrite orb_true_r.
  destruct (fmtE_shape (strconv.mkFloat (z <? 0) (strconv.strip_trailing_zeros s)
                                        (Z.of_nat (String.length s))))
    as (d & c & r & -> & Hc).
  apply Atoi_no_number. exact Hc.
Qed.

(** An int written by the encoder and read back by the decoder: a float64
    that [AsString] prints and [Atoi] reads.  The int comes back below a
    million in magnitude, and not from there on. *)
Lemma int_on_the_wire (z : Z) :
  int_min <= z <= int_max ->
  strconv.Atoi (AsString (json.decode (json.encode (IInt z))))
  = if Z.abs z <? 1000000 then (z, None) else (0, Some strconv.ErrSyntax).
Proof.
  intros Hz. cbn [json.encode json.decode AsString fmt.Sprint].
  destruct (Z.abs z <? 1000000) eqn:E.
  - apply Z.ltb_lt in E. rewrite FormatFloat_g_small by exact E.
    apply Atoi_Itoa. exact Hz.
  - apply Z.ltb_ge in E. apply Atoi_FormatFloat_g_large. exact E.
Qed.

(** *** One observation *)

(** The round trip at one million, evaluated.  The observation of the package's
    test with the value 1000000 is encoded as the test line with a sixth
    element 1000000.  The decoder reads the number as a float64, prints it
    with [%v] as "1e+06" and hands that to [Atoi]: the decoding fails.  In the
    same way a set id of 1000000 comes back as 0.  With 999999 both come
    back. *)
Lemma roundtrip_at_one_million :
  Observation.MarshalJSON (Sample.obs 0 1000000)
  = Some (json.Doc (json.Array
                      (Sample.obs_line
                         ++ [json.Number (strconv.float64_of_int 1000000)])))
  /\ AsString (json.decode (json.Number (strconv.float64_of_int 1000000)))
     = "1e+06"
  /\ snd <$> Observation_roundtrip (Sample.obs 0 1000000)
     = Some (Some (OtherError "strconv.Atoi"))
  /\ (fun r => (Observation.SetID (fst r), snd r))
       <$> Observation_roundtrip (Sample.obs 1000000 0)
     = Some (0, None)
  /\ (fun r => (Observation.SetID (fst r), Observation.Value (fst r), snd r))
       <$> Observation_roundtrip (Sample.obs 999999 999999)
     = Some (999999, 999999, None).
Proof. repeat split; vm_compute; reflexivity. Qed.

(** ** Observation sets on the wire *)

Lemma map_fold_insert_lookup (base : gmap string iface) (m : gmap string string)
      (k : string) :
  map_fold (fun k v jmap => <[k := IString v]> jmap) base m !! k
  = match m !! k with
    | Some v => Some (IString v)
    | None => base !! k
    end.
Proof.
  apply (map_fold_weak_ind
           (fun r m => r !! k = match m !! k with
                                | Some v => Some (IString v)
                                | None => base !! k
                                end)).
  - rewrite lookup_empty. reflexivity.
  - intros i x m0 r Hi IH. destruct (decide (i = k)) as [->|Hne].
    + rewrite !lookup_insert_eq. reflexivity.
    + rewrite !lookup_insert_ne by exact Hne. exact IH.
Qed.

Lemma fold_left_insert_union {A B : Type} (g : A -> B) (l : list (string * A)) :
  forall acc : gmap string B,
    NoDup l.*1 ->
    fold_left (fun acc kv => <[fst kv := g (snd kv)]> acc) l acc
    = (g <$> (list_to_map l : gmap string A)) ∪ acc.
Proof.
  induction l as [|[k v] l IH]; intros acc Hnd.
  - simpl. rewrite fmap_empty, (left_id_L ∅ (∪)). reflexivity.
  - rewrite fmap_cons in Hnd. apply NoDup_cons in Hnd as [Hk Hnd].
    cbn [fst] in Hk. cbn [fold_left fst snd].
    rewrite (IH _ Hnd). rewrite list_to_map_cons.
    rewrite fmap_insert, <- insert_union_l.
    symmetry. apply insert_union_r. rewrite lookup_fmap.
    rewrite (not_elem_of_list_to_map_1 _ _ Hk). reflexivity.
Qed.

Lemma fold_left_insert_map {A B C : Type} (g : A -> B) (h : B -> C)
      (l : list (string * A)) (acc : gmap string C) :
  fold_left (fun acc kv => <[fst kv := h (snd kv)]> acc)
            (map (fun kv => (fst kv, g (snd kv))) l) acc
  = fold_left (fun acc kv => <[fst kv := h (g (snd kv))]> acc) l acc.
Proof.
  revert acc. induction l as [|kv l IH]; intros acc; [reflexivity|].
  cbn [map fold_left fst snd]. apply IH.
Qed.

(** The members of a map as the encoder orders them: those of the map. *)
Lemma sorted_members {A : Type} (m : gmap string A) :
  NoDup (merge_sort key_le (map_to_list m)).*1
  /\ (list_to_map (merge_sort key_le (map_to_list m)) : gmap string A) = m.
Proof.
  pose proof (merge_sort_Permutation key_le (map_to_list m)) as Hperm.
  assert (Hnd : NoDup (merge_sort key_le (map_to_list m)).*1).
  { rewrite Hperm. apply NoDup_fst_map_to_list. }
  split; [exact Hnd|].
  rewrite (list_to_map_proper _ _ Hnd Hperm). apply list_to_map_to_list.
Qed.

Lemma map_coerce_keys {A B : Type} (g : A -> B) (l : list (string * A)) :
  Forall (fun kv => utf8.ValidString (fst kv) = true) l ->
  map (fun kv => (json.coerce (fst kv), g (snd kv))) l
  = map (fun kv => (fst kv, g (snd kv))) l.
Proof.
  induction 1 as [|[k v] l Hk _ IH]; [reflexivity|].
  cbn [map fst snd]. rewrite IH, (coerce_valid k Hk). reflexivity.
Qed.

(** Decoding an encoded map whose keys are valid UTF-8 gives the map of the
    decoded values. *)
Lemma Unmarshal_map_Marshal_map (jmap : gmap string iface) :
  (forall k v, jmap !! k = Some v -> utf8.ValidString k = true) ->
  json.Unmarshal_map (json.Marshal_map jmap)
  = Some (json.decode <$> (json.encode <$> jmap)).
Proof.
  intros Hkeys.
  destruct (sorted_members jmap) as [Hnd Hmap].
  unfold json.Unmarshal_map, json.Marshal_map. f_equal.
  rewrite (map_coerce_keys json.encode).
  2:{ apply Forall_forall. intros [k v] Hin. cbn [fst].
      apply (Hkeys k v). rewrite <- Hmap.
      apply elem_of_list_to_map_1; assumption. }
  rewrite fold_left_insert_map.
  rewrite (fold_left_insert_union (fun v => json.decode (json.encode v)) _ ∅ Hnd).
  rewrite Hmap, (right_id_L ∅ (∪)). rewrite <- map_fmap_compose. reflexivity.
Qed.

Lemma extension_key_spec (k : string) :
  extension_key k = true ->
  String.eqb k "_sources" = false /\ String.eqb k "_analyzer" = false
  /\ strings.HasPrefix k "__" = false.
Proof.
  unfold extension_key. intros H.
  apply andb_true_iff in H as [H H3]. apply andb_true_iff in H as [H1 H2].
  apply negb_true_iff in H1, H2, H3. auto.
Qed.

(** The loop of [ObservationSet.UnmarshalJSON] over members with distinct
    keys, in whatever order: the sources and the analyzer are read from
    their keys, every extension key is stored, nothing else is. *)
Lemma ObservationSet_members_spec (l : list (string * iface)) :
  forall set : ObservationSet.t,
    NoDup l.*1 ->
    (forall v, (list_to_map l : gmap string iface) !! "_sources" = Some v ->
               snd (AsStringArray v) = true) ->
    exists set',
      ObservationSet.UnmarshalJSON_members set l = (set', None)
      /\ ObservationSet.ID set' = ObservationSet.ID set
      /\ ObservationSet.Sources set'
         = match (list_to_map l : gmap string iface) !! "_sources" with
           | Some v => fst (AsStringArray v)
           | None => ObservationSet.Sources set
           end
      /\ ObservationSet.Analyzer set'
         = match (list_to_map l : gmap string iface) !! "_analyzer" with
           | Some v => AsString v
           | None => ObservationSet.Analyzer set
           end
      /\ forall k,
          ObservationSet.Metadata set' !! k
          = if extension_key k then
              match (list_to_map l : gmap string iface) !! k with
              | Some v => Some (AsString v)
              | None => ObservationSet.Metadata set !! k
              end
            else ObservationSet.Metadata set !! k.
Proof.
  induction l as [|[k v] l IH]; intros set Hnd Hsrc.
  - exists set. simpl. repeat split; try reflexivity.
    intros k. rewrite lookup_empty. destruct (extension_key k); reflexivity.
  - rewrite fmap_cons in Hnd. apply NoDup_cons in Hnd as [Hk Hnd].
    cbn [fst] in Hk.
    pose proof (not_elem_of_list_to_map_1 (M := gmap string) _ _ Hk) as Hnone.
    rewrite list_to_map_cons in Hsrc |- *.
    cbn [ObservationSet.UnmarshalJSON_members].
    unfold ObservationSet.UnmarshalJSON_member.
    destruct (String.eqb_spec k "_sources") as [->|Hk1].
    + (* the sources *)
      pose proof (Hsrc v (lookup_insert_eq _ _ _)) as Hok.
      destruct (AsStringArray v) as [sources ok] eqn:Hv. simpl in Hok. subst ok.
      destruct (IH (ObservationSet.mk (ObservationSet.ID set) sources
                                      (ObservationSet.Analyzer set)
                                      (ObservationSet.Metadata set)
                                      (ObservationSet.datalink set)
                                      (ObservationSet.link set)
                                      (ObservationSet.count set)) Hnd)
        as (set' & Hrun & Hid & Hs & Ha & Hm).
      { intros v' Hv'. rewrite Hnone in Hv'. discriminate. }
      exists set'. rewrite Hrun. split; [reflexivity|]. split; [exact Hid|].
      rewrite lookup_insert_eq, Hs, Hnone, Hv. split; [reflexivity|].
      rewrite lookup_insert_ne by discriminate. split; [exact Ha|].
      intros k. rewrite Hm. simpl.
      destruct (extension_key k) eqn:Hext; [|reflexivity].
      rewrite lookup_insert_ne; [reflexivity|].
      intros <-. discriminate Hext.
    + destruct (String.eqb_spec k "_analyzer") as [->|Hk2].
      * (* the analyzer *)
        destruct (IH (ObservationSet.mk (ObservationSet.ID set)
                                        (ObservationSet.Sources set) (AsString v)
                                        (ObservationSet.Metadata set)
                                        (ObservationSet.datalink set)
                                        (ObservationSet.link set)
                                        (ObservationSet.count set)) Hnd)
          as (set' & Hrun & Hid & Hs & Ha & Hm).
        { intros v' Hv'. apply Hsrc. rewrite lookup_insert_ne by discriminate.
          exact Hv'. }
        exists set'. rewrite Hrun. split; [reflexivity|]. split; [exact Hid|].
        rewrite lookup_insert_ne by discriminate. split; [exact Hs|].
        rewrite lookup_insert_eq, Ha, Hnone. split; [reflexivity|].
        intros k. rewrite Hm. simpl.
        destruct (extension_key k) eqn:Hext; [|reflexivity].
        rewrite lookup_insert_ne; [reflexivity|].
        intros <-. discriminate Hext.
      * assert (Hsrc' : forall v', (list_to_map l : gmap string iface) !! "_sources"
                                   = Some v' -> snd (AsStringArray v') = true).
        { intros v' Hv'. apply Hsrc. rewrite lookup_insert_ne by exact Hk1.
          exact Hv'. }
        rewrite !lookup_insert_ne by assumption.
        destruct (strings.HasPrefix k "__") eqn:Hpre.
        -- (* a derived key: dropped *)
           destruct (IH set Hnd Hsrc') as (set' & Hrun & Hid & Hs & Ha & Hm).
           exists set'. rewrite Hrun. split; [reflexivity|]. split; [exact Hid|].
           split; [exact Hs|]. split; [exact Ha|].
           intros k0. rewrite Hm.
           destruct (extension_key k0) eqn:Hext; [|reflexivity].
           rewrite lookup_insert_ne; [reflexivity|].
           intros <-. apply extension_key_spec in Hext as (_ & _ & Hp). congruence.
        -- (* an extension key: stored *)
           destruct (IH (ObservationSet.mk
                           (ObservationSet.ID set) (ObservationSet.Sources set)
                           (ObservationSet.Analyzer set)
                           (<[k := AsString v]> (ObservationSet.Metadata set))
                           (ObservationSet.datalink set) (ObservationSet.link set)
                           (ObservationSet.count set)) Hnd Hsrc')
             as (set' & Hrun & Hid & Hs & Ha & Hm).
           exists set'. rewrite Hrun. split; [reflexivity|]. split; [exact Hid|].
           split; [exact Hs|]. split; [exact Ha|].
           intros k0. rewrite Hm. simpl.
           destruct (decide (k = k0)) as [<-|Hne].
           ++ rewrite Hnone, !lookup_insert_eq.
              destruct (extension_key k) eqn:Hext; [reflexivity|].
              exfalso. unfold extension_key in Hext.
              apply String.eqb_neq in Hk1, Hk2.
              rewrite Hk1, Hk2, Hpre in Hext. discriminate Hext.
           ++ rewrite !lookup_insert_ne by exact Hne. reflexivity.
Qed.

(** The map that [MarshalJSON] encodes, key by key. *)
Lemma MarshalJSON_jmap_lookup (set : ObservationSet.t) :
  (forall k v, ObservationSet.Metadata set !! k = Some v ->
               ObservationSet.MarshalJSON_jmap set !! k = Some (IString v))
  /\ (ObservationSet.Metadata set !! "_sources" = None ->
      ObservationSet.MarshalJSON_jmap set !! "_sources"
      = Some (IStrings (ObservationSet.Sources set)))
  /\ (ObservationSet.Metadata set !! "_analyzer" = None ->
      ObservationSet.MarshalJSON_jmap set !! "_analyzer"
      = Some (IString (ObservationSet.Analyzer set)))
  /\ (forall k, extension_key k = true ->
                ObservationSet.Metadata set !! k = None ->
                ObservationSet.MarshalJSON_jmap set !! k = None).
Proof.
  unfold ObservationSet.MarshalJSON_jmap. cbv zeta.
  repeat split.
  - intros k v H. rewrite map_fold_insert_lookup, H. reflexivity.
  - intros H. rewrite map_fold_insert_lookup, H.
    destruct (decide (ObservationSet.link set = ""));
      destruct (decide (ObservationSet.datalink set = ""));
      destruct (decide (ObservationSet.count set = 0));
      rewrite ?lookup_insert_ne by discriminate; apply lookup_insert_eq.
  - intros H. rewrite map_fold_insert_lookup, H.
    destruct (decide (ObservationSet.link set = ""));
      destruct (decide (ObservationSet.datalink set = ""));
      destruct (decide (ObservationSet.count set = 0));
      rewrite ?lookup_insert_ne by discriminate; apply lookup_insert_eq.
  - intros k Hext H. rewrite map_fold_insert_lookup, H.
    destruct (extension_key_spec k Hext) as (H1 & H2 & H3).
    apply String.eqb_neq in H1, H2.
    assert (H4 : k <> "__link") by (intros ->; discriminate H3).
    assert (H5 : k <> "__data") by (intros ->; discriminate H3).
    assert (H6 : k <> "__obs_count") by (intros ->; discriminate H3).
    destruct (decide (ObservationSet.link set = ""));
      destruct (decide (ObservationSet.datalink set = ""));
      destruct (decide (ObservationSet.count set = 0));
      rewrite ?lookup_insert_ne by congruence; apply lookup_empty.
Qed.

Lemma map_AsString_IString (l : list string) :
  map AsString (map json.decode (map json.String_ l)) = l.
Proof.
  induction l as [|x l IH]; [reflexivity|]. simpl. rewrite IH. reflexivity.
Qed.

(** The keys of the map that [MarshalJSON] encodes: the five of the code
    and those of the metadata. *)
Lemma MarshalJSON_jmap_keys (set : ObservationSet.t) (k : string) (v : iface) :
  ObservationSet.MarshalJSON_jmap set !! k = Some v ->
  k ∈ ["_sources"; "_analyzer"; "__link"; "__data"; "__obs_count"]
  \/ is_Some (ObservationSet.Metadata set !! k).
Proof.
  unfold ObservationSet.MarshalJSON_jmap. cbv zeta.
  rewrite map_fold_insert_lookup.
  destruct (ObservationSet.Metadata set !! k) as [w|]; [right; eauto|].
  intros H. left. revert H.
  destruct (decide (ObservationSet.link set = ""));
    destruct (decide (ObservationSet.datalink set = ""));
    destruct (decide (ObservationSet.count set = 0));
    repeat (rewrite lookup_insert_Some; intros [[<- _]|[_ H]];
            [set_solver | revert H]);
    rewrite lookup_empty; discriminate.
Qed.

(** The round trip of an observation set.  A set with sources, an analyzer and
    extension keys only in its metadata, all of them valid UTF-8, encoded and
    decoded into a fresh set: no error, and the sources, the analyzer and the
    whole metadata map come back; the id is 0. *)
Lemma ObservationSet_roundtrip_ok (set : ObservationSet.t) (srcs : list string) :
  ObservationSet.Sources set = Some srcs ->
  ObservationSet.Analyzer set <> "" ->
  (forall k v, ObservationSet.Metadata set !! k = Some v ->
               extension_key k = true) ->
  Forall (fun s => utf8.ValidString s = true) srcs ->
  utf8.ValidString (ObservationSet.Analyzer set) = true ->
  (forall k v, ObservationSet.Metadata set !! k = Some v ->
               utf8.ValidString k = true /\ utf8.ValidString v = true) ->
  snd (ObservationSet_roundtrip set) = None
  /\ ObservationSet.Sources (fst (ObservationSet_roundtrip set)) = Some srcs
  /\ ObservationSet.Analyzer (fst (ObservationSet_roundtrip set))
     = ObservationSet.Analyzer set
  /\ ObservationSet.Metadata (fst (ObservationSet_roundtrip set))
     = ObservationSet.Metadata set
  /\ ObservationSet.ID (fst (ObservationSet_roundtrip set)) = 0.
Proof.
  intros Hsrcs Han Hkeys Vsrcs Van Vmeta.
  destruct (MarshalJSON_jmap_lookup set) as (Hmeta & Hs & Ha & Hnone).
  assert (Hnot : forall k, extension_key k = false ->
                           ObservationSet.Metadata set !! k = None).
  { intros k Hk. destruct (ObservationSet.Metadata set !! k) as [v|] eqn:E;
      [|reflexivity]. rewrite (Hkeys k v E) in Hk. discriminate Hk. }
  specialize (Hs (Hnot "_sources" eq_refl)).
  specialize (Ha (Hnot "_analyzer" eq_refl)).
  unfold ObservationSet_roundtrip, ObservationSet.UnmarshalJSON,
    ObservationSet.MarshalJSON.
  rewrite Unmarshal_map_Marshal_map.
  2:{ intros k v Hk. destruct (MarshalJSON_jmap_keys set k v Hk) as [Hin|[w Hw]].
      - repeat (apply elem_of_cons in Hin as [->|Hin]; [reflexivity|]).
        inversion Hin.
      - apply (Vmeta k w Hw). }
  cbv zeta.
  set (jm := json.decode <$> (json.encode <$> ObservationSet.MarshalJSON_jmap set)).
  assert (Hjs : jm !! "_sources"
                = Some (ISlice (map json.decode (map json.String_ srcs)))).
  { unfold jm. rewrite !lookup_fmap, Hs, Hsrcs. cbn [fmap option_fmap option_map
      json.encode json.decode]. rewrite (map_coerce_valid srcs Vsrcs). reflexivity. }
  assert (Hja : jm !! "_analyzer" = Some (IString (ObservationSet.Analyzer set))).
  { unfold jm. rewrite !lookup_fmap, Ha. cbn [fmap option_fmap option_map
      json.encode json.decode]. rewrite (coerce_valid _ Van). reflexivity. }
  cbn [ObservationSet.Sources ObservationSet.Analyzer ObservationSet.datalink
       ObservationSet.link ObservationSet.count ObservationSet.Metadata
       ObservationSet.ID ObservationSet.zero].
  destruct (ObservationSet_members_spec
              (map_to_list jm) (ObservationSet.mk 0 None "" ∅ "" "" 0))
    as (set' & Hrun & Hid & Hsrc' & Han' & Hm').
  { apply NoDup_fst_map_to_list. }
  { rewrite list_to_map_to_list, Hjs. intros v H. injection H as <-. reflexivity. }
  rewrite list_to_map_to_list in Hsrc', Han', Hm'.
  rewrite Hjs in Hsrc'. rewrite Hja in Han'.
  cbn [AsStringArray fst AsString] in Hsrc', Han'.
  rewrite map_AsString_IString in Hsrc'.
  rewrite Hrun, Hsrc'.
  destruct (decide (ObservationSet.Analyzer set' = "")) as [E|_];
    [rewrite Han' in E; contradiction|].
  cbn [fst snd]. repeat split; try assumption.
  apply map_eq. intros k. rewrite Hm'. cbn [ObservationSet.Metadata].
  rewrite lookup_empty.
  destruct (extension_key k) eqn:Hext; [|symmetry; apply Hnot, Hext].
  unfold jm. rewrite !lookup_fmap.
  destruct (ObservationSet.Metadata set !! k) as [v|] eqn:E.
  - rewrite (Hmeta k v E). cbn [fmap option_fmap option_map json.encode
      json.decode AsString]. rewrite (coerce_valid v (proj2 (Vmeta k v E))).
    reflexivity.
  - rewrite (Hnone k Hext E). reflexivity.
Qed.

#[local] Arguments strconv.Atoi : simpl never.
#[local] Arguments strconv.FormatFloat_g : simpl never.
#[local] Arguments strconv.float64_of_int : simpl never.
#[local] Arguments time_Parse : simpl never.
#[local] Arguments time.Format_RFC3339 : simpl never.
#[local] Arguments time.UTC : simpl never.

(** ** Instants and their text *)

Lemma era_year (doe : Z) :
  0 <= doe < 146097 ->
  let yoe := (doe - doe / 1460 + doe / 36524 - doe / 146096) / 365 in
  let doy := doe - (365 * yoe + yoe / 4 - yoe / 100) in
  0 <= yoe <= 399 /\ 0 <= doy <= 365.
Proof.
  intros H. cbv zeta.
  Z.div_mod_to_equations. lia.
Qed.

Lemma civil_from_days_inv (z : Z) :
  let '(y, m, d) := time.civil_from_days z in
  time.days_from_civil y m d = z /\ 1 <= m <= 12 /\ 1 <= d <= 31.
Proof.
  unfold time.civil_from_days. cbv zeta.
  set (z' := z + 719468).
  set (era := z' / 146097).
  set (doe := z' mod 146097).
  set (yoe := (doe - doe / 1460 + doe / 36524 - doe / 146096) / 365).
  set (doy := doe - (365 * yoe + yoe / 4 - yoe / 100)).
  set (mp := (5 * doy + 2) / 153).
  assert (Hdoe : 0 <= doe < 146097) by (apply Z.mod_pos_bound; lia).
  assert (Hz : z' = 146097 * era + doe) by (apply Z.div_mod; lia).
  destruct (era_year doe Hdoe) as [Hyoe Hdoy]. fold yoe in Hyoe, Hdoy. fold doy in Hdoy.
  assert (Hmp : 0 <= mp <= 11) by (unfold mp; Z.div_mod_to_equations; lia).
  unfold time.days_from_civil. cbv zeta.
  destruct (mp <? 10) eqn:E; [apply Z.ltb_lt in E | apply Z.ltb_ge in E].
  - destruct (mp + 3 <=? 2) eqn:E2; [apply Z.leb_le in E2; lia|].
    destruct (2 <? mp + 3) eqn:E3; [|apply Z.ltb_ge in E3; lia].
    replace (mp + 3 - 3) with mp by lia.
    replace ((yoe + era * 400) / 400) with era by (Z.div_mod_to_equations; lia).
    replace ((yoe + era * 400) mod 400) with yoe by (Z.div_mod_to_equations; lia).
    fold doy. split; [unfold doy, z' in *; lia|].
    split; [lia|]. unfold mp. Z.div_mod_to_equations. lia.
  - destruct (mp - 9 <=? 2) eqn:E2; [|apply Z.leb_gt in E2; lia].
    destruct (2 <? mp - 9) eqn:E3; [apply Z.ltb_lt in E3; lia|].
    replace (mp - 9 + 9) with mp by lia.
    replace (yoe + era * 400 + 1 - 1) with (yoe + era * 400) by lia.
    replace ((yoe + era * 400) / 400) with era by (Z.div_mod_to_equations; lia).
    replace ((yoe + era * 400) mod 400) with yoe by (Z.div_mod_to_equations; lia).
    fold doy. split; [unfold doy, z' in *; lia|].
    split; [lia|]. unfold mp. Z.div_mod_to_equations. lia.
Qed.

Lemma era_feb (doe : Z) :
  0 <= doe < 146097 ->
  let yoe := (doe - doe / 1460 + doe / 36524 - doe / 146096) / 365 in
  let doy := doe - (365 * yoe + yoe / 4 - yoe / 100) in
  doy = 365 ->
  (yoe + 1) mod 4 = 0 /\ ((yoe + 1) mod 100 <> 0 \/ (yoe + 1) mod 400 = 0).
Proof.
  intros H. cbv zeta. Z.div_mod_to_equations. lia.
Qed.

Lemma isLeap_era (y era : Z) : time.isLeap (y + era * 400) = time.isLeap y.
Proof.
  unfold time.isLeap.
  replace ((y + era * 400) mod 4) with (y mod 4)
    by (Z.div_mod_to_equations; lia).
  replace ((y + era * 400) mod 100) with (y mod 100)
    by (Z.div_mod_to_equations; lia).
  replace ((y + era * 400) mod 400) with (y mod 400)
    by (Z.div_mod_to_equations; lia).
  reflexivity.
Qed.

Lemma civil_from_days_day (z : Z) :
  let '(y, m, d) := time.civil_from_days z in d <= time.daysIn m y.
Proof.
  unfold time.civil_from_days. cbv zeta.
  set (z' := z + 719468).
  set (era := z' / 146097).
  set (doe := z' mod 146097).
  set (yoe := (doe - doe / 1460 + doe / 36524 - doe / 146096) / 365).
  set (doy := doe - (365 * yoe + yoe / 4 - yoe / 100)).
  set (mp := (5 * doy + 2) / 153).
  assert (Hdoe : 0 <= doe < 146097) by (apply Z.mod_pos_bound; lia).
  destruct (era_year doe Hdoe) as [Hyoe Hdoy]. fold yoe in Hyoe, Hdoy.
  fold doy in Hdoy.
  pose proof (era_feb doe Hdoe) as Hfeb. cbv zeta in Hfeb.
  fold yoe in Hfeb. fold doy in Hfeb.
  assert (Hmp : 0 <= mp <= 11) by (unfold mp; Z.div_mod_to_equations; lia).
  assert (Hmonth : mp = 0 \/ mp = 1 \/ mp = 2 \/ mp = 3 \/ mp = 4 \/ mp = 5
                   \/ mp = 6 \/ mp = 7 \/ mp = 8 \/ mp = 9 \/ mp = 10 \/ mp = 11)
    by lia.
  assert (Hd : forall k, mp = k -> 153 * k <= 5 * doy + 2 < 153 * k + 153).
  { intros k Hk. unfold mp in Hk. Z.div_mod_to_equations. lia. }
  repeat (destruct Hmonth as [Hm | Hmonth];
          [specialize (Hd _ Hm); rewrite Hm; unfold time.daysIn; simpl;
           Z.div_mod_to_equations; lia|]).
  specialize (Hd _ Hmonth). rewrite Hmonth. unfold time.daysIn.
  change (11 <? 10) with false. cbv iota.
  change (11 - 9 <=? 2) with true. change (11 - 9 =? 2) with true. cbv iota.
  replace (yoe + era * 400 + 1) with (yoe + 1 + era * 400) by lia.
  rewrite isLeap_era. unfold time.isLeap.
  change ((153 * 11 + 2) / 5) with 337.
  destruct (Z.eq_dec doy 365) as [E|E].
  - destruct (Hfeb E) as [H4 H100]. rewrite H4. simpl.
    destruct H100 as [H100|H400].
    + destruct ((yoe + 1) mod 100 =? 0) eqn:E1;
        [apply Z.eqb_eq in E1; contradiction|]. simpl. lia.
    + rewrite H400. rewrite orb_true_r. lia.
  - destruct (((yoe + 1) mod 4 =? 0)
              && (negb ((yoe + 1) mod 100 =? 0) || ((yoe + 1) mod 400 =? 0)));
      lia.
Qed.

Lemma digits_zeros (j : nat) :
  forall n t, time.digits (j + n) 0 (strconv.zeros j ++ t) = time.digits n 0 t.
Proof.
  induction j as [|j IH]; intros n t; [rewrite append_nil_l; reflexivity|].
  cbn [strconv.zeros]. rewrite append_cons. cbn [Nat.add time.digits].
  change (strconv.is_digit "0") with true. cbv iota.
  change (0 * 10 + strconv.digit_val "0") with 0. apply IH.
Qed.

(** Reading with [digits] what [formatBits] wrote. *)
Lemma digits_formatBits (fuel : nat) :
  forall u s,
    0 <= u < 10 ^ Z.of_nat fuel ->
    exists D,
      strconv.formatBits fuel u s = D ++ s
      /\ forall n a t,
          time.digits (String.length D + n) a (D ++ t)
          = time.digits n (a * 10 ^ Z.of_nat (String.length D) + u) t.
Proof.
  induction fuel as [|fuel IH]; intros u s Hu.
  - exists "". split; [rewrite append_nil_l; reflexivity|].
    intros n a t. rewrite append_nil_l. simpl in Hu. simpl.
    f_equal. lia.
  - assert (Hmod : 0 <= u mod 10 < 10) by (apply Z.mod_pos_bound; lia).
    destruct (digit_char_spec (u mod 10) Hmod) as [Hd Hv].
    assert (Hdiv : u = 10 * (u / 10) + u mod 10) by (apply Z.div_mod; lia).
    cbn [strconv.formatBits]. cbv zeta.
    destruct (u / 10 =? 0) eqn:E.
    + apply Z.eqb_eq in E.
      exists (String (strconv.digit_char (u mod 10)) "").
      split; [rewrite append_cons, append_nil_l; reflexivity|].
      intros n a t. rewrite append_cons, append_nil_l.
      cbn [String.length Nat.add time.digits]. rewrite Hd, Hv.
      f_equal. change (10 ^ Z.of_nat 1) with 10. lia.
    + rewrite Nat2Z.inj_succ, Z.pow_succ_r in Hu by lia.
      destruct (IH (u / 10) (String (strconv.digit_char (u mod 10)) s))
        as (D & HD & Hread).
      { split; [apply Z.div_pos; lia | apply Z.div_lt_upper_bound; lia]. }
      exists (D ++ String (strconv.digit_char (u mod 10)) "").
      split.
      { rewrite HD, append_assoc, append_cons, append_nil_l. reflexivity. }
      intros n a t.
      rewrite append_assoc, append_cons, append_nil_l, length_append.
      cbn [String.length].
      replace (String.length D + 1 + n)%nat
        with (String.length D + S n)%nat by lia.
      rewrite Hread. cbn [time.digits]. rewrite Hd, Hv. f_equal.
      rewrite Nat2Z.inj_add. change (Z.of_nat 1) with 1.
      rewrite Z.pow_add_r by lia. lia.
Qed.

(** [appendInt] of a number that fits the width is read back by
    [digits]. *)
Lemma digits_appendInt (x : Z) (w : nat) (rest : string) :
  (1 <= w <= 20)%nat -> 0 <= x < 10 ^ Z.of_nat w ->
  time.digits w 0 (time.appendInt x w ++ rest) = Some (x, rest).
Proof.
  intros Hw Hx. unfold time.appendInt.
  destruct (x <? 0) eqn:E; [apply Z.ltb_lt in E; lia|].
  rewrite append_nil_l, Itoa_abs, (Z.abs_eq x) by lia.
  assert (H20 : 10 ^ Z.of_nat w <= 10 ^ Z.of_nat 20)
    by (apply Z.pow_le_mono_r; lia).
  destruct (digits_formatBits 20 x "" ltac:(lia)) as (D & HD & Hread).
  pose proof (formatBits_length_le w 20 x "" ltac:(lia) Hx) as Hlen.
  rewrite HD in *. rewrite append_nil_r in *.
  change (String.length "") with O in Hlen.
  rewrite append_assoc.
  replace w with ((w - String.length D) + (String.length D + 0))%nat at 1
    by lia.
  rewrite digits_zeros, Hread. reflexivity.
Qed.

Lemma lit_append (c : ascii) (rest : string) :
  time.lit c (String c "" ++ rest) = Some rest.
Proof.
  rewrite append_cons, append_nil_l. cbn [time.lit].
  rewrite Ascii.eqb_refl. reflexivity.
Qed.

Lemma civil_from_days_year (z : Z) :
  -719528 <= z <= 2932896 ->
  let '(y, m, d) := time.civil_from_days z in 0 <= y <= 9999.
Proof.
  intros Hz. unfold time.civil_from_days. cbv zeta.
  set (z' := z + 719468).
  set (era := z' / 146097).
  set (doe := z' mod 146097).
  set (yoe := (doe - doe / 1460 + doe / 36524 - doe / 146096) / 365).
  set (doy := doe - (365 * yoe + yoe / 4 - yoe / 100)).
  set (mp := (5 * doy + 2) / 153).
  assert (Hdoe : 0 <= doe < 146097) by (apply Z.mod_pos_bound; lia).
  assert (Hz' : z' = 146097 * era + doe) by (apply Z.div_mod; lia).
  destruct (era_year doe Hdoe) as [Hyoe Hdoy]. fold yoe in Hyoe, Hdoy.
  fold doy in Hdoy.
  assert (Hera : -1 <= era <= 24) by (unfold z' in *; lia).
  assert (Hmp : 0 <= mp <= 11) by (unfold mp; Z.div_mod_to_equations; lia).
  assert (Hlow : era = -1 -> yoe = 399 /\ 10 <= mp).
  { intros He. assert (146037 <= doe) by (unfold z' in *; lia).
    unfold mp, doy, yoe in *. Z.div_mod_to_equations. lia. }
  assert (Hhigh : era = 24 -> yoe < 399 \/ mp < 10).
  { intros He. assert (doe <= 146036) by (unfold z' in *; lia).
    unfold mp, doy, yoe in *. Z.div_mod_to_equations. lia. }
  destruct (mp <? 10) eqn:E; [apply Z.ltb_lt in E | apply Z.ltb_ge in E].
  - destruct (mp + 3 <=? 2) eqn:E2; [apply Z.leb_le in E2; lia|]. lia.
  - destruct (mp - 9 <=? 2) eqn:E2; [|apply Z.leb_gt in E2; lia]. lia.
Qed.

(** The zone of the layout, as [Format] writes it, read back. *)
Lemma zone_format (off : Z) :
  off mod 60 = 0 -> Z.abs off < 86400 ->
  let z := Z.abs off / 60 in
  let text :=
    if off =? 0 then "Z"
    else (if off <? 0 then "-" else "+")
           ++ time.appendInt (z / 60) 2 ++ ":" ++ time.appendInt (z mod 60) 2 in
  time.fraction text = (0, text) /\ time.zone text = Some (off, "").
Proof.
  intros Hmod Habs. cbv zeta.
  destruct (off =? 0) eqn:E0.
  { apply Z.eqb_eq in E0. subst off. split; reflexivity. }
  apply Z.eqb_neq in E0.
  set (z := Z.abs off / 60).
  assert (Hz : Z.abs off = 60 * z).
  { unfold z. Z.div_mod_to_equations. lia. }
  assert (Hhh : 0 <= z / 60 < 10 ^ Z.of_nat 2).
  { change (10 ^ Z.of_nat 2) with 100. Z.div_mod_to_equations. lia. }
  assert (Hmm : 0 <= z mod 60 < 10 ^ Z.of_nat 2).
  { change (10 ^ Z.of_nat 2) with 100. Z.div_mod_to_equations. lia. }
  assert (Hval : (z / 60 * 60 + z mod 60) * 60 = Z.abs off).
  { Z.div_mod_to_equations. lia. }
  rewrite <- (append_nil_r (time.appendInt (z mod 60) 2)).
  destruct (off <? 0) eqn:E; [apply Z.ltb_lt in E | apply Z.ltb_ge in E];
    rewrite append_cons, append_nil_l; (split; [reflexivity|]);
    cbn [time.zone];
    rewrite digits_appendInt by (first [lia | exact Hhh]);
    cbn [mbind option_bind]; rewrite lit_append; cbn [mbind option_bind];
    rewrite digits_appendInt by (first [lia | exact Hmm]);
    cbn [mbind option_bind]; rewrite Hval.
  - change (Ascii.eqb "-" "+") with false. change (Ascii.eqb "-" "-") with true.
    cbv iota. f_equal. f_equal. lia.
  - change (Ascii.eqb "+" "+") with true. cbv iota. f_equal. f_equal. lia.
Qed.

(** [time.Parse] reads back what [Format] wrote: an instant of whole
    seconds in the years 0 to 9999, in a zone of whole minutes. *)
Lemma Parse_Format (t : time.Time) :
  wire_time t = true ->
  time.Parse_RFC3339 (time.Format_RFC3339 t)
  = Some (time.mkTime (time.unix t) 0 (time.offset t)).
Proof.
  unfold wire_time. intros H.
  rewrite !andb_true_iff in H. destruct H as (((H0 & H1) & H2) & H3).
  apply Z.eqb_eq in H0. apply Z.ltb_lt in H1.
  apply Z.leb_le in H2. apply Z.ltb_lt in H3.
  unfold time.Format_RFC3339. cbv zeta.
  set (abs := time.unix t + time.offset t) in *.
  pose proof (civil_from_days_inv (abs / 86400)) as Hinv.
  pose proof (civil_from_days_day (abs / 86400)) as Hday.
  pose proof (civil_from_days_year (abs / 86400)) as Hyear.
  destruct (time.civil_from_days (abs / 86400)) as [[y m] d].
  destruct Hinv as (Hdays & Hm & Hd).
  assert (Hy : 0 <= y <= 9999).
  { apply Hyear. Z.div_mod_to_equations. lia. }
  set (s := abs mod 86400).
  assert (Hs : 0 <= s < 86400) by (apply Z.mod_pos_bound; lia).
  assert (Habs : abs = 86400 * (abs / 86400) + s) by (apply Z.div_mod; lia).
  destruct (zone_format (time.offset t) H0 H1) as [Hfrac Hzone].
  cbv zeta in Hfrac, Hzone.
  set (ztext := if time.offset t =? 0 then "Z"
                else (if time.offset t <? 0 then "-" else "+")
                       ++ time.appendInt (Z.abs (time.offset t) / 60 / 60) 2
                       ++ ":"
                       ++ time.appendInt ((Z.abs (time.offset t) / 60) mod 60) 2)
    in *.
  unfold time.Parse_RFC3339.
  rewrite digits_appendInt
    by (first [lia | change (10 ^ Z.of_nat 4) with 10000; lia]).
  cbn [mbind option_bind]. rewrite lit_append. cbn [mbind option_bind].
  rewrite digits_appendInt
    by (first [lia | change (10 ^ Z.of_nat 2) with 100; lia]).
  cbn [mbind option_bind]. rewrite lit_append. cbn [mbind option_bind].
  rewrite digits_appendInt
    by (first [lia | change (10 ^ Z.of_nat 2) with 100; lia]).
  cbn [mbind option_bind]. rewrite lit_append. cbn [mbind option_bind].
  unfold time.getnum_free.
  rewrite digits_appendInt
    by (first [lia | change (10 ^ Z.of_nat 2) with 100;
                     Z.div_mod_to_equations; lia]).
  cbn [mbind option_bind]. rewrite lit_append. cbn [mbind option_bind].
  rewrite digits_appendInt
    by (first [lia | change (10 ^ Z.of_nat 2) with 100;
                     Z.div_mod_to_equations; lia]).
  cbn [mbind option_bind]. rewrite lit_append. cbn [mbind option_bind].
  rewrite digits_appendInt
    by (first [lia | change (10 ^ Z.of_nat 2) with 100;
                     Z.div_mod_to_equations; lia]).
  cbn [mbind option_bind]. rewrite Hfrac, Hzone. cbn [mbind option_bind].
  assert (Hcheck :
            (1 <=? m) && (m <=? 12) && (1 <=? d) && (d <=? time.daysIn m y)
            && (s / 3600 <? 24) && (s mod 3600 / 60 <? 60) && (s mod 60 <? 60)
            && String.eqb "" "" = true).
  { repeat (apply andb_true_iff; split);
      first [ reflexivity
            | apply Z.leb_le; first [lia | exact Hday]
            | apply Z.ltb_lt; Z.div_mod_to_equations; lia ]. }
  rewrite Hcheck, Hdays. f_equal. destruct t as [u n o].
  cbn [time.unix time.nsec time.offset] in *. f_equal.
  unfold abs in *. Z.div_mod_to_equations. lia.
Qed.

Lemma time_Parse_Format (t : time.Time) :
  wire_time t = true ->
  time_Parse (time.Format_RFC3339 t) = Ok (whole_second t).
Proof.
  intros H. unfold time_Parse. rewrite (Parse_Format t H). reflexivity.
Qed.

(** *** The text of an instant is ASCII *)

Lemma is_ascii_valid (s : string) : is_ascii s = true -> utf8.ValidString s = true.
Proof.
  unfold utf8.ValidString.
  induction s as [|c r IH]; [reflexivity|].
  cbn [is_ascii utf8.valid_from utf8.width]. intros H.
  apply andb_true_iff in H as [Hc Hr].
  unfold utf8.first. rewrite Hc. apply IH, Hr.
Qed.

Lemma is_ascii_app (a b : string) : is_ascii (a ++ b) = is_ascii a && is_ascii b.
Proof.
  induction a as [|x a IH]; [reflexivity|].
  rewrite append_cons. cbn [is_ascii]. rewrite IH. apply andb_assoc.
Qed.

Lemma is_ascii_zeros (n : nat) : is_ascii (strconv.zeros n) = true.
Proof. induction n as [|n IH]; [reflexivity|]. cbn. exact IH. Qed.

Lemma is_ascii_formatBits (fuel : nat) :
  forall u acc, is_ascii acc = true -> is_ascii (strconv.formatBits fuel u acc) = true.
Proof.
  induction fuel as [|fuel IH]; intros u acc Hacc; [exact Hacc|].
  cbn [strconv.formatBits].
  assert (Hd : is_ascii (String (strconv.digit_char (u mod 10)) acc) = true).
  { cbn [is_ascii]. rewrite Hacc, andb_true_r.
    pose proof (Z.mod_pos_bound u 10 ltac:(lia)) as Hm.
    unfold strconv.digit_char, utf8.byte.
    rewrite <- N_nat_Z. change (N.to_nat (N_of_ascii ?a)) with (nat_of_ascii a).
    rewrite nat_ascii_embedding by lia. apply Z.ltb_lt. lia. }
  destruct (u / 10 =? 0); [exact Hd | apply IH, Hd].
Qed.

Lemma is_ascii_Itoa (z : Z) : is_ascii (strconv.Itoa z) = true.
Proof.
  unfold strconv.Itoa. rewrite is_ascii_app, is_ascii_formatBits by reflexivity.
  destruct (z <? 0); reflexivity.
Qed.

Lemma is_ascii_appendInt (x : Z) (width : nat) :
  is_ascii (time.appendInt x width) = true.
Proof.
  unfold time.appendInt. rewrite !is_ascii_app, is_ascii_zeros, is_ascii_Itoa.
  destruct (x <? 0); reflexivity.
Qed.

Lemma is_ascii_Format (t : time.Time) : is_ascii (time.Format_RFC3339 t) = true.
Proof.
  unfold time.Format_RFC3339. cbv zeta.
  destruct (time.civil_from_days _) as [[y m] d].
  rewrite !is_ascii_app, !is_ascii_appendInt.
  destruct (time.offset t =? 0); [reflexivity|].
  rewrite !is_ascii_app, !is_ascii_appendInt.
  destruct (time.offset t <? 0); reflexivity.
Qed.

(** The encoder writes the text of an instant as it is. *)
Lemma coerce_Format (t : time.Time) :
  json.coerce (time.Format_RFC3339 t) = time.Format_RFC3339 t.
Proof. apply coerce_valid, is_ascii_valid, is_ascii_Format. Qed.

(** ** The round trip *)

(** C3, as the code has it.  The encoder writes the array of the set id,
    the two timestamps in UTC, the path string and the condition name, and
    the value as a sixth element when it is not 0.  For an observation with
    its instants in the years 0 to 9999 and a path string and a condition
    name that are valid UTF-8, decoding that array into a fresh observation
    gives the two instants in UTC without their fraction of a second, the
    path string and the condition name; the set id and the value come back
    when they are below a million in magnitude.  From a million on the
    decoder reads the number as a float64, prints it in the exponent form and
    fails to read an int: the set id comes back as 0, and for the value the
    decoding returns an error.  An observation set with its sources, its
    analyzer and extension keys in its metadata, all valid UTF-8, comes back
    with all three. *)
Theorem C3_roundtrip_outcome (obs : Observation.t) (p : Path.t)
        (c : Condition.t) (set : ObservationSet.t) (srcs : list string) :
  Observation.Path_ obs = Some p ->
  Observation.Condition_ obs = Some c ->
  int_min <= Observation.SetID obs <= int_max ->
  int_min <= Observation.Value obs <= int_max ->
  wire_time (time.UTC (Observation.Start obs)) = true ->
  wire_time (time.UTC (Observation.End_ obs)) = true ->
  utf8.ValidString (Path.String_ p) = true ->
  utf8.ValidString (Condition.Name c) = true ->
  ObservationSet.Sources set = Some srcs ->
  ObservationSet.Analyzer set <> "" ->
  (forall k v, ObservationSet.Metadata set !! k = Some v ->
               extension_key k = true) ->
  Forall (fun s => utf8.ValidString s = true) srcs ->
  utf8.ValidString (ObservationSet.Analyzer set) = true ->
  (forall k v, ObservationSet.Metadata set !! k = Some v ->
               utf8.ValidString k = true /\ utf8.ValidString v = true) ->
  Observation.MarshalJSON obs
  = Some (json.Doc
            (json.Array
               ([ json.Number (strconv.float64_of_int (Observation.SetID obs));
                  json.String_
                    (time.Format_RFC3339 (time.UTC (Observation.Start obs)));
                  json.String_
                    (time.Format_RFC3339 (time.UTC (Observation.End_ obs)));
                  json.String_ (Path.String_ p);
                  json.String_ (Condition.Name c) ]
                ++ (if decide (Observation.Value obs = 0) then []
                    else [json.Number
                            (strconv.float64_of_int (Observation.Value obs))]))))
  /\ Observation_roundtrip obs
     = Some (Observation.mk
               0
               (if Z.abs (Observation.SetID obs) <? 1000000
                then Observation.SetID obs else 0)
               None
               (time.mkTime (time.unix (Observation.Start obs)) 0 0)
               (time.mkTime (time.unix (Observation.End_ obs)) 0 0)
               0 (Some (Path.mk 0 (Path.String_ p)))
               0 (Some (Condition.mk 0 (Condition.Name c)))
               (if Z.abs (Observation.Value obs) <? 1000000
                then Observation.Value obs else 0),
             if Z.abs (Observation.Value obs) <? 1000000 then None
             else Some (OtherError "strconv.Atoi"))
  /\ snd (ObservationSet_roundtrip set) = None
  /\ ObservationSet.Sources (fst (ObservationSet_roundtrip set)) = Some srcs
  /\ ObservationSet.Analyzer (fst (ObservationSet_roundtrip set))
     = ObservationSet.Analyzer set
  /\ ObservationSet.Metadata (fst (ObservationSet_roundtrip set))
     = ObservationSet.Metadata set.
Proof.
  intros Hp Hc Hset Hval H1 H2 Vp Vc Hsrcs Han Hkeys Vsrcs Van Vmeta.
  pose proof (int_on_the_wire _ Hset) as Wset.
  pose proof (int_on_the_wire _ Hval) as Wval.
  cbn [json.encode json.decode AsString fmt.Sprint] in Wset, Wval.
  apply time_Parse_Format in H1, H2.
  change (whole_second (time.UTC (Observation.Start obs)))
    with (time.mkTime (time.unix (Observation.Start obs)) 0 0) in H1.
  change (whole_second (time.UTC (Observation.End_ obs)))
    with (time.mkTime (time.unix (Observation.End_ obs)) 0 0) in H2.
  assert (Henc : Observation.MarshalJSON obs
    = Some (json.Doc
              (json.Array
                 ([ json.Number (strconv.float64_of_int (Observation.SetID obs));
                    json.String_
                      (time.Format_RFC3339 (time.UTC (Observation.Start obs)));
                    json.String_
                      (time.Format_RFC3339 (time.UTC (Observation.End_ obs)));
                    json.String_ (Path.String_ p);
                    json.String_ (Condition.Name c) ]
                  ++ (if decide (Observation.Value obs = 0) then []
                      else [json.Number
                              (strconv.float64_of_int (Observation.Value obs))]))))).
  { unfold Observation.MarshalJSON, json.Marshal_slice. rewrite Hp, Hc.
    destruct (decide (Observation.Value obs = 0));
      cbn [map app json.encode];
      rewrite !coerce_Format, (coerce_valid _ Vp), (coerce_valid _ Vc);
      reflexivity. }
  split; [exact Henc|].
  split.
  { unfold Observation_roundtrip. rewrite Henc. cbn [mbind option_bind].
    destruct (decide (Observation.Value obs = 0)) as [H0|H0];
      unfold Observation.UnmarshalJSON; simpl;
      rewrite Wset, H1, H2; simpl.
    - rewrite H0. simpl.
      destruct (Z.abs (Observation.SetID obs) <? 1000000); reflexivity.
    - rewrite Wval.
      destruct (Z.abs (Observation.SetID obs) <? 1000000),
               (Z.abs (Observation.Value obs) <? 1000000); reflexivity. }
  destruct (ObservationSet_roundtrip_ok set srcs Hsrcs Han Hkeys Vsrcs Van Vmeta)
    as (He & Hs & Ha & Hm & _).
  auto.
Qed.

(** C3 on the observation of the package's test with the value 1000000, and
    on the observation set of that test: the decoder returns the error of
    [Atoi] for the observation; the set comes back. *)
Lemma C3_roundtrip_sample :
  snd <$> Observation_roundtrip (Sample.obs 0 1000000)
  = Some (Some (OtherError "strconv.Atoi"))
  /\ snd (ObservationSet_roundtrip Sample.obsset) = None
  /\ ObservationSet.Metadata (fst (ObservationSet_roundtrip Sample.obsset))
     = ObservationSet.Metadata Sample.obsset.
Proof.
  destruct (C3_roundtrip_outcome
              (Sample.obs 0 1000000)
              (Path.mk 3 "1.2.3.4 * 5.6.7.8") (Condition.mk 5 "pto.test.succeeded")
              Sample.obsset
              [ "https://ptotest.mami-project.eu/raw/test/test001.ndjson";
                "https://ptotest.mami-project.eu/raw/test/test002.ndjson" ])
    as (_ & Hobs & Herr & _ & _ & Hmeta).
  - reflexivity.
  - reflexivity.
  - vm_compute. split; discriminate.
  - vm_compute. split; discriminate.
  - vm_compute. reflexivity.
  - vm_compute. reflexivity.
  - vm_compute. reflexivity.
  - vm_compute. reflexivity.
  - reflexivity.
  - discriminate.
  - intros k v H. cbn [Sample.obsset ObservationSet.Metadata] in H.
    apply lookup_insert_Some in H as [[<- _]|[_ H]]; [reflexivity|].
    apply lookup_insert_Some in H as [[<- _]|[_ H]]; [reflexivity|].
    rewrite lookup_empty in H. discriminate H.
  - repeat constructor.
  - vm_compute. reflexivity.
  - intros k v H. cbn [Sample.obsset ObservationSet.Metadata] in H.
    apply lookup_insert_Some in H as [[<- <-]|[_ H]]; [split; reflexivity|].
    apply lookup_insert_Some in H as [[<- <-]|[_ H]]; [split; reflexivity|].
    rewrite lookup_empty in H. discriminate H.
  - rewrite Hobs. split; [reflexivity | split; [exact Herr | exact Hmeta]].
Defined.

(** ** The path check of ReadFileData and WriteFileData *)

(** *** Match on a pattern that is a literal directory and a star *)

Lemma scanChunks_literal (p : string) :
  forall (star started : bool) (acc : list ascii),
    glob_free p = true ->
    filepath.scanChunks star started false acc (p ++ "/*")
    = [(star, string_of_list_ascii (rev acc) ++ p ++ "/"); (true, "")].
Proof.
  induction p as [|c r IH]; intros star started acc Hfree.
  - simpl. rewrite string_of_list_ascii_app. reflexivity.
  - simpl in Hfree. apply andb_true_iff in Hfree as [Hc Hr].
    unfold is_meta in Hc. apply negb_true_iff in Hc.
    apply orb_false_iff in Hc as [Hc Hbs].
    apply orb_false_iff in Hc as [Hc Hbr].
    apply orb_false_iff in Hc as [Hst Hqm].
    change (String c r ++ "/*") with (String c (r ++ "/*")).
    cbn [filepath.scanChunks]. rewrite Hst, Hbs, Hbr. cbn [andb].
    assert (Hgoal : filepath.scanChunks star true false (c :: acc) (r ++ "/*")
                    = [(star, string_of_list_ascii (rev acc) ++ String c r ++ "/");
                       (true, "")]).
    { rewrite (IH star true (c :: acc) Hr). simpl rev.
      rewrite string_of_list_ascii_app, append_assoc. reflexivity. }
    destruct (Ascii.eqb c "]"); exact Hgoal.
Qed.

Lemma matchChunk_fuel_literal (chunk : string) :
  forall (fuel : nat) (s : string),
    glob_free chunk = true ->
    (String.length chunk < fuel)%nat ->
    (forall t, s = chunk ++ t -> filepath.matchChunk_fuel fuel chunk s = Some t)
    /\ (forall t, filepath.matchChunk_fuel fuel chunk s = Some t -> s = chunk ++ t).
Proof.
  induction chunk as [|c chunk IH]; intros fuel s Hfree Hfuel.
  - destruct fuel as [|fuel]; [simpl in Hfuel; lia|]. simpl. split.
    + intros t ->. reflexivity.
    + intros t H. injection H as <-. reflexivity.
  - destruct fuel as [|fuel]; [simpl in Hfuel; lia|].
    simpl in Hfree. apply andb_true_iff in Hfree as [Hc Hr].
    unfold is_meta in Hc. apply negb_true_iff in Hc.
    apply orb_false_iff in Hc as [Hc Hbs].
    apply orb_false_iff in Hc as [Hc Hbr].
    apply orb_false_iff in Hc as [Hst Hqm].
    simpl in Hfuel.
    cbn [filepath.matchChunk_fuel].
    destruct s as [|x s'].
    + split; [intros t H; discriminate | discriminate].
    + rewrite Hbr, Hqm, Hbs.
      destruct (IH fuel s' Hr ltac:(lia)) as [IH1 IH2].
      destruct (Ascii.eqb_spec c x) as [->|Hne].
      * split.
        -- intros t H. rewrite append_cons in H. injection H as H.
           apply IH1. exact H.
        -- intros t H. rewrite append_cons. f_equal. apply IH2. exact H.
      * split; [|discriminate].
        intros t H. rewrite append_cons in H. injection H as H _. congruence.
Qed.

Lemma matchChunk_literal (chunk s : string) :
  glob_free chunk = true ->
  (forall t, s = chunk ++ t -> filepath.matchChunk chunk s = Some t)
  /\ (forall t, filepath.matchChunk chunk s = Some t -> s = chunk ++ t).
Proof.
  intros Hfree. apply matchChunk_fuel_literal; [exact Hfree | lia].
Qed.

(** The pattern "dir/*", for a directory without pattern bytes, matches the
    names "dir/base" with no separator in [base], and no other. *)
Lemma Match_dir_star (dir name : string) :
  glob_free dir = true ->
  filepath.Match (dir ++ "/*") name = true
  <-> exists base,
      name = dir ++ "/" ++ base
      /\ strings.ContainsByte base filepath.Separator = false.
Proof.
  intros Hfree. unfold filepath.Match.
  rewrite (scanChunks_literal dir false false [] Hfree).
  change (string_of_list_ascii (rev []) ++ dir ++ "/") with (dir ++ "/").
  assert (Hfree' : glob_free (dir ++ "/") = true).
  { rewrite glob_free_app, Hfree. reflexivity. }
  destruct (matchChunk_literal (dir ++ "/") name Hfree') as [H1 H2].
  cbn [filepath.matchChunks andb].
  destruct (filepath.matchChunk (dir ++ "/") name) as [t|] eqn:Hm.
  - rewrite orb_true_r. cbn [andb]. rewrite String.eqb_refl.
    pose proof (H2 t eq_refl) as Hname. rewrite append_assoc in Hname.
    rewrite negb_true_iff. split.
    + intros Hc. exists t. auto.
    + intros (base & Hb & Hc). rewrite Hname in Hb.
      apply String.app_inj in Hb. apply String.app_inj in Hb.
      rewrite Hb. exact Hc.
  - split; [discriminate|].
    intros (base & Hb & _). exfalso.
    assert (Hsome : None = Some base); [|discriminate Hsome].
    apply H1. rewrite append_assoc. exact Hb.
Qed.

(** *** Clean and Join *)

Lemma elements_nonempty (p : string) : filepath.elements p <> [].
Proof.
  destruct p as [|c r]; simpl; [discriminate|].
  destruct (Ascii.eqb c filepath.Separator); [discriminate|].
  destruct (filepath.elements r); discriminate.
Qed.

Lemma elements_app_sep (a b : string) :
  filepath.elements (a ++ "/" ++ b)
  = (filepath.elements a ++ filepath.elements b)%list.
Proof.
  induction a as [|c a IH]; [reflexivity|].
  rewrite append_cons. cbn [filepath.elements]. rewrite IH.
  destruct (Ascii.eqb c filepath.Separator); [reflexivity|].
  pose proof (elements_nonempty a) as Hne.
  destruct (filepath.elements a) as [|x t]; [contradiction | reflexivity].
Qed.

Lemma elements_plain (f : string) :
  strings.ContainsByte f filepath.Separator = false ->
  filepath.elements f = [f].
Proof.
  induction f as [|c f IH]; [reflexivity|].
  cbn [strings.ContainsByte filepath.elements]. intros H.
  apply orb_false_iff in H as [Hc Hf]. rewrite Hc, (IH Hf). reflexivity.
Qed.

Lemma elements_sepfree (p : string) :
  Forall (fun e => strings.ContainsByte e filepath.Separator = false)
         (filepath.elements p).
Proof.
  induction p as [|c p IH]; simpl.
  - repeat constructor.
  - destruct (Ascii.eqb c filepath.Separator) eqn:Hc.
    + constructor; [reflexivity | exact IH].
    + destruct (filepath.elements p) as [|x t]; [repeat constructor; simpl; rewrite Hc; reflexivity|].
      inversion IH as [|? ? Hx Ht]; subst.
      constructor; [|exact Ht]. simpl. rewrite Hc, Hx. reflexivity.
Qed.

Lemma Join_snoc (l : list string) (x : string) :
  l <> [] ->
  strings.Join (l ++ [x]) "/" = strings.Join l "/" ++ "/" ++ x.
Proof.
  induction l as [|a l IH]; [contradiction|]. intros _.
  destruct l as [|b l]; [reflexivity|].
  change (strings.Join ((a :: b :: l) ++ [x]) "/")
    with (a ++ "/" ++ strings.Join ((b :: l) ++ [x]) "/").
  rewrite IH by discriminate.
  change (strings.Join (a :: b :: l) "/")
    with (a ++ "/" ++ strings.Join (b :: l) "/").
  rewrite !append_assoc. reflexivity.
Qed.

(** Splitting what [strings.Join] has joined gives the elements back. *)
Lemma elements_Join (l : list string) :
  l <> [] ->
  Forall (fun e => strings.ContainsByte e filepath.Separator = false) l ->
  filepath.elements (strings.Join l "/") = l.
Proof.
  induction l as [|a l IH]; [contradiction|]. intros _ Hall.
  inversion Hall as [|? ? Ha Hl]; subst.
  destruct l as [|b l]; [apply elements_plain; exact Ha|].
  change (strings.Join (a :: b :: l) "/")
    with (a ++ "/" ++ strings.Join (b :: l) "/").
  rewrite elements_app_sep, (elements_plain a Ha), IH by (discriminate || exact Hl).
  reflexivity.
Qed.

Lemma plain_name_spec (e : string) :
  plain_name e = true ->
  e <> "" /\ e <> "." /\ e <> ".."
  /\ strings.ContainsByte e filepath.Separator = false.
Proof.
  unfold plain_name. intros H.
  apply andb_true_iff in H as [H H4]. apply andb_true_iff in H as [H H3].
  apply andb_true_iff in H as [H1 H2].
  apply negb_true_iff in H1, H2, H3, H4.
  apply String.eqb_neq in H1, H2, H3. auto.
Qed.

(** The step of [Clean] on a plain name appends it. *)
Lemma clean_step_plain (rooted : bool) (st : nat * list string) (f : string) :
  plain_name f = true ->
  filepath.clean_step rooted st f = (fst st, f :: snd st).
Proof.
  intros H. destruct (plain_name_spec f H) as (H1 & H2 & H3 & _).
  apply String.eqb_neq in H1, H2, H3.
  unfold filepath.clean_step. destruct st as [dd out].
  rewrite H1, H2, H3. reflexivity.
Qed.

Lemma clean_elements_snoc (p f : string) :
  p <> "" -> plain_name f = true ->
  filepath.clean_elements (p ++ "/" ++ f)
  = (filepath.clean_elements p ++ [f])%list.
Proof.
  intros Hp Hf. destruct (plain_name_spec f Hf) as (_ & _ & _ & Hsep).
  unfold filepath.clean_elements.
  assert (Hroot : filepath.is_rooted (p ++ "/" ++ f) = filepath.is_rooted p).
  { destruct p as [|c r]; [contradiction | reflexivity]. }
  rewrite Hroot, elements_app_sep, (elements_plain f Hsep), fold_left_app.
  cbn [fold_left]. rewrite (clean_step_plain _ _ _ Hf). reflexivity.
Qed.

(** A clean directory, other than the root and ".", with a plain name joined
    to it: the path is in clean form as it stands. *)
Lemma Clean_dir_plain (dir f : string) :
  filepath.Clean dir = dir -> dir <> "/" -> dir <> "." ->
  plain_name f = true ->
  filepath.Clean (dir ++ "/" ++ f) = dir ++ "/" ++ f.
Proof.
  intros Hclean Hroot Hdot Hf.
  destruct dir as [|c r]; [discriminate Hclean|].
  assert (Hsnoc := clean_elements_snoc (String c r) f ltac:(discriminate) Hf).
  unfold filepath.Clean in *. rewrite append_cons. rewrite <- append_cons.
  change (filepath.is_rooted (String c r ++ "/" ++ f))
    with (filepath.is_rooted (String c r)).
  cbv zeta in *. rewrite Hsnoc.
  destruct (filepath.is_rooted (String c r)).
  - destruct (filepath.clean_elements (String c r)) as [|x l] eqn:Hl.
    + exfalso. apply Hroot. rewrite <- Hclean. reflexivity.
    + rewrite Join_snoc by discriminate.
      rewrite <- append_assoc. rewrite Hclean. reflexivity.
  - destruct (filepath.clean_elements (String c r)) as [|x l] eqn:Hl.
    + exfalso. apply Hdot. rewrite <- Hclean. reflexivity.
    + cbv iota in Hclean. rewrite <- Hclean.
      change ((x :: l) ++ [f])%list with (x :: (l ++ [f]))%list. cbv iota.
      change (x :: (l ++ [f]))%list with ((x :: l) ++ [f])%list.
      apply Join_snoc. discriminate.
Qed.

(** What the loop of [Clean] keeps: below the names there are only the
    leading ".." elements, none in a rooted path. *)
Lemma clean_step_inv (rooted : bool) (st : nat * list string) (e : string) :
  strings.ContainsByte e filepath.Separator = false ->
  (exists reals,
      snd st = (reals ++ repeat ".." (fst st))%list
      /\ Forall (fun x => plain_name x = true) reals
      /\ (rooted = true -> fst st = O)) ->
  exists reals,
    snd (filepath.clean_step rooted st e)
    = (reals ++ repeat ".." (fst (filepath.clean_step rooted st e)))%list
    /\ Forall (fun x => plain_name x = true) reals
    /\ (rooted = true -> fst (filepath.clean_step rooted st e) = O).
Proof.
  intros Hsep (reals & Hout & Hreals & Hroot).
  destruct st as [dd out]. simpl in Hout, Hroot. unfold filepath.clean_step.
  destruct (String.eqb_spec e "") as [He1|He1];
    [exists reals; auto|].
  destruct (String.eqb_spec e ".") as [He2|He2];
    [exists reals; auto|].
  cbn [orb].
  destruct (String.eqb_spec e "..") as [He3|He3].
  - destruct (dd <? length out)%nat eqn:Hlt.
    + apply Nat.ltb_lt in Hlt. rewrite Hout, length_app, repeat_length in Hlt.
      destruct reals as [|r reals']; [simpl in Hlt; lia|].
      exists reals'. simpl. rewrite Hout. simpl.
      inversion Hreals; subst. auto.
    + apply Nat.ltb_ge in Hlt. rewrite Hout, length_app, repeat_length in Hlt.
      destruct reals as [|r reals']; [|simpl in Hlt; lia].
      destruct rooted.
      * exists []. simpl. auto.
      * exists []. simpl. rewrite Hout. simpl.
        split; [reflexivity|]. split; [constructor | discriminate].
  - exists (e :: reals). simpl. rewrite Hout. split; [reflexivity|].
    split; [|exact Hroot]. constructor; [|exact Hreals].
    unfold plain_name.
    apply String.eqb_neq in He1, He2, He3. rewrite He1, He2, He3, Hsep.
    reflexivity.
Qed.

Lemma clean_fold_inv (rooted : bool) (l : list string) :
  Forall (fun e => strings.ContainsByte e filepath.Separator = false) l ->
  forall st,
    (exists reals,
        snd st = (reals ++ repeat ".." (fst st))%list
        /\ Forall (fun x => plain_name x = true) reals
        /\ (rooted = true -> fst st = O)) ->
    exists reals,
      snd (fold_left (filepath.clean_step rooted) l st)
      = (reals ++ repeat ".." (fst (fold_left (filepath.clean_step rooted) l st)))%list
      /\ Forall (fun x => plain_name x = true) reals
      /\ (rooted = true -> fst (fold_left (filepath.clean_step rooted) l st) = O).
Proof.
  induction 1 as [|e l He Hl IH]; intros st Hst; [exact Hst|].
  simpl. apply IH. apply clean_step_inv; assumption.
Qed.

(** The cleaned elements, in reverse: names, then the leading ".."s. *)
Lemma clean_elements_inv (p : string) :
  exists (dd : nat) (reals : list string),
    rev (filepath.clean_elements p) = (reals ++ repeat ".." dd)%list
    /\ Forall (fun x => plain_name x = true) reals
    /\ (filepath.is_rooted p = true -> dd = O).
Proof.
  unfold filepath.clean_elements. rewrite rev_involutive.
  destruct (clean_fold_inv (filepath.is_rooted p) (filepath.elements p)
                           (elements_sepfree p) (O, []))
    as (reals & H1 & H2 & H3).
  { exists []. simpl. auto. }
  eauto.
Qed.

Lemma contains_sep (a b : string) :
  strings.ContainsByte (a ++ "/" ++ b) filepath.Separator = true.
Proof.
  rewrite ContainsByte_app. apply orb_true_iff. right. reflexivity.
Qed.

Lemma Forall_sepfree_out (reals : list string) (dd : nat) :
  Forall (fun x => plain_name x = true) reals ->
  Forall (fun e => strings.ContainsByte e filepath.Separator = false)
         (reals ++ repeat ".." dd)%list.
Proof.
  intros H. apply Forall_app. split.
  - eapply Forall_impl; [exact H|]. intros x Hx. apply plain_name_spec, Hx.
  - apply Forall_forall. intros x Hx. apply list_elem_of_In in Hx.
    apply repeat_spec in Hx. subst x. reflexivity.
Qed.

(** A cleaned path of the form dir/base, under a clean directory that ends
    in a name: [base] is a plain name. *)
Lemma Clean_under_dir (y dir base : string) :
  filepath.Clean dir = dir ->
  filepath.Base dir <> ".." ->
  filepath.Clean y = dir ++ "/" ++ base ->
  strings.ContainsByte base filepath.Separator = false ->
  plain_name base = true.
Proof.
  intros Hclean Hbase Hy Hsep.
  assert (Hdir : dir <> "") by (intros ->; discriminate Hclean).
  pose proof (contains_sep dir base) as Hslash. rewrite <- Hy in Hslash.
  destruct y as [|c r]; [discriminate Hslash|].
  destruct (clean_elements_inv (String c r)) as (dd & reals & Hout & Hreals & Hroot).
  pose proof (Forall_sepfree_out reals dd Hreals) as Hfree.
  rewrite <- Hout in Hfree. apply Forall_rev in Hfree.
  rewrite rev_involutive in Hfree.
  assert (Hel : filepath.elements (filepath.Clean (String c r))
                = (filepath.elements dir ++ [base])%list).
  { rewrite Hy, elements_app_sep, (elements_plain base Hsep). reflexivity. }
  unfold filepath.Clean in Hy, Hel, Hslash. cbv zeta in Hy, Hel, Hslash.
  destruct (filepath.clean_elements (String c r)) as [|x l] eqn:Hl.
  - (* nothing left: the path is "/" or "." *)
    destruct (filepath.is_rooted (String c r)); [|discriminate Hslash].
    exfalso. destruct dir as [|d dir']; [contradiction|].
    rewrite append_cons in Hy. injection Hy as _ Hy.
    destruct dir'; discriminate Hy.
  - assert (Hreals0 : forall r0 rest, reals = r0 :: rest -> plain_name r0 = true).
    { intros r0 rest ->. inversion Hreals; assumption. }
    assert (Hnonnil : rev (x :: l) <> []).
    { intros H. apply (f_equal (@length string)) in H.
      rewrite length_rev in H. discriminate H. }
    destruct (filepath.is_rooted (String c r)) eqn:Hr.
    + change ("/" ++ strings.Join (x :: l) "/")
        with ("" ++ "/" ++ strings.Join (x :: l) "/") in Hel.
      rewrite elements_app_sep, elements_Join in Hel
        by (discriminate || exact Hfree).
      change (filepath.elements "" ++ x :: l)%list with ("" :: x :: l) in Hel.
      apply (f_equal (@rev string)) in Hel.
      rewrite rev_app_distr in Hel.
      change (rev ("" :: x :: l)) with (rev (x :: l) ++ [""])%list in Hel.
      rewrite (Hroot eq_refl) in Hout.
      change (repeat ".." 0) with (@nil string) in Hout.
      rewrite app_nil_r in Hout.
      rewrite Hout in Hel, Hnonnil.
      destruct reals as [|r0 rest]; [contradiction|].
      simpl in Hel. injection Hel as <- _. eapply Hreals0. reflexivity.
    + cbv iota in Hel.
      rewrite elements_Join in Hel by (discriminate || exact Hfree).
      apply (f_equal (@rev string)) in Hel.
      rewrite rev_app_distr in Hel. rewrite Hout in Hel. simpl in Hel.
      destruct reals as [|r0 rest].
      * exfalso. apply Hbase. simpl in Hel.
        destruct dd as [|k]; [discriminate Hel|].
        simpl in Hel. injection Hel as _ Hel.
        destruct dir as [|d dir']; [contradiction|].
        unfold filepath.Base. rewrite <- Hel.
        destruct k as [|k'].
        -- exfalso. apply (elements_nonempty (String d dir')).
           apply (f_equal (@rev string)) in Hel.
           rewrite rev_involutive in Hel. symmetry. exact Hel.
        -- reflexivity.
      * simpl in Hel. injection Hel as <- _. eapply Hreals0. reflexivity.
Qed.

(** *** The check *)

Lemma campaign_dir_spec (dir : string) :
  campaign_dir dir = true ->
  glob_free dir = true /\ filepath.Clean dir = dir /\ dir <> "/" /\ dir <> "."
  /\ filepath.Base dir <> "..".
Proof.
  unfold campaign_dir. intros H.
  apply andb_true_iff in H as [H H5]. apply andb_true_iff in H as [H H4].
  apply andb_true_iff in H as [H H3]. apply andb_true_iff in H as [H1 H2].
  apply negb_true_iff in H3, H4, H5.
  apply String.eqb_neq in H3, H4, H5. apply String.eqb_eq in H2. auto.
Qed.

Lemma Join_dir (dir f : string) :
  dir <> "" -> filepath.Join [dir; f] = filepath.Clean (dir ++ "/" ++ f).
Proof.
  intros H. apply String.eqb_neq in H. unfold filepath.Join. rewrite H.
  reflexivity.
Qed.

(** The pattern of the check, for a campaign directory: "dir/*". *)
Lemma pattern_of_dir (dir : string) :
  campaign_dir dir = true -> filepath.Join [dir; "*"] = dir ++ "/*".
Proof.
  intros H. destruct (campaign_dir_spec dir H) as (_ & Hc & Hr & Hd & _).
  rewrite Join_dir by (intros ->; discriminate Hc).
  apply Clean_dir_plain; [assumption.. | reflexivity].
Qed.

Lemma path_ok_spec (cam : Campaign) (filename : string) :
  campaign_dir (path cam) = true ->
  path_ok cam (rawpath_of cam filename) = true
  <-> exists base,
      rawpath_of cam filename = path cam ++ "/" ++ base
      /\ plain_name base = true.
Proof.
  intros Hdir. destruct (campaign_dir_spec _ Hdir) as (Hfree & Hc & _ & _ & Hb).
  unfold path_ok. rewrite (pattern_of_dir _ Hdir), (Match_dir_star _ _ Hfree).
  split; intros (base & Hraw & Hbase); exists base; (split; [exact Hraw|]).
  - exact (Clean_under_dir _ _ _ Hc Hb Hraw Hbase).
  - apply plain_name_spec, Hbase.
Qed.

Lemma rawpath_plain (cam : Campaign) (filename : string) :
  campaign_dir (path cam) = true -> plain_name filename = true ->
  rawpath_of cam filename = path cam ++ "/" ++ filename.
Proof.
  intros Hdir Hf. destruct (campaign_dir_spec _ Hdir) as (_ & Hc & Hr & Hd & _).
  unfold rawpath_of. rewrite Join_dir by (intros E; rewrite E in Hc; discriminate Hc).
  rewrite !Clean_dir_plain by assumption. reflexivity.
Qed.

(** C6, the statement of the design document refuted in both halves.  A name
    with a directory and a ".." element that leads back into the campaign
    directory, and a name with a "." element, pass the check: the file inside
    the directory is opened.  And in a campaign whose directory name has a
    bracket in it, the check fails for a plain file name. *)
Lemma C6_check_is_on_the_cleaned_path :
  ReadFileData Sample.cam "sub/../a.dat" = ([OpOpen "/srv/raw/test/a.dat"], None)
  /\ WriteFileData (Sample.fs false None) Sample.cam "./a.dat" false
     = ([OpCreate "/srv/raw/test/a.dat"], None)
  /\ plain_name "a.dat" = true
  /\ filepath.Join [path Sample.cam_bracket; "a.dat"] = "/srv/raw/te[st/a.dat"
  /\ ReadFileData Sample.cam_bracket "a.dat"
     = ([], Some (PTOInternalError "path /srv/raw/te[st/a.dat is not ok")).
Proof. repeat split; vm_compute; reflexivity. Qed.

(** C6, as the code has it, for a campaign directory in clean form that
    ends in a name and has no pattern byte in it.  The check passes exactly
    when the cleaned path is the directory, a separator and one plain name;
    when it fails, both functions return the internal error and open
    nothing; so every file they open or create lies directly inside the
    campaign directory; and a plain file name passes, its file being the one
    opened. *)
Theorem C6_path_check (fs : FS) (cam : Campaign) (filename : string)
        (force : bool) :
  campaign_dir (path cam) = true ->
  (path_ok cam (rawpath_of cam filename) = true
   <-> exists base,
       rawpath_of cam filename = path cam ++ "/" ++ base
       /\ plain_name base = true)
  /\ (path_ok cam (rawpath_of cam filename) = false ->
      ReadFileData cam filename
      = ([], Some (path_not_ok (rawpath_of cam filename)))
      /\ WriteFileData fs cam filename force
         = ([], Some (path_not_ok (rawpath_of cam filename))))
  /\ (forall name,
         OpOpen name ∈ fst (ReadFileData cam filename)
         \/ OpCreate name ∈ fst (WriteFileData fs cam filename force) ->
         exists base, name = path cam ++ "/" ++ base /\ plain_name base = true)
  /\ (plain_name filename = true ->
      path_ok cam (rawpath_of cam filename) = true
      /\ ReadFileData cam filename
         = ([OpOpen (path cam ++ "/" ++ filename)], None)).
Proof.
  intros Hdir. pose proof (path_ok_spec cam filename Hdir) as Hok.
  split; [exact Hok|]. split; [|split].
  - intros Hno. unfold ReadFileData, WriteFileData. cbv zeta.
    rewrite Hno. auto.
  - intros name. unfold ReadFileData, WriteFileData. cbv zeta.
    destruct (path_ok cam (rawpath_of cam filename)) eqn:Hp; cbn [negb fst].
    + destruct (proj1 Hok eq_refl) as (base & Hraw & Hbase).
      intros [H|H].
      * apply list_elem_of_singleton in H. injection H as ->. eauto.
      * destruct (negb force && _); cbn [fst] in H.
        -- apply elem_of_nil in H. contradiction.
        -- apply list_elem_of_singleton in H. injection H as ->. eauto.
    + intros [H|H]; apply elem_of_nil in H; contradiction.
  - intros Hf. pose proof (rawpath_plain cam filename Hdir Hf) as Hraw.
    assert (Hp : path_ok cam (rawpath_of cam filename) = true).
    { apply Hok. exists filename. auto. }
    split; [exact Hp|]. unfold ReadFileData. cbv zeta. rewrite Hp, Hraw.
    reflexivity.
Qed.

(** C6 on the sample campaign: the name "../secret" is rejected with the
    internal error, nothing opened, and "a.dat" is opened where it lies. *)
Lemma C6_path_check_sample :
  ReadFileData Sample.cam "../secret"
  = ([], Some (PTOInternalError "path /srv/raw/secret is not ok"))
  /\ WriteFileData (Sample.fs true None) Sample.cam "../secret" true
     = ([], Some (PTOInternalError "path /srv/raw/secret is not ok"))
  /\ ReadFileData Sample.cam "a.dat" = ([OpOpen "/srv/raw/test/a.dat"], None).
Proof.
  destruct (C6_path_check (Sample.fs true None) Sample.cam "../secret" true)
    as (_ & Hno & _).
  { vm_compute. reflexivity. }
  destruct (C6_path_check (Sample.fs true None) Sample.cam "a.dat" true)
    as (_ & _ & _ & Hplain).
  { vm_compute. reflexivity. }
  destruct Hno as [Hr Hw]; [vm_compute; reflexivity|].
  destruct Hplain as [_ Ha]; [vm_compute; reflexivity|].
  split; [exact Hr|]. split; [exact Hw | exact Ha].
Defined.

(** * Further properties *)

(** ** Observation files *)

(** A line written for an observation, decoded into a variable that holds
    [prev]: the fields on the wire are those of the observation, the
    instants without their fraction of a second; the value is kept from
    [prev] when the line has none. *)
Lemma UnmarshalJSON_MarshalJSON (prev obs : Observation.t) (p : Path.t)
      (c : Condition.t) :
  Observation.Path_ obs = Some p ->
  Observation.Condition_ obs = Some c ->
  Z.abs (Observation.SetID obs) < 1000000 ->
  Z.abs (Observation.Value obs) < 1000000 ->
  wire_time (time.UTC (Observation.Start obs)) = true ->
  wire_time (time.UTC (Observation.End_ obs)) = true ->
  utf8.ValidString (Path.String_ p) = true ->
  utf8.ValidString (Condition.Name c) = true ->
  exists b,
    Observation.MarshalJSON obs = Some b
    /\ Observation.UnmarshalJSON prev b
       = (Observation.mk
            0 (Observation.SetID obs) (Observation.Set_ prev)
            (whole_second (time.UTC (Observation.Start obs)))
            (whole_second (time.UTC (Observation.End_ obs)))
            (Observation.PathID prev) (Some (Path.mk 0 (Path.String_ p)))
            (Observation.ConditionID prev)
            (Some (Condition.mk 0 (Condition.Name c)))
            (if decide (Observation.Value obs = 0) then Observation.Value prev
             else Observation.Value obs),
          None).
Proof.
  intros Hp Hc Hset Hval H1 H2 Vp Vc.
  assert (Bset : int_min <= Observation.SetID obs <= int_max)
    by (unfold int_min, int_max; change (2 ^ 63) with 9223372036854775808; lia).
  assert (Bval : int_min <= Observation.Value obs <= int_max)
    by (unfold int_min, int_max; change (2 ^ 63) with 9223372036854775808; lia).
  pose proof (int_on_the_wire _ Bset) as Wset.
  pose proof (int_on_the_wire _ Bval) as Wval.
  cbn [json.encode json.decode AsString fmt.Sprint] in Wset, Wval.
  apply Z.ltb_lt in Hset, Hval. rewrite Hset in Wset. rewrite Hval in Wval.
  unfold Observation.MarshalJSON. rewrite Hp, Hc.
  eexists. split; [reflexivity|].
  destruct (decide (Observation.Value obs = 0)) as [H0|H0];
    unfold Observation.UnmarshalJSON, json.Marshal_slice;
    cbn [map app json.encode];
    rewrite !coerce_Format, (coerce_valid _ Vp), (coerce_valid _ Vc); simpl;
    rewrite Wset, (time_Parse_Format _ H1), (time_Parse_Format _ H2); simpl.
  - reflexivity.
  - rewrite Wval. reflexivity.
Qed.

(** A line of fewer than six elements leaves the value of the variable it
    is decoded into. *)
Lemma UnmarshalJSON_short (obs o : Observation.t) (l : list json.value) :
  Observation.UnmarshalJSON obs (json.Doc (json.Array l)) = (o, None) ->
  (length l < 6)%nat ->
  Observation.Value o = Observation.Value obs.
Proof.
  unfold Observation.UnmarshalJSON. cbn [json.Unmarshal_slice].
  rewrite length_map. intros H Hlen.
  destruct (length l <? 5)%nat; [discriminate H|].
  destruct (time_Parse _); [|discriminate H].
  destruct (time_Parse _); [|discriminate H].
  destruct (6 <=? length l)%nat eqn:E; [apply Nat.leb_le in E; lia|].
  injection H as <-. reflexivity.
Qed.

(** The loop of [ReadObservations]: every line is decoded into the variable
    as the line before it has left it. *)
Lemma ReadObservations_lines_spec (lines : list json.text) :
  forall obs out0 out,
    ReadObservations_lines obs lines out0 = Ok out ->
    exists dec,
      out = (out0 ++ dec)%list
      /\ length dec = length lines
      /\ forall i b,
          lines !! i = Some b ->
          exists prev o,
            dec !! i = Some o
            /\ Observation.UnmarshalJSON prev b = (o, None)
            /\ match i with
               | O => prev = obs
               | S j => dec !! j = Some prev
               end.
Proof.
  induction lines as [|b0 lines IH]; intros obs out0 out H.
  - injection H as <-. exists []. rewrite app_nil_r.
    repeat split. intros i b Hi. rewrite lookup_nil in Hi. discriminate Hi.
  - cbn [ReadObservations_lines] in H.
    destruct (Observation.UnmarshalJSON obs b0) as [o1 [e|]] eqn:E1;
      [discriminate H|].
    destruct (IH _ _ _ H) as (dec & -> & Hlen & Hdec).
    exists (o1 :: dec). split; [rewrite <- app_assoc; reflexivity|].
    split; [simpl; rewrite Hlen; reflexivity|].
    intros [|i] b Hi.
    + injection Hi as <-. exists obs, o1. repeat split. exact E1.
    + destruct (Hdec i b Hi) as (prev & o & Ho & Hu & Hprev).
      exists prev, o. split; [exact Ho|]. split; [exact Hu|].
      destruct i as [|j]; [subst prev; reflexivity | exact Hprev].
Qed.

(** In a file read by [ReadObservations], a line of fewer than six elements
    gives an observation with the value of the line before it (0 for the
    first line): the observations are decoded into one variable, and the
    value is only written when the line has a sixth element. *)
Theorem ReadObservations_value_carried (lines : list json.text)
        (out : list Observation.t) :
  ReadObservations lines = Ok out ->
  length out = length lines
  /\ forall i l,
      lines !! i = Some (json.Doc (json.Array l)) ->
      (length l < 6)%nat ->
      exists o,
        out !! i = Some o
        /\ Observation.Value o
           = match i with
             | O => 0
             | S j => default 0 (Observation.Value <$> out !! j)
             end.
Proof.
  unfold ReadObservations. intros H.
  destruct (ReadObservations_lines_spec _ _ _ _ H) as (dec & -> & Hlen & Hdec).
  cbn [app]. split; [exact Hlen|].
  intros i l Hi Hshort.
  destruct (Hdec i _ Hi) as (prev & o & Ho & Hu & Hprev).
  exists o. split; [exact Ho|].
  rewrite (UnmarshalJSON_short _ _ _ Hu Hshort).
  destruct i as [|j]; [subst prev; reflexivity|].
  rewrite Hprev. reflexivity.
Qed.

(** On the line of the package's test with the value 7, followed by the
    same line without a value: the second observation has the value 7. *)
Lemma ReadObservations_value_carried_sample :
  Observation.Value
  <$> ([ Sample.read_obs 7; Sample.read_obs 7 ] : list Observation.t) !! 1%nat
  = Some 7
  /\ ReadObservations
       [ json.Doc (json.Array
                     (Sample.obs_line
                        ++ [json.Number (strconv.float64_of_int 7)]));
         json.Doc (json.Array Sample.obs_line) ]
     = Ok [ Sample.read_obs 7; Sample.read_obs 7 ].
Proof.
  assert (H : ReadObservations
                [ json.Doc (json.Array
                              (Sample.obs_line
                                 ++ [json.Number (strconv.float64_of_int 7)]));
                  json.Doc (json.Array Sample.obs_line) ]
              = Ok [ Sample.read_obs 7; Sample.read_obs 7 ])
    by (vm_compute; reflexivity).
  destruct (ReadObservations_value_carried _ _ H) as [_ Hcarry].
  destruct (Hcarry 1%nat Sample.obs_line eq_refl ltac:(simpl; lia))
    as (o & Ho & Hv).
  split; [|exact H]. rewrite Ho. simpl. rewrite Hv. reflexivity.
Defined.

(** An observation that comes back from its line: with a path and a
    condition whose strings are valid UTF-8, a set id and a value other than
    0 below a million in magnitude, and its instants in the years 0 to
    9999. *)
Lemma read_back_spec (obs : Observation.t) :
  read_back obs = true ->
  exists p c,
    Observation.Path_ obs = Some p /\ Observation.Condition_ obs = Some c
    /\ utf8.ValidString (Path.String_ p) = true
    /\ utf8.ValidString (Condition.Name c) = true
    /\ Z.abs (Observation.SetID obs) < 1000000
    /\ 0 < Z.abs (Observation.Value obs) < 1000000
    /\ wire_time (time.UTC (Observation.Start obs)) = true
    /\ wire_time (time.UTC (Observation.End_ obs)) = true.
Proof.
  unfold read_back.
  destruct (Observation.Path_ obs) as [p|]; [|discriminate].
  destruct (Observation.Condition_ obs) as [c|]; [|discriminate].
  rewrite !andb_true_iff. intros ((((((Vp & Vc) & Hs) & Hv0) & Hv) & H1) & H2).
  exists p, c. apply Z.ltb_lt in Hs, Hv0, Hv. repeat split; assumption.
Qed.

(** The loop of [ReadObservations] on the lines written for observations
    that all have a value. *)
Lemma ReadObservations_lines_written (obsdat : list Observation.t) :
  forall prev out0,
    Forall (fun obs => read_back obs = true) obsdat ->
    Observation.Set_ prev = None -> Observation.PathID prev = 0 ->
    Observation.ConditionID prev = 0 ->
    exists lines,
      MarshalObservations obsdat = Some lines
      /\ length lines = length obsdat
      /\ ReadObservations_lines prev lines out0
         = Ok (out0 ++ map as_read obsdat)%list.
Proof.
  induction obsdat as [|obs obsdat IH]; intros prev out0 Hall Hs Hp Hc.
  - exists []. split; [reflexivity|]. split; [reflexivity|].
    simpl. rewrite app_nil_r. reflexivity.
  - inversion Hall as [|? ? Hobs Hrest]; subst.
    destruct (read_back_spec obs Hobs)
      as (p & c & Hpath & Hcond & Vp & Vc & Hset & Hval & H1 & H2).
    destruct (UnmarshalJSON_MarshalJSON prev obs p c Hpath Hcond Hset
                                        ltac:(lia) H1 H2 Vp Vc) as (b & Hb & Hu).
    destruct (decide (Observation.Value obs = 0)) as [E|_]; [lia|].
    rewrite Hs, Hp, Hc in Hu.
    set (o1 := Observation.mk
                 0 (Observation.SetID obs) None
                 (whole_second (time.UTC (Observation.Start obs)))
                 (whole_second (time.UTC (Observation.End_ obs)))
                 0 (Some (Path.mk 0 (Path.String_ p)))
                 0 (Some (Condition.mk 0 (Condition.Name c)))
                 (Observation.Value obs)) in *.
    destruct (IH o1 (out0 ++ [o1])%list Hrest eq_refl eq_refl eq_refl)
      as (lines & Hlines & Hlen & Hread).
    exists (b :: lines). split; [|split].
    + cbn [MarshalObservations]. rewrite Hb, Hlines. reflexivity.
    + simpl. rewrite Hlen. reflexivity.
    + cbn [ReadObservations_lines]. rewrite Hu, Hread, <- app_assoc.
      cbn [map app]. unfold as_read at 2. rewrite Hpath, Hcond. reflexivity.
Qed.

(** The scanner yields every line of an input whose lines all fit its
    buffer, and the lines before the first one that does not. *)
Lemma Scanner_lines_fit (lines : list json.text) :
  forall sizes : list nat,
    length sizes = length lines ->
    Forall (fun n => (n < MaxScanTokenSize)%nat) sizes ->
    Scanner_lines (zip sizes lines) = lines.
Proof.
  induction lines as [|b lines IH]; intros [|n sizes] Hlen Hfit;
    try discriminate Hlen; [reflexivity|].
  inversion Hfit as [|? ? Hn Hrest]; subst.
  cbn [zip zip_with Scanner_lines].
  apply Nat.ltb_lt in Hn. rewrite Hn, IH; [reflexivity| |exact Hrest].
  simpl in Hlen. lia.
Qed.

Lemma Scanner_lines_stop (lines : list json.text) :
  forall (sizes : list nat) (k n : nat),
    length sizes = length lines ->
    Forall (fun n => (n < MaxScanTokenSize)%nat) (take k sizes) ->
    sizes !! k = Some n -> (MaxScanTokenSize <= n)%nat ->
    Scanner_lines (zip sizes lines) = take k lines.
Proof.
  induction lines as [|b lines IH]; intros [|n0 sizes] k n Hlen Hfit Hk Hn;
    try discriminate Hlen; [discriminate Hk|].
  cbn [zip zip_with Scanner_lines]. destruct k as [|k].
  - injection Hk as ->. apply Nat.ltb_ge in Hn. rewrite Hn. reflexivity.
  - cbn [take] in Hfit. inversion Hfit as [|? ? Hn0 Hrest]; subst.
    apply Nat.ltb_lt in Hn0. rewrite Hn0. cbn [take]. f_equal.
    apply (IH sizes k n); [simpl in Hlen; lia | exact Hrest | exact Hk | exact Hn].
Qed.

Lemma MarshalObservations_take (obsdat : list Observation.t) :
  forall (lines : list json.text) (k : nat),
    MarshalObservations obsdat = Some lines ->
    MarshalObservations (take k obsdat) = Some (take k lines).
Proof.
  induction obsdat as [|obs obsdat IH]; intros lines k H.
  - injection H as <-. rewrite !take_nil. reflexivity.
  - cbn [MarshalObservations] in H.
    destruct (Observation.MarshalJSON obs) as [b|] eqn:Hb; [|discriminate H].
    destruct (MarshalObservations obsdat) as [ls|] eqn:Hls; [|discriminate H].
    injection H as <-. destruct k as [|k]; [reflexivity|].
    cbn [take MarshalObservations]. rewrite Hb, (IH ls k eq_refl). reflexivity.
Qed.

(** A list of observations that all have a value, with path strings and
    condition names that are valid UTF-8, written by [MarshalObservations]
    and read back by [UnmarshalObservations], comes back in its fields on the
    wire (set id, path string, condition name and value as they were, start
    and end as instants of UTC without their fraction of a second, the ids
    of the rows 0) when every line written is shorter than the buffer of the
    scanner.  At the first line that is not, the reading ends without an
    error: the observations before that line are returned.  ([sizes] are the
    numbers of bytes of the lines written.) *)
Theorem ReadObservations_MarshalObservations (obsdat : list Observation.t)
        (sizes : list nat) :
  Forall (fun obs => read_back obs = true) obsdat ->
  length sizes = length obsdat ->
  exists lines,
    MarshalObservations obsdat = Some lines
    /\ (Forall (fun n => (n < MaxScanTokenSize)%nat) sizes ->
        UnmarshalObservations (zip sizes lines) = Ok (map as_read obsdat))
    /\ (forall k n : nat,
           Forall (fun n => (n < MaxScanTokenSize)%nat) (take k sizes) ->
           sizes !! k = Some n -> (MaxScanTokenSize <= n)%nat ->
           UnmarshalObservations (zip sizes lines)
           = Ok (map as_read (take k obsdat))).
Proof.
  intros Hall Hlen. unfold UnmarshalObservations, ReadObservations.
  destruct (ReadObservations_lines_written obsdat Observation.zero [] Hall)
    as (lines & Hl & Hn & Hr); try reflexivity.
  exists lines. split; [exact Hl|]. split.
  - intros Hfit.
    rewrite (Scanner_lines_fit lines sizes) by (assumption || lia). exact Hr.
  - intros k n Hfit Hk Hbig.
    rewrite (Scanner_lines_stop lines sizes k n) by (assumption || lia).
    destruct (ReadObservations_lines_written
                (take k obsdat) Observation.zero [])
      as (lines' & Hl' & _ & Hr'); try reflexivity.
    { apply Forall_take. exact Hall. }
    rewrite (MarshalObservations_take obsdat lines k Hl) in Hl'.
    injection Hl' as <-. exact Hr'.
Qed.

(** Two observations of the package's test, with the values 5 and 7, each
    written in a line of 92 bytes; and the same two when the second line is
    taken to be as long as the buffer. *)
Lemma ReadObservations_MarshalObservations_sample :
  exists lines,
    MarshalObservations [Sample.obs 1 5; Sample.obs 2 7] = Some lines
    /\ Observation.Value
         <$> default [] (match UnmarshalObservations (zip [92; 92]%nat lines) with
                         | Ok out => Some out
                         | Err _ => None
                         end)
       = [5; 7]
    /\ UnmarshalObservations (zip [92; MaxScanTokenSize]%nat lines)
       = Ok [as_read (Sample.obs 1 5)].
Proof.
  destruct (ReadObservations_MarshalObservations
              [Sample.obs 1 5; Sample.obs 2 7] [92; 92]%nat)
    as (lines & Hl & Hr & _).
  - repeat constructor.
  - reflexivity.
  - exists lines. split; [exact Hl|]. split.
    + rewrite Hr; [reflexivity|].
      repeat (apply Forall_cons_2; [unfold MaxScanTokenSize; lia|]).
      apply Forall_nil_2.
    + destruct (ReadObservations_MarshalObservations
                  [Sample.obs 1 5; Sample.obs 2 7] [92; MaxScanTokenSize]%nat)
        as (lines' & Hl' & _ & Hstop).
      * repeat constructor.
      * reflexivity.
      * rewrite Hl in Hl'. injection Hl' as <-.
        apply (Hstop 1%nat MaxScanTokenSize).
        -- apply Forall_cons_2; [unfold MaxScanTokenSize; lia | apply Forall_nil_2].
        -- reflexivity.
        -- lia.
Defined.

(** ** Observations: the length of the array *)

(** [Observation.UnmarshalJSON] reads the first six elements of the array
    and no more: what follows them changes nothing.  An array of fewer than
    five elements, and null, are refused, with the observation as it was. *)
Theorem Observation_UnmarshalJSON_arity (obs : Observation.t)
        (l extra : list json.value) :
  ((6 <= length l)%nat ->
   Observation.UnmarshalJSON obs (json.Doc (json.Array (l ++ extra)))
   = Observation.UnmarshalJSON obs (json.Doc (json.Array l)))
  /\ ((length l < 5)%nat ->
      Observation.UnmarshalJSON obs (json.Doc (json.Array l))
      = (obs, Some (OtherError "Observation requires at least five elements")))
  /\ Observation.UnmarshalJSON obs (json.Doc json.Null)
     = (obs, Some (OtherError "Observation requires at least five elements")).
Proof.
  split; [|split; [|reflexivity]].
  - intros Hlen. unfold Observation.UnmarshalJSON. cbn [json.Unmarshal_slice].
    rewrite !length_map, length_app.
    assert (Hnth : forall i, (i < 6)%nat ->
                             Observation.nth_iface (map json.decode (l ++ extra)) i
                             = Observation.nth_iface (map json.decode l) i).
    { intros i Hi. unfold Observation.nth_iface. rewrite map_app.
      apply app_nth1. rewrite length_map. lia. }
    rewrite !Hnth by lia.
    destruct (length l + length extra <? 5)%nat eqn:E1;
      [apply Nat.ltb_lt in E1; lia|].
    destruct (length l <? 5)%nat eqn:E2; [apply Nat.ltb_lt in E2; lia|].
    destruct (6 <=? length l + length extra)%nat eqn:E3;
      [|apply Nat.leb_gt in E3; lia].
    destruct (6 <=? length l)%nat eqn:E4; [|apply Nat.leb_gt in E4; lia].
    reflexivity.
  - intros Hlen. unfold Observation.UnmarshalJSON. cbn [json.Unmarshal_slice].
    rewrite length_map.
    destruct (length l <? 5)%nat eqn:E; [reflexivity|].
    apply Nat.ltb_ge in E. lia.
Qed.

(** The line of the test with a value and a seventh element. *)
Lemma Observation_UnmarshalJSON_arity_sample :
  Observation.UnmarshalJSON
    Observation.zero
    (json.Doc (json.Array
                 ((Sample.obs_line ++ [json.Number (strconv.float64_of_int 7)])
                    ++ [json.String_ "more"])))
  = (Sample.read_obs 7, None).
Proof.
  destruct (Observation_UnmarshalJSON_arity
              Observation.zero
              (Sample.obs_line ++ [json.Number (strconv.float64_of_int 7)])
              [json.String_ "more"]) as [Hsix _].
  rewrite Hsix; [vm_compute; reflexivity | simpl; lia].
Defined.

(** ** Observation sets: what a decoded set holds *)

Lemma ObservationSet_member_keeps (set set' : ObservationSet.t) (k : string)
      (v : iface) (err : option error) :
  ObservationSet.UnmarshalJSON_member set k v = (set', err) ->
  (forall k0 v0, ObservationSet.Metadata set !! k0 = Some v0 ->
                 extension_key k0 = true) ->
  ObservationSet.ID set' = ObservationSet.ID set
  /\ ObservationSet.link set' = ObservationSet.link set
  /\ ObservationSet.datalink set' = ObservationSet.datalink set
  /\ ObservationSet.count set' = ObservationSet.count set
  /\ (forall k0 v0, ObservationSet.Metadata set' !! k0 = Some v0 ->
                    extension_key k0 = true).
Proof.
  unfold ObservationSet.UnmarshalJSON_member, extension_key. intros H Hinv.
  destruct (String.eqb k "_sources") eqn:E1.
  { destruct (AsStringArray v) as [sources ok]. injection H as <- <-.
    repeat split. exact Hinv. }
  destruct (String.eqb k "_analyzer") eqn:E2.
  { injection H as <- <-. repeat split. exact Hinv. }
  destruct (strings.HasPrefix k "__") eqn:E3.
  { injection H as <- <-. repeat split. exact Hinv. }
  injection H as <- <-. repeat split. cbn [ObservationSet.Metadata].
  intros k0 v0 Hk0. destruct (decide (k0 = k)) as [->|Hne].
  - rewrite E1, E2, E3. reflexivity.
  - rewrite lookup_insert_ne in Hk0 by congruence. exact (Hinv k0 v0 Hk0).
Qed.

Lemma ObservationSet_members_keep (l : list (string * iface)) :
  forall (set set' : ObservationSet.t) (err : option error),
    ObservationSet.UnmarshalJSON_members set l = (set', err) ->
    (forall k0 v0, ObservationSet.Metadata set !! k0 = Some v0 ->
                   extension_key k0 = true) ->
    ObservationSet.ID set' = ObservationSet.ID set
    /\ ObservationSet.link set' = ObservationSet.link set
    /\ ObservationSet.datalink set' = ObservationSet.datalink set
    /\ ObservationSet.count set' = ObservationSet.count set
    /\ (forall k0 v0, ObservationSet.Metadata set' !! k0 = Some v0 ->
                      extension_key k0 = true).
Proof.
  induction l as [|[k v] l IH]; intros set set' err H Hinv.
  - injection H as <- <-. repeat split. exact Hinv.
  - cbn [ObservationSet.UnmarshalJSON_members] in H.
    destruct (ObservationSet.UnmarshalJSON_member set k v) as [set1 e1] eqn:E.
    destruct (ObservationSet_member_keeps _ _ _ _ _ E Hinv)
      as (Hid & Hl & Hd & Hc & Hm).
    destruct e1 as [e|].
    + injection H as <- <-. repeat split; assumption.
    + destruct (IH _ _ _ H Hm) as (Hid' & Hl' & Hd' & Hc' & Hm').
      rewrite Hid', Hl', Hd', Hc'. repeat split; assumption.
Qed.

(** Whatever JSON text is decoded into whatever set: when
    [ObservationSet.UnmarshalJSON] returns no error, the set has the id 0,
    sources and an analyzer, and in its metadata only extension keys (never
    [_sources], [_analyzer] or a key that starts with [__]); its links and
    its count are what they were, whatever the text holds for [__link],
    [__data] and [__obs_count]. *)
Theorem ObservationSet_UnmarshalJSON_wellformed (set set' : ObservationSet.t)
        (b : json.text) :
  ObservationSet.UnmarshalJSON set b = (set', None) ->
  ObservationSet.ID set' = 0
  /\ ObservationSet.Sources set' <> None
  /\ ObservationSet.Analyzer set' <> ""
  /\ (forall k v, ObservationSet.Metadata set' !! k = Some v ->
                  extension_key k = true)
  /\ ObservationSet.link set' = ObservationSet.link set
  /\ ObservationSet.datalink set' = ObservationSet.datalink set
  /\ ObservationSet.count set' = ObservationSet.count set.
Proof.
  unfold ObservationSet.UnmarshalJSON. intros H.
  destruct (json.Unmarshal_map b) as [jmap|]; [|discriminate H].
  cbn [ObservationSet.Sources ObservationSet.Analyzer ObservationSet.Metadata
       ObservationSet.datalink ObservationSet.link ObservationSet.count] in H.
  destruct (ObservationSet.UnmarshalJSON_members _ (map_to_list jmap))
    as [set1 e1] eqn:E.
  apply ObservationSet_members_keep in E;
    [|cbn [ObservationSet.Metadata]; intros k0 v0 Hk;
      rewrite lookup_empty in Hk; discriminate Hk].
  cbn [ObservationSet.ID ObservationSet.link ObservationSet.datalink
       ObservationSet.count] in E.
  destruct E as (Hid & Hl & Hd & Hc & Hm).
  destruct e1 as [e|]; [discriminate H|].
  destruct (ObservationSet.Sources set1) as [srcs|] eqn:Es; [|discriminate H].
  destruct (decide (ObservationSet.Analyzer set1 = "")) as [Ea|Ea];
    [discriminate H|].
  injection H as <-. rewrite Es. repeat split; try assumption. discriminate.
Qed.

(** On the set of the package's test, written with links and a count and
    read into a fresh set. *)
Lemma ObservationSet_UnmarshalJSON_wellformed_sample :
  ObservationSet.link
    (fst (ObservationSet.UnmarshalJSON
            ObservationSet.zero
            (ObservationSet.MarshalJSON Sample.linked_obsset))) = ""
  /\ ObservationSet.count
       (fst (ObservationSet.UnmarshalJSON
               ObservationSet.zero
               (ObservationSet.MarshalJSON Sample.linked_obsset))) = 0.
Proof.
  assert (H : snd (ObservationSet.UnmarshalJSON
                     ObservationSet.zero
                     (ObservationSet.MarshalJSON Sample.linked_obsset)) = None)
    by (vm_compute; reflexivity).
  destruct (ObservationSet.UnmarshalJSON
              ObservationSet.zero
              (ObservationSet.MarshalJSON Sample.linked_obsset))
    as [set' err] eqn:E.
  simpl in H. subst err.
  destruct (ObservationSet_UnmarshalJSON_wellformed _ _ _ E)
    as (_ & _ & _ & _ & Hl & _ & Hc).
  split; [exact Hl | exact Hc].
Defined.

Lemma ObservationSet_members_bad_sources (l : list (string * iface)) :
  forall (set : ObservationSet.t) (v : iface),
    ("_sources", v) ∈ l ->
    snd (AsStringArray v) = false ->
    NoDup l.*1 ->
    snd (ObservationSet.UnmarshalJSON_members set l)
    = Some (OtherError "_sources not a string array").
Proof.
  induction l as [|[k v0] l IH]; intros set v Hin Hbad Hnd.
  - apply elem_of_nil in Hin. contradiction.
  - cbn [fmap list_fmap fst] in Hnd. apply NoDup_cons in Hnd as [Hk Hnd].
    cbn [ObservationSet.UnmarshalJSON_members].
    apply elem_of_cons in Hin as [Heq|Hin].
    + injection Heq as <- <-.
      unfold ObservationSet.UnmarshalJSON_member.
      change (String.eqb "_sources" "_sources") with true. cbv iota.
      destruct (AsStringArray v) as [sources ok]. simpl in Hbad. subst ok.
      reflexivity.
    + assert (Hne : k <> "_sources").
      { intros ->. apply Hk. apply list_elem_of_fmap.
        exists ("_sources", v). split; [reflexivity | exact Hin]. }
      destruct (ObservationSet.UnmarshalJSON_member set k v0) as [set1 e1] eqn:E.
      assert (e1 = None) as ->.
      { unfold ObservationSet.UnmarshalJSON_member in E.
        destruct (String.eqb_spec k "_sources") as [->|_]; [contradiction|].
        destruct (String.eqb k "_analyzer"); [injection E as _ <-; reflexivity|].
        destruct (strings.HasPrefix k "__"); injection E as _ <-; reflexivity. }
      exact (IH set1 v Hin Hbad Hnd).
Qed.

(** What [ObservationSet.UnmarshalJSON] asks of an object (written here
    without a key twice), decoded into a fresh set.  Without [_sources]:
    an error.  With [_sources] a string or an array: the error is that of
    the analyzer, missing when [_analyzer] is absent or prints as the empty
    string.  With any other [_sources] (null, a number, an object): an
    error. *)
Theorem ObservationSet_UnmarshalJSON_requires (m : list (string * json.value)) :
  NoDup m.*1 ->
  snd (ObservationSet.UnmarshalJSON ObservationSet.zero (json.Doc (json.Object m)))
  = match (list_to_map m : gmap string json.value) !! "_sources" with
    | None => Some (OtherError "ObservationSet missing _sources")
    | Some (json.String_ _) | Some (json.Array _) =>
      match (list_to_map m : gmap string json.value) !! "_analyzer" with
      | None => Some (OtherError "ObservationSet missing _analyzer")
      | Some v =>
        if decide (AsString (json.decode v) = "") then
          Some (OtherError "ObservationSet missing _analyzer")
        else None
      end
    | Some _ => Some (OtherError "_sources not a string array")
    end.
Proof.
  intros Hnd. unfold ObservationSet.UnmarshalJSON.
  cbn [json.Unmarshal_map].
  rewrite (fold_left_insert_union json.decode m ∅ Hnd).
  rewrite (right_id_L ∅ (∪)).
  set (jm := json.decode <$> (list_to_map m : gmap string json.value)).
  cbn [ObservationSet.Sources ObservationSet.Analyzer ObservationSet.Metadata
       ObservationSet.datalink ObservationSet.link ObservationSet.count
       ObservationSet.ID ObservationSet.zero].
  assert (Hjs : jm !! "_sources"
                = json.decode <$> (list_to_map m : gmap string json.value)
                                    !! "_sources")
    by (unfold jm; apply lookup_fmap).
  assert (Hja : jm !! "_analyzer"
                = json.decode <$> (list_to_map m : gmap string json.value)
                                    !! "_analyzer")
    by (unfold jm; apply lookup_fmap).
  destruct ((list_to_map m : gmap string json.value) !! "_sources")
    as [vs|] eqn:Es.
  - destruct (snd (AsStringArray (json.decode vs))) eqn:Eok.
    + destruct (ObservationSet_members_spec
                  (map_to_list jm) (ObservationSet.mk 0 None "" ∅ "" "" 0))
        as (set' & Hrun & _ & Hsrc & Han & _).
      { apply NoDup_fst_map_to_list. }
      { rewrite list_to_map_to_list, Hjs. intros v H. injection H as <-.
        exact Eok. }
      rewrite list_to_map_to_list in Hsrc, Han.
      rewrite Hjs in Hsrc. rewrite Hja in Han. cbn [fmap option_fmap option_map] in Hsrc.
      rewrite Hrun.
      destruct vs; try discriminate Eok; cbn [json.decode AsStringArray fst] in Hsrc;
        rewrite Hsrc;
        (destruct ((list_to_map m : gmap string json.value) !! "_analyzer")
           as [va|];
         cbn [fmap option_fmap option_map ObservationSet.Analyzer] in Han;
         rewrite Han;
         [destruct (decide (AsString (json.decode va) = "")); reflexivity
         | reflexivity]).
    + pose proof (ObservationSet_members_bad_sources
                    (map_to_list jm) (ObservationSet.mk 0 None "" ∅ "" "" 0)
                    (json.decode vs)) as Hbad.
      destruct (ObservationSet.UnmarshalJSON_members
                  (ObservationSet.mk 0 None "" ∅ "" "" 0) (map_to_list jm))
        as [set1 e1].
      cbn [snd] in Hbad. rewrite Hbad.
      * destruct vs; try reflexivity; discriminate Eok.
      * apply elem_of_map_to_list. rewrite Hjs. reflexivity.
      * exact Eok.
      * apply NoDup_fst_map_to_list.
  - destruct (ObservationSet_members_spec
                (map_to_list jm) (ObservationSet.mk 0 None "" ∅ "" "" 0))
      as (set' & Hrun & _ & Hsrc & _).
    { apply NoDup_fst_map_to_list. }
    { rewrite list_to_map_to_list, Hjs. intros v H. discriminate H. }
    rewrite list_to_map_to_list, Hjs in Hsrc. cbn in Hsrc.
    rewrite Hrun, Hsrc. reflexivity.
Qed.

(** An object with an analyzer and no sources. *)
Lemma ObservationSet_UnmarshalJSON_requires_sample :
  snd (ObservationSet.UnmarshalJSON
         ObservationSet.zero
         (json.Doc (json.Object [("_analyzer", json.String_ "a")])))
  = Some (OtherError "ObservationSet missing _sources").
Proof.
  rewrite (ObservationSet_UnmarshalJSON_requires
             [("_analyzer", json.String_ "a")]).
  - reflexivity.
  - repeat constructor. intros H. apply elem_of_nil in H. exact H.
Defined.

(** The loop of [UnmarshalJSON] over an object whose time stamps parse:
    each field is read from its key, the arbitrary metadata from the keys
    that are neither required nor derived. *)
Lemma RawMetadata_members_spec (l : list (string * iface)) :
  forall md : RawMetadata,
    NoDup l.*1 ->
    (forall v, (list_to_map l : gmap string iface) !! "_time_start" = Some v ->
               exists t, AsTime v = Ok t) ->
    (forall v, (list_to_map l : gmap string iface) !! "_time_end" = Some v ->
               exists t, AsTime v = Ok t) ->
    exists md',
      UnmarshalJSON_members md l = Ok md'
      /\ Parent md' = Parent md
      /\ datalink md' = datalink md /\ datasize md' = datasize md
      /\ creatime md' = creatime md /\ modtime md' = modtime md
      /\ filetype md'
         = match (list_to_map l : gmap string iface) !! "_file_type" with
           | Some v => AsString v
           | None => filetype md
           end
      /\ owner md'
         = match (list_to_map l : gmap string iface) !! "_owner" with
           | Some v => AsString v
           | None => owner md
           end
      /\ timeStart md'
         = match (list_to_map l : gmap string iface) !! "_time_start" with
           | Some v => match AsTime v with Ok t => Some t | Err _ => None end
           | None => timeStart md
           end
      /\ timeEnd md'
         = match (list_to_map l : gmap string iface) !! "_time_end" with
           | Some v => match AsTime v with Ok t => Some t | Err _ => None end
           | None => timeEnd md
           end
      /\ forall k,
          Metadata md' !! k
          = if metadata_key k then
              match (list_to_map l : gmap string iface) !! k with
              | Some v => Some (AsString v)
              | None => Metadata md !! k
              end
            else Metadata md !! k.
Proof.
  induction l as [|[k v] l IH]; intros md Hnd Hts Hte.
  - exists md. cbn [list_to_map foldr]. rewrite !lookup_empty.
    repeat split. intros k. rewrite lookup_empty.
    destruct (metadata_key k); reflexivity.
  - rewrite fmap_cons in Hnd. apply NoDup_cons in Hnd as [Hk Hnd].
    cbn [fst] in Hk.
    pose proof (not_elem_of_list_to_map_1 (M := gmap string) _ _ Hk) as Hnone.
    rewrite list_to_map_cons in Hts, Hte |- *.
    cbn [UnmarshalJSON_members]. unfold UnmarshalJSON_member.
    destruct (String.eqb_spec k "_file_type") as [->|Hk1].
    { destruct (IH (set_filetype md (AsString v)) Hnd)
        as (md' & Hrun & HP & H1 & H2 & H3 & H4 & Hf & Ho & Hs & He & Hm).
      { intros v' Hv'. apply Hts. rewrite lookup_insert_ne by discriminate.
        exact Hv'. }
      { intros v' Hv'. apply Hte. rewrite lookup_insert_ne by discriminate.
        exact Hv'. }
      exists md'. rewrite Hrun, HP, H1, H2, H3, H4, Hf, Ho, Hs, He, Hnone.
      rewrite lookup_insert_eq, !lookup_insert_ne by discriminate.
      repeat split. intros k. rewrite Hm.
      destruct (metadata_key k) eqn:Ek; [|reflexivity].
      rewrite lookup_insert_ne; [reflexivity|]. intros <-. discriminate Ek. }
    destruct (String.eqb_spec k "_owner") as [->|Hk2].
    { destruct (IH (set_owner md (AsString v)) Hnd)
        as (md' & Hrun & HP & H1 & H2 & H3 & H4 & Hf & Ho & Hs & He & Hm).
      { intros v' Hv'. apply Hts. rewrite lookup_insert_ne by discriminate.
        exact Hv'. }
      { intros v' Hv'. apply Hte. rewrite lookup_insert_ne by discriminate.
        exact Hv'. }
      exists md'. rewrite Hrun, HP, H1, H2, H3, H4, Hf, Ho, Hs, He, Hnone.
      rewrite lookup_insert_eq, !lookup_insert_ne by discriminate.
      repeat split. intros k. rewrite Hm.
      destruct (metadata_key k) eqn:Ek; [|reflexivity].
      rewrite lookup_insert_ne; [reflexivity|]. intros <-. discriminate Ek. }
    destruct (String.eqb_spec k "_time_start") as [->|Hk3].
    { destruct (Hts v (lookup_insert_eq _ _ _)) as [t Ht]. rewrite Ht.
      destruct (IH (set_timeStart md (Some t)) Hnd)
        as (md' & Hrun & HP & H1 & H2 & H3 & H4 & Hf & Ho & Hs & He & Hm).
      { intros v' Hv'. rewrite Hnone in Hv'. discriminate Hv'. }
      { intros v' Hv'. apply Hte. rewrite lookup_insert_ne by discriminate.
        exact Hv'. }
      exists md'. rewrite Hrun, HP, H1, H2, H3, H4, Hf, Ho, Hs, He, Hnone.
      rewrite lookup_insert_eq, !lookup_insert_ne by discriminate. rewrite Ht.
      repeat split. intros k. rewrite Hm.
      destruct (metadata_key k) eqn:Ek; [|reflexivity].
      rewrite lookup_insert_ne; [reflexivity|]. intros <-. discriminate Ek. }
    destruct (String.eqb_spec k "_time_end") as [->|Hk4].
    { destruct (Hte v (lookup_insert_eq _ _ _)) as [t Ht]. rewrite Ht.
      destruct (IH (set_timeEnd md (Some t)) Hnd)
        as (md' & Hrun & HP & H1 & H2 & H3 & H4 & Hf & Ho & Hs & He & Hm).
      { intros v' Hv'. apply Hts. rewrite lookup_insert_ne by discriminate.
        exact Hv'. }
      { intros v' Hv'. rewrite Hnone in Hv'. discriminate Hv'. }
      exists md'. rewrite Hrun, HP, H1, H2, H3, H4, Hf, Ho, Hs, He, Hnone.
      rewrite lookup_insert_eq, !lookup_insert_ne by discriminate. rewrite Ht.
      repeat split. intros k. rewrite Hm.
      destruct (metadata_key k) eqn:Ek; [|reflexivity].
      rewrite lookup_insert_ne; [reflexivity|]. intros <-. discriminate Ek. }
    assert (Hother : forall md1,
               (forall k0, Metadata md1 !! k0
                           = if metadata_key k0 && String.eqb k0 k
                             then Some (AsString v) else Metadata md !! k0) ->
               Parent md1 = Parent md -> datalink md1 = datalink md ->
               datasize md1 = datasize md -> creatime md1 = creatime md ->
               modtime md1 = modtime md -> filetype md1 = filetype md ->
               owner md1 = owner md -> timeStart md1 = timeStart md ->
               timeEnd md1 = timeEnd md ->
               exists md',
                 UnmarshalJSON_members md1 l = Ok md'
                 /\ Parent md' = Parent md
                 /\ datalink md' = datalink md /\ datasize md' = datasize md
                 /\ creatime md' = creatime md /\ modtime md' = modtime md
                 /\ filetype md'
                    = match (<[k:=v]> (list_to_map l) : gmap string iface)
                              !! "_file_type" with
                      | Some v => AsString v
                      | None => filetype md
                      end
                 /\ owner md'
                    = match (<[k:=v]> (list_to_map l) : gmap string iface)
                              !! "_owner" with
                      | Some v => AsString v
                      | None => owner md
                      end
                 /\ timeStart md'
                    = match (<[k:=v]> (list_to_map l) : gmap string iface)
                              !! "_time_start" with
                      | Some v =>
                        match AsTime v with Ok t => Some t | Err _ => None end
                      | None => timeStart md
                      end
                 /\ timeEnd md'
                    = match (<[k:=v]> (list_to_map l) : gmap string iface)
                              !! "_time_end" with
                      | Some v =>
                        match AsTime v with Ok t => Some t | Err _ => None end
                      | None => timeEnd md
                      end
                 /\ forall k0,
                     Metadata md' !! k0
                     = if metadata_key k0 then
                         match (<[k:=v]> (list_to_map l) : gmap string iface)
                                 !! k0 with
                         | Some v => Some (AsString v)
                         | None => Metadata md !! k0
                         end
                       else Metadata md !! k0).
    { intros md1 Hmeta E0 E1 E2 E3 E4 E5 E6 E7 E8.
      destruct (IH md1 Hnd)
        as (md' & Hrun & HP & H1 & H2 & H3 & H4 & Hf & Ho & Hs & He & Hm).
      { intros v' Hv'. apply Hts. rewrite lookup_insert_ne by congruence.
        exact Hv'. }
      { intros v' Hv'. apply Hte. rewrite lookup_insert_ne by congruence.
        exact Hv'. }
      exists md'. rewrite Hrun, HP, H1, H2, H3, H4, Hf, Ho, Hs, He.
      rewrite !lookup_insert_ne by congruence.
      rewrite E0, E1, E2, E3, E4, E5, E6, E7, E8.
      repeat split. intros k0. rewrite Hm, Hmeta.
      destruct (metadata_key k0) eqn:Ek; [|reflexivity]. cbn [andb].
      destruct (String.eqb_spec k0 k) as [->|Hne].
      - rewrite lookup_insert_eq, Hnone. reflexivity.
      - rewrite lookup_insert_ne by congruence. reflexivity. }
    destruct (strings.HasPrefix k "__") eqn:Epre.
    + apply Hother; try reflexivity.
      intros k0. destruct (String.eqb_spec k0 k) as [->|_];
        [|rewrite andb_false_r; reflexivity].
      unfold metadata_key. rewrite Epre, !andb_false_r. reflexivity.
    + apply Hother; try reflexivity.
      intros k0. cbn [Metadata set_Metadata].
      destruct (String.eqb_spec k0 k) as [->|Hne].
      * rewrite lookup_insert_eq. unfold metadata_key. rewrite Epre.
        destruct (String.eqb_spec k "_file_type"); [contradiction|].
        destruct (String.eqb_spec k "_owner"); [contradiction|].
        destruct (String.eqb_spec k "_time_start"); [contradiction|].
        destruct (String.eqb_spec k "_time_end"); [contradiction|].
        reflexivity.
      * rewrite lookup_insert_ne by congruence. rewrite andb_false_r.
        reflexivity.
Qed.

Lemma RawMetadata_member_keeps (md md' : RawMetadata) (k : string) (v : iface) :
  UnmarshalJSON_member md k v = Ok md' ->
  (forall k0 v0, Metadata md !! k0 = Some v0 -> metadata_key k0 = true) ->
  Parent md' = Parent md
  /\ datalink md' = datalink md /\ datasize md' = datasize md
  /\ creatime md' = creatime md /\ modtime md' = modtime md
  /\ (forall k0 v0, Metadata md' !! k0 = Some v0 -> metadata_key k0 = true).
Proof.
  unfold UnmarshalJSON_member, metadata_key. intros H Hinv.
  destruct (String.eqb k "_file_type") eqn:E1.
  { injection H as <-. repeat split. exact Hinv. }
  destruct (String.eqb k "_owner") eqn:E2.
  { injection H as <-. repeat split. exact Hinv. }
  destruct (String.eqb k "_time_start") eqn:E3.
  { destruct (AsTime v); [|discriminate H]. injection H as <-.
    repeat split. exact Hinv. }
  destruct (String.eqb k "_time_end") eqn:E4.
  { destruct (AsTime v); [|discriminate H]. injection H as <-.
    repeat split. exact Hinv. }
  destruct (strings.HasPrefix k "__") eqn:E5.
  { injection H as <-. repeat split. exact Hinv. }
  injection H as <-. repeat split. cbn [Metadata set_Metadata].
  intros k0 v0 Hk0. destruct (decide (k0 = k)) as [->|Hne].
  - rewrite E1, E2, E3, E4, E5. reflexivity.
  - rewrite lookup_insert_ne in Hk0 by congruence. exact (Hinv k0 v0 Hk0).
Qed.

Lemma RawMetadata_members_keep (l : list (string * iface)) :
  forall md md' : RawMetadata,
    UnmarshalJSON_members md l = Ok md' ->
    (forall k0 v0, Metadata md !! k0 = Some v0 -> metadata_key k0 = true) ->
    Parent md' = Parent md
    /\ datalink md' = datalink md /\ datasize md' = datasize md
    /\ creatime md' = creatime md /\ modtime md' = modtime md
    /\ (forall k0 v0, Metadata md' !! k0 = Some v0 -> metadata_key k0 = true).
Proof.
  induction l as [|[k v] l IH]; intros md md' H Hinv.
  - injection H as <-. repeat split. exact Hinv.
  - cbn [UnmarshalJSON_members] in H.
    destruct (UnmarshalJSON_member md k v) as [md1|e] eqn:E; [|discriminate H].
    destruct (RawMetadata_member_keeps _ _ _ _ E Hinv)
      as (HP & H1 & H2 & H3 & H4 & Hm).
    destruct (IH _ _ H Hm) as (HP' & H1' & H2' & H3' & H4' & Hm').
    rewrite HP', H1', H2', H3', H4'. repeat split; assumption.
Qed.

(** Whatever JSON text [RawMetadataFromReader] reads without error: the
    record is bound to the parent given; its link, size, creation and
    modification time are the zero values, whatever the text holds for
    [__data], [__data_size], [__created] and [__modified]; and its arbitrary
    metadata has no required key and no key that starts with [__]. *)
Theorem RawMetadataFromReader_derived (b : json.text)
        (parent : option RawMetadata) (md : RawMetadata) :
  RawMetadataFromReader b parent = Ok md ->
  Parent md = parent
  /\ datalink md = "" /\ datasize md = 0
  /\ creatime md = None /\ modtime md = None
  /\ (forall k v, Metadata md !! k = Some v -> metadata_key k = true).
Proof.
  unfold RawMetadataFromReader, UnmarshalJSON. intros H.
  destruct (json.Unmarshal_map b) as [jmap|]; [|discriminate H].
  destruct (UnmarshalJSON_members _ (map_to_list jmap)) as [md1|e] eqn:E;
    [|discriminate H].
  injection H as <-.
  apply RawMetadata_members_keep in E;
    [|cbn [Metadata set_Metadata]; intros k0 v0 Hk;
      rewrite lookup_empty in Hk; discriminate Hk].
  destruct E as (HP & H1 & H2 & H3 & H4 & Hm).
  cbn [Parent datalink datasize creatime modtime Metadata set_Parent].
  rewrite H1, H2, H3, H4. repeat split. exact Hm.
Qed.

(** On a metadata file that claims a size of its own. *)
Lemma RawMetadataFromReader_derived_sample :
  datasize
    (match RawMetadataFromReader Sample.sized_doc None with
     | Ok md => md
     | Err _ => RawMetadata_zero
     end) = 0
  /\ RawMetadataFromReader Sample.sized_doc None
     = Ok (mkRawMetadata None "x" "" None None ∅ "" 0 None None).
Proof.
  assert (H : RawMetadataFromReader Sample.sized_doc None
              = Ok (mkRawMetadata None "x" "" None None ∅ "" 0 None None))
    by (vm_compute; reflexivity).
  destruct (RawMetadataFromReader_derived _ _ _ H) as (_ & _ & Hsize & _).
  rewrite H. split; [exact Hsize | reflexivity].
Defined.

(** ** RawMetadata as JSON *)

Lemma fold_left_insert_lookup {B : Type} (f : string -> B) (l : list string) :
  forall (base : gmap string B) (k : string),
    fold_left (fun jmap k => <[k := f k]> jmap) l base !! k
    = if decide (k ∈ l) then Some (f k) else base !! k.
Proof.
  induction l as [|x l IH]; intros base k; cbn [fold_left].
  - destruct (decide (k ∈ [])) as [H|_]; [|reflexivity].
    apply elem_of_nil in H. contradiction.
  - rewrite IH. destruct (decide (k ∈ l)) as [Hin|Hnin].
    + rewrite decide_True by (apply elem_of_cons; right; exact Hin).
      reflexivity.
    + destruct (decide (k = x)) as [->|Hne].
      * rewrite decide_True by (apply elem_of_cons; left; reflexivity).
        apply lookup_insert_eq.
      * rewrite decide_False
          by (intros H; apply elem_of_cons in H as [?|?]; contradiction).
        apply lookup_insert_ne. congruence.
Qed.

Lemma elem_of_own_keys (m : gmap string string) (k : string) :
  k ∈ own_keys m <-> strings.HasPrefix k "__" = false /\ is_Some (m !! k).
Proof.
  unfold own_keys. rewrite elem_of_filter, elem_of_dom. reflexivity.
Qed.

Lemma elem_of_keymap (md : RawMetadata) (inherit : bool) (k : string) :
  k ∈ keymap md inherit
  <-> strings.HasPrefix k "__" = false
      /\ (is_Some (Metadata md !! k)
          \/ (inherit = true
              /\ exists parent,
                  Parent md = Some parent /\ is_Some (Metadata parent !! k))).
Proof.
  unfold keymap. rewrite elem_of_union, elem_of_own_keys.
  destruct inherit, (Parent md) as [parent|];
    rewrite ?elem_of_own_keys, ?elem_of_empty; split.
  - intros [[? ?]|[? ?]]; split; eauto 6.
  - intros [? [?|[_ (p & Hp & ?)]]]; [left; auto|].
    injection Hp as <-. right; auto.
  - intros [[? ?]|[]]; split; eauto.
  - intros [? [?|[_ (p & Hp & ?)]]]; [left; auto | discriminate Hp].
  - intros [[? ?]|[]]; split; eauto.
  - intros [? [?|[Hf _]]]; [left; auto | discriminate Hf].
  - intros [[? ?]|[]]; split; eauto.
  - intros [? [?|[Hf _]]]; [left; auto | discriminate Hf].
Qed.

Section RawMetadataJSON.

Variable range : gset string -> list string.
Hypothesis range_elements : forall S : gset string, range S ≡ₚ elements S.

Lemma elem_of_range_set (S : gset string) (k : string) : k ∈ range S <-> k ∈ S.
Proof. rewrite (range_elements S). apply elem_of_elements. Qed.

(** [Keys] lists every key of the arbitrary metadata, the record's own and
    with [inherit] those of its parent, once, and no key that starts with
    [__]. *)
Theorem Keys_spec (md : RawMetadata) (inherit : bool) :
  NoDup (Keys range md inherit)
  /\ forall k,
      k ∈ Keys range md inherit
      <-> strings.HasPrefix k "__" = false
          /\ (is_Some (Metadata md !! k)
              \/ (inherit = true
                  /\ exists parent,
                      Parent md = Some parent
                      /\ is_Some (Metadata parent !! k))).
Proof.
  unfold Keys. split.
  - rewrite (range_elements _). apply NoDup_elements.
  - intros k. rewrite elem_of_range_set. apply elem_of_keymap.
Qed.

Lemma lookup_insert_unless {P : Prop} `{Decision P} (m : gmap string iface)
      (k0 k : string) (v : iface) :
  (if decide P then m else <[k0 := v]> m) !! k
  = if String.eqb k k0 then (if decide P then m !! k0 else Some v) else m !! k.
Proof.
  destruct (String.eqb_spec k k0) as [->|Hne].
  - destruct (decide P); [reflexivity | apply lookup_insert_eq].
  - destruct (decide P); [reflexivity|]. apply lookup_insert_ne. congruence.
Qed.

Lemma lookup_insert_when {A : Type} (o : option A) (f : A -> iface)
      (m : gmap string iface) (k0 k : string) :
  match o with Some t => <[k0 := f t]> m | None => m end !! k
  = if String.eqb k k0
    then match o with Some t => Some (f t) | None => m !! k0 end
    else m !! k.
Proof.
  destruct (String.eqb_spec k k0) as [->|Hne].
  - destruct o; [apply lookup_insert_eq | reflexivity].
  - destruct o; [|reflexivity]. apply lookup_insert_ne. congruence.
Qed.

Ltac dump_layers md inherit :=
  repeat (first [ rewrite lookup_insert_unless
                | rewrite (lookup_insert_when (modtime md))
                | rewrite (lookup_insert_when (creatime md))
                | rewrite (lookup_insert_when (TimeEnd md inherit))
                | rewrite (lookup_insert_when (TimeStart md inherit))
                | rewrite lookup_empty ];
          cbn [String.eqb Ascii.eqb Bool.eqb]).

(** What [DumpJSONObject] puts under a key: for a key of [Keys] the value
    that [Get] finds, which is written last; for the other keys the required
    and the derived fields that are set. *)
Lemma DumpJSONObject_jmap_lookup (md : RawMetadata) (inherit : bool)
      (k : string) :
  DumpJSONObject_jmap range md inherit !! k
  = if decide (k ∈ keymap md inherit) then Some (IString (Get md k inherit))
    else if String.eqb k "_file_type" then
      if decide (Filetype md inherit = "") then None
      else Some (IString (Filetype md inherit))
    else if String.eqb k "_owner" then
      if decide (Owner md inherit = "") then None
      else Some (IString (Owner md inherit))
    else if String.eqb k "_time_start" then
      IString ∘ time.Format_RFC3339 <$> TimeStart md inherit
    else if String.eqb k "_time_end" then
      IString ∘ time.Format_RFC3339 <$> TimeEnd md inherit
    else if String.eqb k "__data" then
      if decide (datalink md = "") then None else Some (IString (datalink md))
    else if String.eqb k "__data_size" then
      if decide (datasize md = 0) then None else Some (IInt (datasize md))
    else if String.eqb k "__created" then
      IString ∘ time.Format_RFC3339 <$> creatime md
    else if String.eqb k "__modified" then
      IString ∘ time.Format_RFC3339 <$> modtime md
    else None.
Proof.
  unfold DumpJSONObject_jmap, Keys. cbv zeta.
  rewrite fold_left_insert_lookup.
  destruct (decide (k ∈ range (keymap md inherit))) as [Hin|Hnin].
  { rewrite (decide_True (P := k ∈ keymap md inherit))
      by (apply elem_of_range_set; exact Hin).
    reflexivity. }
  rewrite (decide_False (P := k ∈ keymap md inherit))
    by (intros H; apply Hnin, elem_of_range_set, H).
  destruct (String.eqb_spec k "_file_type") as [->|N1];
    [dump_layers md inherit; reflexivity|].
  destruct (String.eqb_spec k "_owner") as [->|N2];
    [dump_layers md inherit; reflexivity|].
  destruct (String.eqb_spec k "_time_start") as [->|N3];
    [dump_layers md inherit; destruct (TimeStart md inherit); reflexivity|].
  destruct (String.eqb_spec k "_time_end") as [->|N4];
    [dump_layers md inherit; destruct (TimeEnd md inherit); reflexivity|].
  destruct (String.eqb_spec k "__data") as [->|N5];
    [dump_layers md inherit; reflexivity|].
  destruct (String.eqb_spec k "__data_size") as [->|N6];
    [dump_layers md inherit; reflexivity|].
  destruct (String.eqb_spec k "__created") as [->|N7];
    [dump_layers md inherit; destruct (creatime md); reflexivity|].
  destruct (String.eqb_spec k "__modified") as [->|N8];
    [dump_layers md inherit; destruct (modtime md); reflexivity|].
  apply String.eqb_neq in N1, N2, N3, N4, N5, N6, N7, N8.
  repeat (first [ rewrite lookup_insert_unless
                | rewrite (lookup_insert_when (modtime md))
                | rewrite (lookup_insert_when (creatime md))
                | rewrite (lookup_insert_when (TimeEnd md inherit))
                | rewrite (lookup_insert_when (TimeStart md inherit))
                | rewrite lookup_empty ];
          rewrite ?N1, ?N2, ?N3, ?N4, ?N5, ?N6, ?N7, ?N8).
  reflexivity.
Qed.

Lemma decode_encode_IString (s : string) :
  utf8.ValidString s = true ->
  json.decode (json.encode (IString s)) = IString s.
Proof. intros H. cbn [json.encode json.decode]. rewrite (coerce_valid s H). reflexivity. Qed.

(** The keys that [DumpJSONObject] writes: those of [Keys] and the eight of
    the code. *)
Lemma DumpJSONObject_jmap_keys (md : RawMetadata) (inherit : bool)
      (k : string) (v : iface) :
  DumpJSONObject_jmap range md inherit !! k = Some v ->
  k ∈ keymap md inherit \/ is_ascii k = true.
Proof.
  rewrite DumpJSONObject_jmap_lookup.
  destruct (decide (k ∈ keymap md inherit)) as [Hin|_]; [left; exact Hin|].
  repeat match goal with
         | |- context [String.eqb k ?s] =>
           destruct (String.eqb_spec k s) as [->|_]; [intros _; right; reflexivity|]
         end.
  discriminate.
Qed.

(** A record written by [DumpJSONObject] and read back: the record read has
    as its own the file type, the owner and the arbitrary metadata that the
    record written shows (with [inherit], those of its parent where it has
    none), and its start and end time without their fraction of a second.
    The derived fields are not read back.  This for a record with none of
    the required keys in its arbitrary metadata, whose instants are in the
    years 0 to 9999, and whose file type, owner and arbitrary metadata, keys
    and values, are valid UTF-8. *)
Theorem RawMetadataFromReader_DumpJSONObject (md : RawMetadata)
        (inherit : bool) (parent : option RawMetadata) :
  (forall k, k ∈ keymap md inherit -> metadata_key k = true) ->
  (forall t, TimeStart md inherit = Some t -> wire_time t = true) ->
  (forall t, TimeEnd md inherit = Some t -> wire_time t = true) ->
  (forall k, k ∈ keymap md inherit ->
             utf8.ValidString k = true
             /\ utf8.ValidString (Get md k inherit) = true) ->
  utf8.ValidString (Filetype md inherit) = true ->
  utf8.ValidString (Owner md inherit) = true ->
  exists md',
    RawMetadataFromReader (DumpJSONObject range md inherit) parent = Ok md'
    /\ Parent md' = parent
    /\ filetype md' = Filetype md inherit
    /\ owner md' = Owner md inherit
    /\ timeStart md' = whole_second <$> TimeStart md inherit
    /\ timeEnd md' = whole_second <$> TimeEnd md inherit
    /\ (forall k, Metadata md' !! k
                  = if decide (k ∈ keymap md inherit)
                    then Some (Get md k inherit) else None)
    /\ datalink md' = "" /\ datasize md' = 0
    /\ creatime md' = None /\ modtime md' = None.
Proof.
  intros Hkeys Hts Hte Vkeys Vft Vow.
  unfold RawMetadataFromReader, UnmarshalJSON, DumpJSONObject.
  rewrite Unmarshal_map_Marshal_map.
  2:{ intros k v Hk. destruct (DumpJSONObject_jmap_keys md inherit k v Hk) as [Hin|Ha].
      - apply (Vkeys k Hin).
      - apply is_ascii_valid, Ha. }
  set (jm := json.decode <$> (json.encode <$> DumpJSONObject_jmap range md inherit)).
  assert (Hjm : forall k, jm !! k
                          = json.decode ∘ json.encode
                              <$> DumpJSONObject_jmap range md inherit !! k).
  { intros k. unfold jm. rewrite !lookup_fmap.
    destruct (DumpJSONObject_jmap range md inherit !! k); reflexivity. }
  assert (Hnot : forall k, metadata_key k = false -> k ∉ keymap md inherit).
  { intros k Hk Hin. rewrite (Hkeys k Hin) in Hk. discriminate Hk. }
  assert (Hstart : jm !! "_time_start"
                   = IString ∘ time.Format_RFC3339 <$> TimeStart md inherit).
  { rewrite Hjm, DumpJSONObject_jmap_lookup.
    rewrite (decide_False (P := _ ∈ keymap md inherit))
      by (apply Hnot; reflexivity).
    cbn [String.eqb Ascii.eqb Bool.eqb]. destruct (TimeStart md inherit); [|reflexivity].
    cbn [fmap option_fmap option_map compose json.encode json.decode].
    rewrite coerce_Format. reflexivity. }
  assert (Hend : jm !! "_time_end"
                 = IString ∘ time.Format_RFC3339 <$> TimeEnd md inherit).
  { rewrite Hjm, DumpJSONObject_jmap_lookup.
    rewrite (decide_False (P := _ ∈ keymap md inherit))
      by (apply Hnot; reflexivity).
    cbn [String.eqb Ascii.eqb Bool.eqb]. destruct (TimeEnd md inherit); [|reflexivity].
    cbn [fmap option_fmap option_map compose json.encode json.decode].
    rewrite coerce_Format. reflexivity. }
  destruct (RawMetadata_members_spec (map_to_list jm)
                                     (set_Metadata RawMetadata_zero ∅))
    as (md' & Hrun & HP & H1 & H2 & H3 & H4 & Hf & Ho & Hs & He & Hm).
  { apply NoDup_fst_map_to_list. }
  { rewrite list_to_map_to_list, Hstart. intros v Hv.
    destruct (TimeStart md inherit) as [t|]; [|discriminate Hv].
    injection Hv as <-. exists (whole_second t).
    cbn [compose AsTime]. apply time_Parse_Format, Hts. reflexivity. }
  { rewrite list_to_map_to_list, Hend. intros v Hv.
    destruct (TimeEnd md inherit) as [t|]; [|discriminate Hv].
    injection Hv as <-. exists (whole_second t).
    cbn [compose AsTime]. apply time_Parse_Format, Hte. reflexivity. }
  rewrite list_to_map_to_list in Hf, Ho, Hs, He, Hm.
  exists (set_Parent md' parent). rewrite Hrun. split; [reflexivity|].
  cbn [Parent filetype owner timeStart timeEnd Metadata datalink datasize
       creatime modtime set_Parent].
  split; [reflexivity|].
  split.
  { rewrite Hf, Hjm, DumpJSONObject_jmap_lookup.
    rewrite (decide_False (P := _ ∈ keymap md inherit))
      by (apply Hnot; reflexivity).
    cbn [String.eqb Ascii.eqb Bool.eqb].
    destruct (decide (Filetype md inherit = "")) as [->|_]; [reflexivity|].
    cbn [fmap option_fmap option_map compose json.encode json.decode AsString].
    rewrite (coerce_valid _ Vft). reflexivity. }
  split.
  { rewrite Ho, Hjm, DumpJSONObject_jmap_lookup.
    rewrite (decide_False (P := _ ∈ keymap md inherit))
      by (apply Hnot; reflexivity).
    cbn [String.eqb Ascii.eqb Bool.eqb].
    destruct (decide (Owner md inherit = "")) as [->|_]; [reflexivity|].
    cbn [fmap option_fmap option_map compose json.encode json.decode AsString].
    rewrite (coerce_valid _ Vow). reflexivity. }
  split.
  { rewrite Hs, Hstart. destruct (TimeStart md inherit) as [t|] eqn:Et;
      [|reflexivity].
    cbn [fmap option_fmap option_map compose AsTime].
    rewrite (time_Parse_Format t (Hts t eq_refl)). reflexivity. }
  split.
  { rewrite He, Hend. destruct (TimeEnd md inherit) as [t|] eqn:Et;
      [|reflexivity].
    cbn [fmap option_fmap option_map compose AsTime].
    rewrite (time_Parse_Format t (Hte t eq_refl)). reflexivity. }
  split.
  { intros k. rewrite Hm. cbn [Metadata set_Metadata RawMetadata_zero].
    rewrite lookup_empty, Hjm, DumpJSONObject_jmap_lookup.
    destruct (decide (k ∈ keymap md inherit)) as [Hin|Hnin].
    - rewrite (Hkeys k Hin).
      cbn [fmap option_fmap option_map compose json.encode json.decode AsString].
      rewrite (coerce_valid _ (proj2 (Vkeys k Hin))). reflexivity.
    - destruct (metadata_key k) eqn:Ek; [|reflexivity].
      unfold metadata_key in Ek. rewrite !andb_true_iff, !negb_true_iff in Ek.
      destruct Ek as ((((E1 & E2) & E3) & E4) & E5).
      rewrite E1, E2, E3, E4.
      assert (Hd : forall s, strings.HasPrefix s "__" = true ->
                             String.eqb k s = false).
      { intros s Hs0. destruct (String.eqb_spec k s) as [->|_]; [|reflexivity].
        rewrite Hs0 in E5. discriminate E5. }
      rewrite !Hd by reflexivity. reflexivity. }
  rewrite H1, H2, H3, H4. repeat split.
Qed.

End RawMetadataJSON.

(** [Keys] on the record of a file of the sample campaign, with the keys of
    its campaign. *)
Lemma Keys_sample :
  NoDup (Keys elements Sample.file_md true)
  /\ ("contact" ∈ Keys elements Sample.file_md true).
Proof.
  destruct (Keys_spec elements (fun S => reflexivity (elements S))
                      Sample.file_md true) as [Hnd Hk].
  split; [exact Hnd|]. apply Hk. split; [reflexivity|].
  right. split; [reflexivity|]. exists Sample.campaign_md.
  split; [reflexivity|]. eexists. reflexivity.
Defined.

(** The record of a file of the sample campaign, written with what it
    inherits and read back: the owner of the campaign is its own. *)
Lemma RawMetadataFromReader_DumpJSONObject_sample :
  exists md',
    RawMetadataFromReader (DumpJSONObject elements Sample.file_md true) None
    = Ok md'
    /\ owner md' = "alice" /\ filetype md' = "x"
    /\ timeStart md' = Some Sample.t_start.
Proof.
  destruct (RawMetadataFromReader_DumpJSONObject
              elements (fun S => reflexivity (elements S))
              Sample.file_md true None)
    as (md' & Hrun & _ & Hf & Ho & Hs & _).
  - intros k Hk. apply elem_of_keymap in Hk as [Hpre [Hown|(_ & p & Hp & Hk)]].
    + destruct Hown as [v Hv]. cbn [Sample.file_md Metadata] in Hv.
      rewrite lookup_empty in Hv. discriminate Hv.
    + injection Hp as <-. destruct Hk as [v Hv].
      cbn [Sample.campaign_md Metadata] in Hv.
      apply lookup_singleton_Some in Hv as [<- _]. reflexivity.
  - intros t Ht. injection Ht as <-. reflexivity.
  - intros t Ht. injection Ht as <-. reflexivity.
  - intros k Hk. apply elem_of_keymap in Hk as [Hpre [Hown|(_ & p & Hp & Hk)]].
    + destruct Hown as [v Hv]. cbn [Sample.file_md Metadata] in Hv.
      rewrite lookup_empty in Hv. discriminate Hv.
    + injection Hp as <-. destruct Hk as [v Hv].
      cbn [Sample.campaign_md Metadata] in Hv.
      apply lookup_singleton_Some in Hv as [<- _]. split; reflexivity.
  - reflexivity.
  - reflexivity.
  - exists md'. split; [exact Hrun|]. split; [exact Ho|]. split; [exact Hf|].
    exact Hs.
Defined.

(** ** Campaign: the names in the file cache *)

Lemma updateFileVirtualMetadata_names (fs : FS) (cam cam' : Campaign)
      (filename : string) (err : option error) :
  updateFileVirtualMetadata fs cam filename = Returns cam' err ->
  forall k, is_Some (fileMetadata_lookup cam' k)
            <-> is_Some (fileMetadata_lookup cam k).
Proof.
  unfold updateFileVirtualMetadata. intros H k.
  destruct (fileMetadata_lookup cam filename) as [mdp|] eqn:Hl;
    [|injection H as <- _; reflexivity].
  assert (Hstore : forall md0,
             is_Some (fileMetadata_lookup (store_file cam filename md0) k)
             <-> is_Some (fileMetadata_lookup cam k)).
  { intros md0. unfold store_file, fileMetadata_lookup in *.
    destruct (fileMetadata cam) as [m|]; cbn [fileMetadata set_fileMetadata];
      [|reflexivity].
    destruct (decide (k = filename)) as [->|Hne].
    - rewrite lookup_insert_eq, Hl. split; eauto.
    - rewrite lookup_insert_ne by congruence. reflexivity. }
  destruct (Stat fs (filepath.Join [path cam; filename])) as [datafi| |];
    [| |injection H as <- _; reflexivity];
    (destruct mdp as [md|]; [|discriminate H]);
    (destruct (Stat fs (filepath.Join [path cam; filename ++ FileMetadataSuffix]))
       as [metafi| |];
     [|injection H as <- _; apply Hstore..]).
  - destruct (0 <? time.Sub (ModTime datafi) (ModTime metafi));
      destruct (LinkTo (config cam) _) as [link e]; injection H as <- _;
        apply Hstore.
  - destruct (LinkTo (config cam) _) as [link e]. injection H as <- _.
    apply Hstore.
Qed.

Lemma assign_file_names (cam cam1 : Campaign) (linkname : string)
      (v : option RawMetadata) :
  assign_file cam linkname v = Some cam1 ->
  forall k, is_Some (fileMetadata_lookup cam1 k)
            <-> k = linkname \/ is_Some (fileMetadata_lookup cam k).
Proof.
  intros H k.
  destruct (fileMetadata_lookup_assign _ _ _ _ H) as (_ & _ & _ & Hk & Hother).
  destruct (decide (k = linkname)) as [->|Hne].
  - rewrite Hk. split; eauto.
  - rewrite (Hother k Hne). split; [auto | intros [?|?]; [contradiction | auto]].
Qed.

(** The loop of [reloadMetadata] only adds names to the file cache: the
    names of the metadata files it has come to. *)
Lemma reload_entries_names (fs : FS) (entries : list string) :
  forall cam cam' err,
    reload_entries fs cam entries = Returns cam' err ->
    (forall k, is_Some (fileMetadata_lookup cam k) ->
               is_Some (fileMetadata_lookup cam' k))
    /\ (forall k, is_Some (fileMetadata_lookup cam' k) ->
                  is_Some (fileMetadata_lookup cam k)
                  \/ exists name,
                      name ∈ entries
                      /\ strings.HasSuffix name FileMetadataSuffix = true
                      /\ k = linkname_of name)
    /\ (err = None ->
        forall name,
          name ∈ entries ->
          strings.HasSuffix name FileMetadataSuffix = true ->
          is_Some (fileMetadata_lookup cam' (linkname_of name))).
Proof.
  induction entries as [|name rest IH]; intros cam cam' err H.
  - injection H as <- _. repeat split; auto.
    intros _ name Hin. apply elem_of_nil in Hin. contradiction.
  - cbn [reload_entries] in H.
    destruct (strings.HasSuffix name FileMetadataSuffix) eqn:Hsuf.
    + cbv zeta in H.
      destruct (assign_file cam (linkname_of name) _) as [cam1|] eqn:Ha;
        [|discriminate H].
      pose proof (assign_file_names _ _ _ _ Ha) as Hn1.
      destruct (RawMetadataFromFile fs _ (campaignMetadata cam)) as [md|e].
      * destruct (updateFileVirtualMetadata fs cam1 (linkname_of name))
          as [cam2 [e|]|] eqn:Hu; [| |discriminate H].
        -- injection H as <- <-.
           pose proof (updateFileVirtualMetadata_names _ _ _ _ _ Hu) as Hn2.
           split; [intros k Hk; apply Hn2, Hn1; right; exact Hk|].
           split; [|discriminate].
           intros k Hk. apply Hn2, Hn1 in Hk as [->|Hk]; [|left; exact Hk].
           right. exists name. split; [apply elem_of_cons; left; reflexivity|].
           split; [exact Hsuf | reflexivity].
        -- pose proof (updateFileVirtualMetadata_names _ _ _ _ _ Hu) as Hn2.
           destruct (IH _ _ _ H) as (Hkeep & Honly & Hall).
           split; [intros k Hk; apply Hkeep, Hn2, Hn1; right; exact Hk|].
           split.
           ++ intros k Hk. apply Honly in Hk as [Hk|(n & Hin & Hs & ->)].
              ** apply Hn2, Hn1 in Hk as [->|Hk]; [|left; exact Hk].
                 right. exists name.
                 split; [apply elem_of_cons; left; reflexivity|].
                 split; [exact Hsuf | reflexivity].
              ** right. exists n.
                 split; [apply elem_of_cons; right; exact Hin|].
                 split; [exact Hs | reflexivity].
           ++ intros He n Hin Hs. apply elem_of_cons in Hin as [->|Hin].
              ** apply Hkeep, Hn2, Hn1. left. reflexivity.
              ** exact (Hall He n Hin Hs).
      * injection H as <- <-.
        split; [intros k Hk; apply Hn1; right; exact Hk|].
        split; [|discriminate].
        intros k Hk. apply Hn1 in Hk as [->|Hk]; [|left; exact Hk].
        right. exists name. split; [apply elem_of_cons; left; reflexivity|].
        split; [exact Hsuf | reflexivity].
    + destruct (IH _ _ _ H) as (Hkeep & Honly & Hall).
      split; [exact Hkeep|]. split.
      * intros k Hk. apply Honly in Hk as [Hk|(n & Hin & Hs & ->)];
          [left; exact Hk|].
        right. exists n. split; [apply elem_of_cons; right; exact Hin|].
        split; [exact Hs | reflexivity].
      * intros He n Hin Hs. apply elem_of_cons in Hin as [->|Hin].
        -- rewrite Hsuf in Hs. discriminate Hs.
        -- exact (Hall He n Hin Hs).
Qed.

(** Whatever [reloadMetadata] returns, every name that was in the file cache
    is still in it: the entry of a file whose metadata file is gone from the
    directory is never taken out.  When it returns no error after a load, the
    names in the cache are those that were in it and those of the metadata
    files of the directory. *)
Theorem reloadMetadata_names (fs : FS) (cam cam' : Campaign) (force : bool)
        (err : option error) :
  reloadMetadata fs cam force = Returns cam' err ->
  (forall k, is_Some (fileMetadata_lookup cam k) ->
             is_Some (fileMetadata_lookup cam' k))
  /\ (err = None -> force || stale cam = true ->
      forall k,
        is_Some (fileMetadata_lookup cam' k)
        <-> is_Some (fileMetadata_lookup cam k)
            \/ exists name,
                name ∈ default [] (ReadDir fs (path cam))
                /\ strings.HasSuffix name FileMetadataSuffix = true
                /\ k = linkname_of name).
Proof.
  unfold reloadMetadata. intros H.
  destruct (negb force && negb (stale cam)) eqn:Eskip.
  { injection H as <- <-. split; [auto|]. intros _ Hload.
    destruct force, (stale cam); discriminate. }
  destruct (RawMetadataFromFile fs _ None) as [md|e].
  - apply reload_entries_names in H as (Hkeep & Honly & Hall).
    split; [exact Hkeep|]. intros -> _ k. split.
    + exact (Honly k).
    + intros [Hk|(n & Hin & Hs & ->)]; [exact (Hkeep k Hk)|].
      exact (Hall eq_refl n Hin Hs).
  - injection H as <- <-. split; [auto | discriminate].
Qed.

(** In the sample campaign, loaded again after the metadata file of [a.dat]
    has gone from the directory: [a.dat] is still in the cache. *)
Lemma reloadMetadata_names_sample :
  is_Some (fileMetadata_lookup
             (state_after (reloadMetadata Sample.emptied_fs Sample.cam true)
                          Sample.cam) "a.dat").
Proof.
  destruct (reloadMetadata Sample.emptied_fs Sample.cam true)
    as [cam' err|] eqn:E; [|vm_compute in E; discriminate E].
  destruct (reloadMetadata_names _ _ _ _ _ E) as [Hkeep _].
  apply Hkeep. eexists. reflexivity.
Defined.

(** ** Campaign: reading the cache *)

#[local] Instance string_le_total : Total string_le.
Proof. intros a b. apply String.leb_total. Qed.

#[local] Instance string_le_antisym : AntiSymm eq string_le.
Proof. intros a b. apply String.leb_antisym. Qed.

#[local] Instance string_le_trans : Transitive string_le.
Proof.
  unfold string_le, String.leb. intros a b c Hab Hbc.
  destruct (String.compare a b) eqn:Eab; [| |discriminate Hab].
  - apply String.compare_eq_iff in Eab. subst b. exact Hbc.
  - destruct (String.compare b c) eqn:Ebc; [| |discriminate Hbc].
    + apply String.compare_eq_iff in Ebc. subst c. rewrite Eab. reflexivity.
    + assert (H : String.compare a c = Lt).
      { apply String_as_OT.cmp_lt.
        eapply String_as_OT.lt_trans; apply String_as_OT.cmp_lt; eassumption. }
      rewrite H. reflexivity.
Qed.

Lemma reloadMetadata_not_stale (fs : FS) (cam cam' : Campaign) (force : bool) :
  reloadMetadata fs cam force = Returns cam' None -> stale cam' = false.
Proof.
  unfold reloadMetadata. intros H.
  destruct (negb force && negb (stale cam)) eqn:Eskip.
  { injection H as <-. destruct force, (stale cam); try discriminate Eskip.
    reflexivity. }
  destruct (RawMetadataFromFile fs _ None) as [md|e]; [|discriminate H].
  apply reload_entries_spec in H as (_ & _ & Hs & _). exact Hs.
Qed.

Section CampaignReads.

Variable range : gset string -> list string.
Hypothesis range_elements : forall S : gset string, range S ≡ₚ elements S.

Lemma elem_of_cached_names (cam : Campaign) (k : string) :
  k ∈ cached_names cam <-> is_Some (fileMetadata_lookup cam k).
Proof.
  unfold cached_names, fileMetadata_lookup.
  destruct (fileMetadata cam) as [m|].
  - apply elem_of_dom.
  - rewrite elem_of_empty. split; [contradiction | intros [x Hx]; discriminate].
Qed.

(** [FileNames] returns the names of the file cache as [reloadMetadata]
    leaves it, each one once, in the ascending order of their bytes; next to
    an error it returns no list. *)
Theorem FileNames_spec (fs : FS) (cam cam' : Campaign)
        (names : option (list string)) (err : option error) :
  FileNames range fs cam = Returns (cam', names) err ->
  reloadMetadata fs cam false = Returns cam' err
  /\ match err with
     | Some _ => names = None
     | None =>
       exists l,
         names = Some l
         /\ StronglySorted string_le l
         /\ NoDup l
         /\ forall k, k ∈ l <-> is_Some (fileMetadata_lookup cam' k)
     end.
Proof.
  unfold FileNames. intros H.
  destruct (reloadMetadata fs cam false) as [cam1 [e|]|]; [| |discriminate H].
  - injection H as <- <- <-. split; reflexivity.
  - injection H as <- <- <-. split; [reflexivity|].
    eexists. split; [reflexivity|].
    split; [apply (StronglySorted_merge_sort string_le)|].
    split.
    + rewrite merge_sort_Permutation, (range_elements _). apply NoDup_elements.
    + intros k.
      rewrite merge_sort_Permutation, (range_elements _), elem_of_elements.
      apply elem_of_cached_names.
Qed.

(** Once a campaign is loaded, its metadata is served from the cache: a
    call that finds the campaign not stale returns what the cache holds,
    whatever the file system holds by then. *)
Theorem cached_reads (fs fs' : FS) (cam cam' : Campaign) (force : bool)
        (filename : string) :
  reloadMetadata fs cam force = Returns cam' None ->
  GetCampaignMetadata fs' cam' = Returns (cam', campaignMetadata cam') None
  /\ GetFileMetadata fs' cam' filename
     = match fileMetadata_lookup cam' filename with
       | Some filemd => Returns (cam', filemd) None
       | None => Returns (cam', None) (Some (PTONotFoundError "file" filename))
       end
  /\ FileNames range fs' cam'
     = Returns (cam', Some (merge_sort string_le (range (cached_names cam'))))
               None.
Proof.
  intros H. apply reloadMetadata_not_stale in H.
  unfold GetCampaignMetadata, GetFileMetadata, FileNames, reloadMetadata.
  rewrite H. cbn [negb andb]. repeat split.
Qed.

End CampaignReads.

(** The names of the sample campaign with the files [a.dat] and [b.dat]. *)
Lemma FileNames_sample :
  exists cam',
    FileNames elements (Sample.fs true (Some Sample.file_doc))
              (newCampaign Sample.cfg "test")
    = Returns (cam', Some ["a.dat"; "b.dat"]) None
    /\ StronglySorted string_le ["a.dat"; "b.dat"].
Proof.
  destruct (FileNames elements (Sample.fs true (Some Sample.file_doc))
                      (newCampaign Sample.cfg "test"))
    as [[cam' names] err|] eqn:E; [|vm_compute in E; discriminate E].
  destruct (FileNames_spec elements (fun S => reflexivity (elements S))
                           _ _ _ _ _ E) as [_ Hspec].
  assert (Hnames : names = Some ["a.dat"; "b.dat"] /\ err = None).
  { vm_compute in E. injection E as _ <- <-. split; reflexivity. }
  destruct Hnames as [-> ->]. destruct Hspec as (l & Hl & Hsorted & _).
  injection Hl as <-. exists cam'. split; [reflexivity | exact Hsorted].
Defined.

(** The sample campaign, loaded, and read when its directory is empty. *)
Lemma cached_reads_sample :
  exists cam',
    reloadMetadata (Sample.fs true None) (newCampaign Sample.cfg "test") false
    = Returns cam' None
    /\ GetCampaignMetadata Sample.emptied_fs cam'
       = Returns (cam', campaignMetadata cam') None.
Proof.
  destruct (reloadMetadata (Sample.fs true None)
                           (newCampaign Sample.cfg "test") false)
    as [cam' [e|]|] eqn:E; try (vm_compute in E; discriminate E).
  exists cam'. split; [reflexivity|].
  apply (cached_reads elements (Sample.fs true None) Sample.emptied_fs
                      (newCampaign Sample.cfg "test") cam' false "a.dat" E).
Defined.

(** *** The name of a file and the name of its metadata file *)

Lemma substring_all (s : string) : substring 0 (String.length s) s = s.
Proof. induction s as [|c s IH]; simpl; [|rewrite IH]; reflexivity. Qed.

Lemma substring_append_l (a b : string) :
  substring 0 (String.length a) (a ++ b) = a.
Proof.
  induction a as [|c a IH]; [rewrite append_nil_l; destruct b; reflexivity|].
  rewrite append_cons. simpl. rewrite IH. reflexivity.
Qed.

Lemma substring_append_r (a b : string) :
  substring (String.length a) (String.length b) (a ++ b) = b.
Proof.
  induction a as [|c a IH]; [rewrite append_nil_l; apply substring_all|].
  rewrite append_cons. simpl. exact IH.
Qed.

Lemma substring_split (s : string) :
  forall k, (k <= String.length s)%nat ->
            s = substring 0 k s ++ substring k (String.length s - k) s.
Proof.
  induction s as [|c s IH]; intros k Hk.
  - simpl in Hk. assert (k = O) by lia. subst k. reflexivity.
  - destruct k as [|k].
    + cbn [substring]. rewrite append_nil_l. simpl String.length.
      rewrite Nat.sub_0_r. change (substring 0 (S (String.length s)) (String c s))
        with (String c (substring 0 (String.length s) s)).
      rewrite substring_all. reflexivity.
    + simpl in Hk. cbn [substring String.length Nat.sub].
      rewrite append_cons. f_equal. apply IH. lia.
Qed.

Lemma linkname_of_metafile (filename : string) :
  linkname_of (filename ++ FileMetadataSuffix) = filename
  /\ strings.HasSuffix (filename ++ FileMetadataSuffix) FileMetadataSuffix = true.
Proof.
  unfold linkname_of, strings.HasSuffix. rewrite length_append.
  replace (String.length filename + String.length FileMetadataSuffix
           - String.length FileMetadataSuffix)%nat
    with (String.length filename) by lia.
  rewrite substring_append_l, substring_append_r, String.eqb_refl.
  split; [reflexivity|]. apply andb_true_iff. split; [|reflexivity].
  apply Nat.leb_le. lia.
Qed.

Lemma metafile_of_linkname (name : string) :
  strings.HasSuffix name FileMetadataSuffix = true ->
  name = linkname_of name ++ FileMetadataSuffix.
Proof.
  unfold linkname_of, strings.HasSuffix.
  remember (String.length FileMetadataSuffix) as m eqn:Hm. intros H.
  apply andb_true_iff in H as [Hlen Heq].
  apply Nat.leb_le in Hlen. apply String.eqb_eq in Heq.
  rewrite <- Heq.
  pose proof (substring_split name (String.length name - m) ltac:(lia)) as Hs.
  replace (String.length name - (String.length name - m))%nat with m in Hs
    by lia.
  exact Hs.
Qed.

(** A campaign as [ScanCampaigns] makes it, once loaded: [GetFileMetadata]
    finds a file exactly when its metadata file is in the directory listing
    that was read, and then returns a record bound to the campaign metadata;
    for any other name it returns the error of a file not found. *)
Theorem GetFileMetadata_loaded (fs fs' : FS) (config : PTOConfiguration)
        (name filename : string) (cam' : Campaign) :
  reloadMetadata fs (newCampaign config name) false = Returns cam' None ->
  (filename ++ FileMetadataSuffix
     ∈ default [] (ReadDir fs (path (newCampaign config name))) ->
   exists md,
     GetFileMetadata fs' cam' filename = Returns (cam', Some md) None
     /\ Parent md = campaignMetadata cam')
  /\ (filename ++ FileMetadataSuffix
        ∉ default [] (ReadDir fs (path (newCampaign config name))) ->
      GetFileMetadata fs' cam' filename
      = Returns (cam', None) (Some (PTONotFoundError "file" filename))).
Proof.
  intros H.
  pose proof (reloadMetadata_not_stale _ _ _ _ H) as Hstale.
  assert (Hget : GetFileMetadata fs' cam' filename
                 = match fileMetadata_lookup cam' filename with
                   | Some filemd => Returns (cam', filemd) None
                   | None =>
                     Returns (cam', None)
                             (Some (PTONotFoundError "file" filename))
                   end).
  { unfold GetFileMetadata, reloadMetadata. rewrite Hstale. reflexivity. }
  rewrite Hget.
  destruct (linkname_of_metafile filename) as [Hlink Hsuf].
  unfold reloadMetadata in H. cbn [negb andb stale newCampaign] in H.
  destruct (RawMetadataFromFile fs _ None) as [cmd|e]; [|discriminate H].
  destruct (reload_entries_names _ _ _ _ _ H) as (_ & Hnames & _).
  apply reload_entries_spec in H as (Hcm & _ & _ & _ & Hloaded).
  cbn [campaignMetadata set_campaignMetadata path] in Hcm, Hloaded.
  split.
  - intros Hin. destruct (Hloaded _ (proj1 (list_elem_of_In _ _) Hin) Hsuf)
      as (fmd & Hfmd & HP).
    rewrite Hlink in Hfmd. rewrite Hfmd. exists fmd.
    split; [reflexivity|]. rewrite HP, Hcm. reflexivity.
  - intros Hnin.
    destruct (fileMetadata_lookup cam' filename) as [filemd|] eqn:E;
      [|reflexivity].
    exfalso. apply Hnin.
    destruct (Hnames filename ltac:(eauto)) as [[x Hx]|(n & Hin & Hs & ->)].
    + unfold fileMetadata_lookup in Hx. cbn in Hx.
      rewrite lookup_empty in Hx. discriminate Hx.
    + rewrite <- (metafile_of_linkname n Hs). exact Hin.
Qed.

(** In the sample campaign: [a.dat] is found, [c.dat] is not. *)
Lemma GetFileMetadata_loaded_sample :
  exists cam',
    reloadMetadata (Sample.fs true None) (newCampaign Sample.cfg "test") false
    = Returns cam' None
    /\ GetFileMetadata Sample.emptied_fs cam' "c.dat"
       = Returns (cam', None) (Some (PTONotFoundError "file" "c.dat")).
Proof.
  destruct (reloadMetadata (Sample.fs true None)
                           (newCampaign Sample.cfg "test") false)
    as [cam' [e|]|] eqn:E; try (vm_compute in E; discriminate E).
  exists cam'. split; [reflexivity|].
  apply (GetFileMetadata_loaded (Sample.fs true None) Sample.emptied_fs
                                Sample.cfg "test" "c.dat" cam' E).
  vm_compute. intros H.
  repeat (apply elem_of_cons in H as [H|H]; [discriminate H|]).
  apply elem_of_nil in H. exact H.
Defined.

(** ** Campaign: writing metadata *)

(** A call of [updateFileVirtualMetadata] that returns no error leaves, under
    the name, the record that was there with its derived fields set anew. *)
Lemma updateFileVirtualMetadata_own (fs : FS) (cam cam' : Campaign)
      (filename : string) (md : RawMetadata) :
  fileMetadata_lookup cam filename = Some (Some md) ->
  updateFileVirtualMetadata fs cam filename = Returns cam' None ->
  exists md',
    fileMetadata_lookup cam' filename = Some (Some md')
    /\ Parent md' = Parent md /\ filetype md' = filetype md
    /\ owner md' = owner md /\ timeStart md' = timeStart md
    /\ timeEnd md' = timeEnd md /\ Metadata md' = Metadata md
    /\ stale cam' = stale cam /\ campaignMetadata cam' = campaignMetadata cam.
Proof.
  unfold updateFileVirtualMetadata. intros Hl H. rewrite Hl in H.
  assert (Hstore : forall link size c m,
             exists md',
               fileMetadata_lookup
                 (store_file cam filename (set_virtual md link size c m)) filename
               = Some (Some md')
               /\ Parent md' = Parent md /\ filetype md' = filetype md
               /\ owner md' = owner md /\ timeStart md' = timeStart md
               /\ timeEnd md' = timeEnd md /\ Metadata md' = Metadata md
               /\ stale (store_file cam filename (set_virtual md link size c m))
                  = stale cam
               /\ campaignMetadata
                    (store_file cam filename (set_virtual md link size c m))
                  = campaignMetadata cam).
  { intros link size c m. eexists.
    split; [apply (lookup_store_file _ _ _ _ Hl)|]. repeat split. }
  destruct (Stat fs (filepath.Join [path cam; filename])) as [datafi| |];
    [| |discriminate H];
    (destruct (Stat fs (filepath.Join [path cam; filename ++ FileMetadataSuffix]))
       as [metafi| |]; [|discriminate H..]).
  - destruct (0 <? time.Sub (ModTime datafi) (ModTime metafi));
      destruct (LinkTo (config cam) _) as [link e]; injection H as <- ->;
        apply Hstore.
  - destruct (LinkTo (config cam) _) as [link e]. injection H as <- ->.
    apply Hstore.
Qed.

Section CampaignWrites.

Variable range : gset string -> list string.
Variable WriteFile : FS -> string -> json.text -> FS * option error.

(** [PutCampaignMetadata] refuses metadata without an owner before it
    writes anything.  When it returns no error, the file written is the
    campaign metadata file, with the fields of the record alone, and the
    cache holds the record as campaign metadata.  In no case does it touch
    the file cache or the stale flag: the records of the files are not bound
    to the new campaign metadata. *)
Theorem PutCampaignMetadata_spec (fs fs' : FS) (cam cam' : Campaign)
        (md : RawMetadata) (err : option error) :
  PutCampaignMetadata range WriteFile fs cam (Some md) = (fs', Returns cam' err) ->
  fileMetadata cam' = fileMetadata cam
  /\ stale cam' = stale cam
  /\ path cam' = path cam
  /\ (Owner md true = "" ->
      err = Some (PTOMissingMetadataError "_owner") /\ fs' = fs /\ cam' = cam)
  /\ match err with
     | None =>
       Owner md true <> ""
       /\ campaignMetadata cam' = Some md
       /\ WriteFile fs (filepath.Join [path cam; CampaignMetadataFilename])
                    (DumpJSONObject range md false)
          = (fs', None)
     | Some _ => cam' = cam
     end.
Proof.
  unfold PutCampaignMetadata, validate, writeToFile. intros H.
  destruct (decide (Owner md true = "")) as [Ho|Ho].
  { injection H as <- <- <-. split; [reflexivity|]. split; [reflexivity|].
    split; [reflexivity|]. split; [|reflexivity]. intros _. repeat split. }
  destruct (WriteFile fs _ _) as [fs1 [e|]] eqn:Ew.
  - injection H as <- <- <-. split; [reflexivity|]. split; [reflexivity|].
    split; [reflexivity|]. split; [|reflexivity]. intros Hc. contradiction.
  - injection H as <- <- <-. split; [reflexivity|]. split; [reflexivity|].
    split; [reflexivity|]. split; [intros Hc; contradiction|].
    split; [exact Ho|]. split; reflexivity.
Qed.

(** When [PutFileMetadata] returns no error, the file cache holds under the
    name a record with the file type, owner, times and arbitrary metadata
    given, bound to the campaign metadata; the record has a file type, its
    own or that of the campaign; the file written is the metadata file of
    the name, with the fields of the record alone. *)
Theorem PutFileMetadata_spec (fs fs' : FS) (cam cam' : Campaign)
        (filename : string) (md : RawMetadata) :
  PutFileMetadata range WriteFile fs cam filename md = (fs', Returns cam' None) ->
  exists cam1 md',
    reloadMetadata fs cam false = Returns cam1 None
    /\ WriteFile fs (filepath.Join [path cam1; filename ++ FileMetadataSuffix])
                 (DumpJSONObject range (set_Parent md (campaignMetadata cam1))
                                 false)
       = (fs', None)
    /\ fileMetadata_lookup cam' filename = Some (Some md')
    /\ Parent md' = campaignMetadata cam'
    /\ filetype md' = filetype md /\ owner md' = owner md
    /\ timeStart md' = timeStart md /\ timeEnd md' = timeEnd md
    /\ Metadata md' = Metadata md
    /\ Filetype md' true <> ""
    /\ stale cam' = false.
Proof.
  unfold PutFileMetadata, writeToFile. intros H.
  destruct (reloadMetadata fs cam false) as [cam1 [e|]|] eqn:Er;
    [discriminate H| |discriminate H].
  pose proof (reloadMetadata_not_stale _ _ _ _ Er) as Hstale.
  destruct (decide (Filetype (set_Parent md (campaignMetadata cam1)) true = ""))
    as [Hft|Hft]; [discriminate H|].
  destruct (WriteFile fs _ _) as [fs1 [e|]] eqn:Ew; [discriminate H|].
  destruct (assign_file cam1 filename _) as [cam2|] eqn:Ea; [|discriminate H].
  injection H as <- Hu.
  destruct (fileMetadata_lookup_assign _ _ _ _ Ea) as (Hs2 & Hc2 & _ & Hl2 & _).
  destruct (updateFileVirtualMetadata_own _ _ _ _ _ Hl2 Hu)
    as (md' & Hl & HP & Hf & Ho & Hts & Hte & Hm & Hs & Hc).
  exists cam1, md'. split; [reflexivity|]. split; [exact Ew|].
  split; [exact Hl|]. rewrite Hc, Hc2, Hs, Hs2.
  repeat split; try assumption.
  unfold Filetype in *. rewrite HP, Hf. exact Hft.
Qed.

(** After [unloadMetadata], [PutFileMetadata] never returns without an
    error: the file cache is nil and is not made anew, so the call returns an
    error or panics, at the latest where it puts the record in the cache. *)
Theorem PutFileMetadata_after_unload (fs fs' : FS) (cam cam' : Campaign)
        (filename : string) (md : RawMetadata) (err : option error) :
  PutFileMetadata range WriteFile fs (unloadMetadata cam) filename md
  = (fs', Returns cam' err) ->
  err <> None.
Proof.
  unfold PutFileMetadata, writeToFile. intros H.
  destruct (reloadMetadata fs (unloadMetadata cam) false)
    as [cam1 [e|]|] eqn:Er; [injection H as _ _ <-; discriminate| |discriminate H].
  apply reloadMetadata_keeps_nil in Er; [|reflexivity].
  destruct (decide (Filetype (set_Parent md (campaignMetadata cam1)) true = ""));
    [injection H as _ _ <-; discriminate|].
  destruct (WriteFile fs _ _) as [fs1 [e|]];
    [injection H as _ _ <-; discriminate|].
  unfold assign_file in H. rewrite Er in H. discriminate H.
Qed.

End CampaignWrites.

(** The owner of the sample campaign is changed to bob: the record of
    [a.dat] in the cache is the one bound to the metadata of alice. *)
Lemma PutCampaignMetadata_sample :
  fileMetadata
    (state_after (snd (PutCampaignMetadata elements Sample.write
                                           (Sample.fs true None) Sample.cam
                                           (Some Sample.bob_md)))
                 Sample.cam)
  = Some {["a.dat" := Some Sample.file_md]}.
Proof.
  destruct (PutCampaignMetadata elements Sample.write (Sample.fs true None)
                                Sample.cam (Some Sample.bob_md))
    as [fs' [cam' err|]] eqn:E; [|vm_compute in E; discriminate E].
  destruct (PutCampaignMetadata_spec _ _ _ _ _ _ _ _ E) as (Hfiles & _).
  cbn [snd state_after]. rewrite Hfiles. reflexivity.
Defined.

(** Metadata for a new file [c.dat] of the sample campaign. *)
Lemma PutFileMetadata_sample :
  exists fs' cam' md',
    PutFileMetadata elements Sample.write (Sample.fs true None) Sample.cam
                    "c.dat" Sample.c_md
    = (fs', Returns cam' None)
    /\ fileMetadata_lookup cam' "c.dat" = Some (Some md')
    /\ Parent md' = Some Sample.campaign_md
    /\ filetype md' = "z".
Proof.
  destruct (PutFileMetadata elements Sample.write (Sample.fs true None)
                            Sample.cam "c.dat" Sample.c_md)
    as [fs' [cam' [e|]|]] eqn:E; try (vm_compute in E; discriminate E).
  destruct (PutFileMetadata_spec _ _ _ _ _ _ _ _ E)
    as (cam1 & md' & Hr & _ & Hl & HP & Hf & _).
  exists fs', cam', md'. split; [reflexivity|]. split; [exact Hl|].
  split; [|exact Hf]. rewrite HP.
  assert (Hc : campaignMetadata cam' = Some Sample.campaign_md).
  { vm_compute in E. injection E as _ <-. reflexivity. }
  exact Hc.
Defined.

(** The sample campaign, unloaded: metadata without a file type is
    refused for [c.dat], as it was before. *)
Lemma PutFileMetadata_after_unload_sample :
  match snd (PutFileMetadata elements Sample.write Sample.emptied_fs
                             (unloadMetadata Sample.cam) "c.dat"
                             RawMetadata_zero) with
  | Returns _ err => err <> None
  | Panics => False
  end.
Proof.
  destruct (PutFileMetadata elements Sample.write Sample.emptied_fs
                            (unloadMetadata Sample.cam) "c.dat"
                            RawMetadata_zero)
    as [fs' [cam' err|]] eqn:E; [|vm_compute in E; discriminate E].
  exact (PutFileMetadata_after_unload _ _ _ _ _ _ _ _ _ E).
Defined.

(** ** Campaign: creating a data file *)

(** For a plain file name in a campaign directory, [WriteFileData] creates
    the file of that name in the directory, and no other; without [force] it
    creates nothing and returns the error of an existing file unless [os.Stat]
    says that the file is not there (a failing [os.Stat] counts as a file
    that exists). *)
Theorem WriteFileData_plain (fs : FS) (cam : Campaign) (filename : string)
        (force : bool) :
  campaign_dir (path cam) = true ->
  plain_name filename = true ->
  WriteFileData fs cam filename force
  = if negb force
       && match Stat fs (path cam ++ "/" ++ filename) with
          | StatNotExist => false
          | _ => true
          end
    then ([], Some (PTOExistsError "file" filename))
    else ([OpCreate (path cam ++ "/" ++ filename)], None).
Proof.
  intros Hdir Hname. unfold WriteFileData. cbv zeta.
  assert (Hok : path_ok cam (rawpath_of cam filename) = true).
  { apply path_ok_spec; [exact Hdir|]. exists filename.
    split; [apply rawpath_plain; assumption | exact Hname]. }
  rewrite Hok, (rawpath_plain cam filename Hdir Hname). reflexivity.
Qed.

(** In the sample campaign: [a.dat] is there and is not created again. *)
Lemma WriteFileData_plain_sample :
  WriteFileData (Sample.fs true None) Sample.cam "a.dat" false
  = ([], Some (PTOExistsError "file" "a.dat"))
  /\ WriteFileData (Sample.fs true None) Sample.cam "a.dat" true
     = ([OpCreate "/srv/raw/test/a.dat"], None).
Proof.
  split.
  - rewrite (WriteFileData_plain (Sample.fs true None) Sample.cam "a.dat" false);
      reflexivity.
  - rewrite (WriteFileData_plain (Sample.fs true None) Sample.cam "a.dat" true);
      reflexivity.
Defined.

(** ** Campaign: data from a stream *)

Section CampaignStream.

Variable StoreData : FS -> string -> FS * store_result.

(** [WriteFileDataFromStream] does not load the metadata of the campaign:
    for a name that the file cache does not hold (any name, in a campaign
    that has not been loaded) it never returns without an error, and the
    cache is as it was.  When the path is accepted and the data stored, the
    data file is there and the error is that of a file not found. *)
Theorem WriteFileDataFromStream_unknown (fs : FS) (cam : Campaign)
        (filename : string) (force : bool) :
  fileMetadata_lookup cam filename = None ->
  (exists e,
      snd (WriteFileDataFromStream StoreData fs cam filename force)
      = Returns cam (Some e))
  /\ (forall fs1,
         snd (WriteFileData fs cam filename force) = None ->
         StoreData fs (rawpath_of cam filename) = (fs1, Stored) ->
         WriteFileDataFromStream StoreData fs cam filename force
         = (fs1, Returns cam (Some (PTONotFoundError "file" filename)))).
Proof.
  intros Hl. unfold WriteFileDataFromStream.
  assert (Hu : forall fs0, updateFileVirtualMetadata fs0 cam filename
                           = Returns cam (Some (PTONotFoundError "file" filename))).
  { intros fs0. unfold updateFileVirtualMetadata. rewrite Hl. reflexivity. }
  destruct (WriteFileData fs cam filename force) as [ops [e|]].
  - split; [eexists; reflexivity|]. intros fs1 Hw. discriminate Hw.
  - split.
    + destruct (StoreData fs (rawpath_of cam filename)) as [fs1 [e|e| |]];
        cbn [snd]; rewrite ?Hu; eexists; reflexivity.
    + intros fs1 _ Hs. rewrite Hs, Hu. reflexivity.
Qed.

End CampaignStream.

(** Data for [c.dat] in the sample campaign, which has no metadata for it:
    the data is stored and the call returns the error of a file not
    found. *)
Lemma WriteFileDataFromStream_unknown_sample :
  snd (WriteFileDataFromStream Sample.store (Sample.fs true None) Sample.cam
                               "c.dat" false)
  = Returns Sample.cam (Some (PTONotFoundError "file" "c.dat"))
  /\ Stat (fst (WriteFileDataFromStream Sample.store (Sample.fs true None)
                                        Sample.cam "c.dat" false))
          "/srv/raw/test/c.dat"
     = StatOk (mkFileInfo 100 Sample.write_time).
Proof.
  destruct (WriteFileDataFromStream_unknown
              Sample.store (Sample.fs true None) Sample.cam "c.dat" false)
    as [_ Hstored]; [reflexivity|].
  rewrite (Hstored (fst (Sample.store (Sample.fs true None)
                                      "/srv/raw/test/c.dat")));
    [split; reflexivity | reflexivity | reflexivity].
Defined.

(** ** RawDataStore *)

Section RawDataStoreProperties.

Variable range : gset string -> list string.
Variable WriteFile : FS -> string -> json.text -> FS * option error.
Variable Mkdir : FS -> string -> FS * option error.
Variable IsDir : FS -> string -> string -> bool.

(** The loop of [ScanCampaigns]: when it returns no error, the cache has a
    new campaign for every entry that is a directory with a campaign metadata
    file, and is otherwise as it was. *)
Lemma scan_entries_spec (fs : FS) (config : PTOConfiguration) (root : string)
      (entries : list string) :
  forall cams cams',
    scan_entries IsDir fs config root entries cams = (cams', None) ->
    forall name,
      cams' !! name
      = if bool_decide (name ∈ entries) && IsDir fs root name
           && match Stat fs (filepath.Join [root; name; CampaignMetadataFilename])
              with StatOk _ => true | _ => false end
        then Some (newCampaign config name)
        else cams !! name.
Proof.
  induction entries as [|e entries IH]; intros cams cams' H name.
  - injection H as <-. reflexivity.
  - cbn [scan_entries] in H.
    assert (Hskip : scan_entries IsDir fs config root entries cams = (cams', None) ->
                    (IsDir fs root e
                     && match Stat fs (filepath.Join
                                         [root; e; CampaignMetadataFilename])
                        with StatOk _ => true | _ => false end) = false ->
                    cams' !! name
                    = if bool_decide (name ∈ e :: entries) && IsDir fs root name
                         && match Stat fs (filepath.Join
                                             [root; name; CampaignMetadataFilename])
                            with StatOk _ => true | _ => false end
                      then Some (newCampaign config name)
                      else cams !! name).
    { intros H' Hno. rewrite (IH _ _ H' name).
      destruct (decide (name = e)) as [->|Hne].
      - rewrite (bool_decide_eq_true_2 (e ∈ e :: entries))
          by (apply elem_of_cons; left; reflexivity).
        rewrite <- !andb_assoc, Hno, !andb_false_r. reflexivity.
      - rewrite (bool_decide_ext (name ∈ e :: entries) (name ∈ entries));
          [reflexivity|].
        rewrite elem_of_cons. split; [intros [?|?]; [contradiction|auto] | auto]. }
    destruct (IsDir fs root e) eqn:Edir; [|apply Hskip; [exact H | reflexivity]].
    destruct (Stat fs (filepath.Join [root; e; CampaignMetadataFilename]))
      as [fi| |] eqn:Est; [|apply Hskip; [exact H | reflexivity]|discriminate H].
    rewrite (IH _ _ H name).
    destruct (decide (name = e)) as [->|Hne].
    + rewrite (bool_decide_eq_true_2 (e ∈ e :: entries))
        by (apply elem_of_cons; left; reflexivity).
      rewrite Edir, Est, lookup_insert_eq. cbn [andb].
      destruct (bool_decide (e ∈ entries)); reflexivity.
    + rewrite lookup_insert_ne by congruence.
      rewrite (bool_decide_ext (name ∈ e :: entries) (name ∈ entries));
        [reflexivity|].
      rewrite elem_of_cons. split; [intros [?|?]; [contradiction|auto] | auto].
Qed.

(** A store made by [NewRawDataStore] has a campaign for a name exactly when
    the root directory lists the name as a directory that holds a campaign
    metadata file; the campaign is then a new one, stale and with an empty
    file cache; for any other name [CampaignForName] returns the error of a
    campaign not found. *)
Theorem NewRawDataStore_campaigns (fs : FS) (config : PTOConfiguration)
        (rds : RawDataStore) :
  NewRawDataStore IsDir fs config = (Some rds, None) ->
  exists entries,
    ReadDir fs (RawRoot config) = Some entries
    /\ forall camname,
        CampaignForName rds camname
        = if bool_decide (camname ∈ entries)
             && IsDir fs (RawRoot config) camname
             && match Stat fs (filepath.Join [RawRoot config; camname;
                                              CampaignMetadataFilename])
                with StatOk _ => true | _ => false end
          then (Some (newCampaign config camname), None)
          else (None, Some (PTONotFoundError "campaign" camname)).
Proof.
  unfold NewRawDataStore, ScanCampaigns.
  cbn [rds_path rds_config]. intros H.
  destruct (ReadDir fs (RawRoot config)) as [entries|]; [|discriminate H].
  destruct (scan_entries IsDir fs config (RawRoot config) entries ∅)
    as [cams [e|]] eqn:Es; [discriminate H|].
  injection H as <-. exists entries. split; [reflexivity|].
  intros camname. unfold CampaignForName. cbn [campaigns mbind option_bind].
  rewrite (scan_entries_spec _ _ _ _ _ _ Es camname), lookup_empty.
  destruct (bool_decide (camname ∈ entries) && IsDir fs (RawRoot config) camname
            && match Stat fs _ with StatOk _ => true | _ => false end);
    reflexivity.
Qed.

(** [CreateCampaign] refuses metadata without an owner, and a name whose
    path [os.Stat] does not report as absent, before it makes a directory or
    writes a file; it panics on nil metadata.  The store and the file system
    are then as they were. *)
Theorem CreateCampaign_refuses (fs : FS) (rds : RawDataStore)
        (camname : string) (md : RawMetadata) :
  CreateCampaign range WriteFile Mkdir fs rds camname None = (fs, Panics)
  /\ (Owner md true = "" ->
      CreateCampaign range WriteFile Mkdir fs rds camname (Some md)
      = (fs, Returns (rds, None) (Some (PTOMissingMetadataError "_owner"))))
  /\ (Owner md true <> "" ->
      Stat fs (filepath.Join [RawRoot (rds_config rds); camname]) <> StatNotExist ->
      CreateCampaign range WriteFile Mkdir fs rds camname (Some md)
      = (fs, Returns (rds, None) (Some (PTOExistsError "campaign" camname)))).
Proof.
  unfold CreateCampaign, newCampaign_md, PutCampaignMetadata, validate.
  cbn [path newCampaign].
  split; [reflexivity|]. split.
  - intros Ho. rewrite decide_True by exact Ho. reflexivity.
  - intros Ho Hst. rewrite decide_False by exact Ho.
    destruct (Stat fs _); [reflexivity | contradiction | reflexivity].
Qed.

(** When [CreateCampaign] returns no error, the name was not there before,
    the metadata has an owner, and the store holds under the name the
    campaign returned: loaded (not stale), with the metadata given as its
    campaign metadata; the other campaigns of the store are as they were. *)
Theorem CreateCampaign_creates (fs fs' : FS) (rds rds' : RawDataStore)
        (camname : string) (md : option RawMetadata) (cam : option Campaign) :
  CreateCampaign range WriteFile Mkdir fs rds camname md
  = (fs', Returns (rds', cam) None) ->
  exists m cam',
    md = Some m /\ cam = Some cam'
    /\ Owner m true <> ""
    /\ Stat fs (filepath.Join [RawRoot (rds_config rds); camname]) = StatNotExist
    /\ path cam' = filepath.Join [RawRoot (rds_config rds); camname]
    /\ campaignMetadata cam' = Some m
    /\ stale cam' = false
    /\ (campaigns rds' ≫= (fun c => c !! camname)) = Some cam'
    /\ forall other, other <> camname ->
                     (campaigns rds' ≫= (fun c => c !! other))
                     = (campaigns rds ≫= (fun c => c !! other)).
Proof.
  unfold CreateCampaign, newCampaign_md. intros H.
  destruct md as [m|]; [|discriminate H]. unfold validate in H.
  destruct (decide (Owner m true = "")) as [Ho|Ho]; [discriminate H|].
  cbn [path newCampaign] in H.
  destruct (Stat fs (filepath.Join [RawRoot (rds_config rds); camname]))
    as [fi| |] eqn:Est; [discriminate H| |discriminate H].
  destruct (Mkdir fs _) as [fs1 [e|]]; [discriminate H|].
  unfold writeToFile in H.
  destruct (WriteFile fs1 _ _) as [fs2 [e|]]; [discriminate H|].
  destruct (reloadMetadata fs2 _ true) as [cam1 [e|]|] eqn:Er;
    [discriminate H| |discriminate H].
  pose proof (reloadMetadata_not_stale _ _ _ _ Er) as Hstale.
  assert (Hpath : path cam1 = filepath.Join [RawRoot (rds_config rds); camname]).
  { unfold reloadMetadata in Er. cbn [negb andb] in Er.
    destruct (RawMetadataFromFile fs2 _ None); [|discriminate Er].
    apply reload_entries_spec in Er as (_ & Hp & _). exact Hp. }
  unfold PutCampaignMetadata, validate, writeToFile in H.
  rewrite (decide_False (P := Owner m true = "")) in H by exact Ho.
  destruct (WriteFile fs2 _ _) as [fs3 [e|]]; [discriminate H|].
  destruct (campaigns rds) as [c|] eqn:Ec; [|discriminate H].
  injection H as <- <- <-. exists m, (set_campaignMetadata cam1 (Some m)).
  split; [reflexivity|]. split; [reflexivity|]. split; [exact Ho|].
  split; [reflexivity|]. split; [exact Hpath|].
  split; [reflexivity|]. split; [exact Hstale|].
  cbn [campaigns mbind option_bind]. split; [apply lookup_insert_eq|].
  intros other Hne. apply lookup_insert_ne. congruence.
Qed.

End RawDataStoreProperties.

(** The store of the sample: the campaign [test] is there, the file
    [notes.txt] is no campaign. *)
Lemma NewRawDataStore_campaigns_sample :
  exists rds,
    NewRawDataStore Sample.isdir Sample.root_fs Sample.cfg = (Some rds, None)
    /\ CampaignForName rds "test" = (Some (newCampaign Sample.cfg "test"), None)
    /\ CampaignForName rds "notes.txt"
       = (None, Some (PTONotFoundError "campaign" "notes.txt")).
Proof.
  destruct (NewRawDataStore Sample.isdir Sample.root_fs Sample.cfg)
    as [[rds|] [e|]] eqn:E; try (vm_compute in E; discriminate E).
  destruct (NewRawDataStore_campaigns _ _ _ _ E) as (entries & Hdir & Hfor).
  injection Hdir as <-.
  exists rds. split; [reflexivity|]. split; rewrite Hfor; reflexivity.
Defined.

(** A campaign without an owner, and a campaign of a name that is taken. *)
Lemma CreateCampaign_refuses_sample :
  CreateCampaign elements Sample.write Sample.mkdir Sample.root_fs
                 Sample.empty_store "test" (Some Sample.bob_md)
  = (Sample.root_fs,
     Returns (Sample.empty_store, None) (Some (PTOExistsError "campaign" "test"))).
Proof.
  destruct (CreateCampaign_refuses elements Sample.write Sample.mkdir
                                   Sample.root_fs Sample.empty_store "test"
                                   Sample.bob_md) as (_ & _ & Htaken).
  apply Htaken.
  - discriminate.
  - vm_compute. discriminate.
Defined.

(** A new campaign [fresh] of bob in the store of the sample. *)
Lemma CreateCampaign_creates_sample :
  exists fs' rds' cam',
    CreateCampaign elements Sample.write Sample.mkdir Sample.emptied_fs
                   Sample.empty_store "fresh" (Some Sample.bob_md)
    = (fs', Returns (rds', Some cam') None)
    /\ campaignMetadata cam' = Some Sample.bob_md
    /\ stale cam' = false.
Proof.
  destruct (CreateCampaign elements Sample.write Sample.mkdir Sample.emptied_fs
                           Sample.empty_store "fresh" (Some Sample.bob_md))
    as [fs' [[rds' cam] [e|]|]] eqn:E; try (vm_compute in E; discriminate E).
  destruct (CreateCampaign_creates _ _ _ _ _ _ _ _ _ _ E)
    as (m & cam' & Hm & -> & _ & _ & _ & Hc & Hs & _).
  injection Hm as <-.
  exists fs', rds', cam'. split; [reflexivity|]. split; [exact Hc | exact Hs].
Defined.

(** ** PathCache: the rows written *)

Lemma produce_rows (strs : list string) :
  forall (cache : gmap string Z) (pidseq : Z),
    (produce cache pidseq strs).1.2.*2 = strs.
Proof.
  induction strs as [|s strs IH]; intros cache pidseq; [reflexivity|].
  cbn [produce]. specialize (IH (<[s := pidseq]> cache) (wrap_int (pidseq + 1))).
  destruct (produce (<[s := pidseq]> cache) (wrap_int (pidseq + 1)) strs)
    as [[cache' rows] last].
  cbn [fst snd fmap list_fmap] in *. rewrite IH. reflexivity.
Qed.

Section PathCacheRows.

Variable range : gset string -> list string.
Hypothesis range_elements : forall S : gset string, range S ≡ₚ elements S.

(** A call of [CacheNewPaths] that returns no error appends to the table
    one row for each string it has registered, with the id the cache has for
    the string and with the string as the copy reads it from the pipe (NULL
    for the empty string), and leaves the rows that were there.  The table is
    not looked at: a string that is in the table but not in the cache is
    written a second time. *)
Theorem CacheNewPaths_rows (io : answers) (db db' : DB)
        (cache cache' : gmap string Z) (pathSet pathSet' : gset string) :
  int_min <= paths_id_seq db + 1 ->
  paths_id_seq db + 1 + Z.of_nat (size pathSet) <= int_max ->
  CacheNewPaths range io db cache pathSet = (db', cache', pathSet', None) ->
  exists rows,
    paths db' = (paths db ++ rows)%list
    /\ rows.*2 ≡ₚ copy_string <$> elements pathSet'
    /\ (forall s, s ∈ pathSet' ->
                  exists id,
                    cache' !! s = Some id
                    /\ (id, if decide (s = "") then None else Some s) ∈ rows)
    /\ (forall id o,
           (id, o) ∈ rows ->
           exists s, s ∈ pathSet' /\ o = copy_string s /\ cache' !! s = Some id)
    /\ (forall id s,
           (id, copy_string s) ∈ paths db -> s ∈ pathSet ->
           ¬ (0 < cache_get cache s) ->
           exists id', (id', copy_string s) ∈ rows
                       /\ (id, copy_string s) ∈ paths db'
                       /\ (id', copy_string s) ∈ paths db').
Proof.
  intros Hlo Hhi H. unfold CacheNewPaths in H.
  destruct (QueryOne_err io); [discriminate H|]. cbn [nextval] in H.
  destruct (Exec_err io); [discriminate H|].
  destruct (Pipe_err io); [discriminate H|].
  set (S' := filter (fun ps => ¬ (0 < cache_get cache ps)) pathSet) in *.
  destruct (CopyFrom_err io); [destruct (produce _ _ _) as [[? ?] ?]; discriminate H|].
  pose proof (produce_rows (range S') cache (paths_id_seq db + 1)) as Hrows.
  destruct (produce cache (paths_id_seq db + 1) (range S'))
    as [[cache1 rows] last] eqn:Ep.
  cbn [fst snd] in Hrows.
  injection H as <- <- <-.
  assert (Hsize : (size S' <= size pathSet)%nat)
    by (apply subseteq_size; intros x Hx; apply elem_of_filter in Hx; tauto).
  destruct (produce_spec (range S') cache cache1 (paths_id_seq db + 1) last rows)
    as (Hcache & _ & Hrow & _); try assumption.
  { apply (range_NoDup range range_elements). }
  { rewrite (length_range range range_elements). lia. }
  set (stored := fun r : Z * string => (fst r, copy_string (snd r))).
  assert (Hin : forall id s, (id, s) ∈ rows ->
                             s ∈ S' /\ cache1 !! s = Some id).
  { intros id s Hr. apply list_elem_of_lookup in Hr as [i Hi].
    assert (Hs : range S' !! i = Some s).
    { rewrite <- Hrows, list_lookup_fmap, Hi. reflexivity. }
    rewrite (Hrow i s Hs) in Hi. injection Hi as <-. split.
    - apply (elem_of_range range range_elements), list_elem_of_lookup. eauto.
    - exact (Hcache i s Hs). }
  assert (Hrow' : forall s, s ∈ S' ->
                            exists id, cache1 !! s = Some id
                                       /\ (id, copy_string s) ∈ map stored rows).
  { intros s Hs. apply (elem_of_range range range_elements) in Hs.
    apply list_elem_of_lookup in Hs as [i Hi].
    exists (paths_id_seq db + 1 + Z.of_nat i). split; [exact (Hcache i s Hi)|].
    apply (list_elem_of_fmap_2 stored rows (paths_id_seq db + 1 + Z.of_nat i, s)).
    apply list_elem_of_lookup. exists i. exact (Hrow i s Hi). }
  exists (map stored rows). cbn [CopyFrom setval paths].
  split; [reflexivity|]. split; [|split; [exact Hrow'|split]].
  - rewrite <- (range_elements S'), <- Hrows.
    change (map stored rows) with (stored <$> rows).
    rewrite <- !list_fmap_compose. reflexivity.
  - intros id o Hr. apply list_elem_of_fmap in Hr as ([id0 s] & Heq & Hr).
    injection Heq as -> ->. destruct (Hin _ _ Hr) as [Hs Hc].
    exists s. auto.
  - intros id s Hold Hs Hnot.
    destruct (Hrow' s) as (id' & _ & Hr); [apply elem_of_filter; auto|].
    exists id'. split; [exact Hr|].
    split; apply elem_of_app; [left | right]; assumption.
Qed.

End PathCacheRows.

(** The two paths of the sample, of which the first is in the table at the
    id 4 and not in the cache: the table then has it a second time, at the
    id that the cache has for it. *)
Lemma CacheNewPaths_rows_sample :
  exists id',
    (4, Some "1.2.3.4 * 5.6.7.8")
      ∈ paths (CacheNewPaths elements Sample.no_errors Sample.db_with_row
                             ∅ Sample.two_paths).1.1.1
    /\ (id', Some "1.2.3.4 * 5.6.7.8")
         ∈ paths (CacheNewPaths elements Sample.no_errors Sample.db_with_row
                                ∅ Sample.two_paths).1.1.1
    /\ (CacheNewPaths elements Sample.no_errors Sample.db_with_row
                       ∅ Sample.two_paths).1.1.2 !! "1.2.3.4 * 5.6.7.8"
       = Some id'.
Proof.
  destruct (CacheNewPaths_rows
              elements (fun S => Permutation_refl (elements S))
              Sample.no_errors Sample.db_with_row
              (CacheNewPaths elements Sample.no_errors Sample.db_with_row
                             ∅ Sample.two_paths).1.1.1
              ∅
              (CacheNewPaths elements Sample.no_errors Sample.db_with_row
                             ∅ Sample.two_paths).1.1.2
              Sample.two_paths
              (CacheNewPaths elements Sample.no_errors Sample.db_with_row
                             ∅ Sample.two_paths).1.2)
    as (rows & _ & _ & _ & Hcache & Hdup).
  - vm_compute. discriminate.
  - vm_compute. discriminate.
  - vm_compute. reflexivity.
  - destruct (Hdup 4 "1.2.3.4 * 5.6.7.8") as (id' & Hr & Hold & Hnew).
    + apply elem_of_cons. left. reflexivity.
    + compute_done.
    + vm_compute. discriminate.
    + exists id'. split; [exact Hold|]. split; [exact Hnew|].
      destruct (Hcache _ _ Hr) as (s & _ & Heq & Hc).
      unfold copy_string in Heq.
      destruct (decide (s = "")); [discriminate Heq|].
      injection Heq as <-. exact Hc.
Defined.
